(** * System resource monitor: a model of [monitor.py] and its properties

    The development embeds the sampling/alerting core of [ResourceMonitor]
    (threshold evaluation, the notification cooldown, the bounded alert
    history and the persisted state) and proves or refutes the properties
    stated for it.

    Modelling conventions.
    - Python floats (percentages, transfer rates, [time.time()] readings) are
      idealised as rationals [Q]; their comparisons are the exact ones.
    - [self] is threaded through a state-and-exception monad [M]: a raised
      exception keeps every mutation made before it, as in Python.
    - Everything a tick reads from outside (psutil, the clocks, the HTTP
      answer of the Telegram API) is collected in a [Readings] record.
    - [logging] calls and the text of outbound messages have no effect on
      the monitor's state and are left out.
    - The configuration is taken as already parsed and well typed; an
      absent option is [None] and the code's [.get(key, default)] supplies
      the default.
    - [self.stats] and [self.last_alert_times] are dynamically typed
      ([pyval]): [load_state] stores in them whatever JSON value the state
      file holds, and the code that uses them raises when they are not
      what it expects.
    - A [str] is the list of the bytes of its UTF-8 encoding, a lone
      surrogate (which a [str] can hold, and UTF-8 cannot encode) being
      written as the three bytes its code point would take. *)

From Stdlib Require Import QArith Qminmax Qfield Qround Lqa ZArith String List.
From stdpp Require Import strings list pretty.

#[local] Set Warnings "-register-all".
#[local] Open Scope Z_scope.

(** ** Python values *)

(** [a > b], [a < b] and [a == b] on numbers. *)
Definition py_gt (a b : Q) : bool := negb (Qle_bool a b).
Definition py_lt (a b : Q) : bool := negb (Qle_bool b a).
Definition py_eq (a b : Q) : bool := Qeq_bool a b.

(** A naive [datetime], as [datetime.now()] returns it. *)
Record datetime := mk_datetime {
  year : Z; month : Z; day : Z;
  hour : Z; minute : Z; second : Z; microsecond : Z
}.

(** The dynamically typed values that occur in [self.stats] and in
    [self.last_alert_times]: the JSON values and [datetime] objects.  A dict with string keys is an
    association list in insertion order, without duplicate keys. *)
Inductive pyval :=
| PNone
| PBool (b : bool)
| PInt (z : Z)
| PFloat (q : Q)
| PStr (s : string)
| PList (l : list pyval)
| PDict (d : list (string * pyval))
| PDatetime (t : datetime).

(** What [json.dump] accepts without a [default=] hook: everything but
    [datetime], at any depth. *)
Fixpoint json_serializable (v : pyval) : bool :=
  match v with
  | PList l => forallb json_serializable l
  | PDict d => forallb (fun kv => json_serializable (snd kv)) d
  | PDatetime _ => false
  | _ => true
  end.

Inductive exn :=
  KeyError | TypeError | ValueError | AttributeError | PermissionError | OSError.

Inductive result (A : Type) :=
| Ok (a : A)
| Raise (e : exn).
Arguments Ok {A} a.
Arguments Raise {A} e.

(** [d[k]] and [d[k] = v] on an association list. *)
Fixpoint dict_get (k : string) (d : list (string * pyval)) : option pyval :=
  match d with
  | [] => None
  | (k', v) :: d' => if String.eqb k k' then Some v else dict_get k d'
  end.

Fixpoint dict_set (k : string) (v : pyval) (d : list (string * pyval))
  : list (string * pyval) :=
  match d with
  | [] => [(k, v)]
  | (k', v') :: d' =>
      if String.eqb k k' then (k', v) :: d' else (k', v') :: dict_set k v d'
  end.

(** [x + 1]: defined on [int], [float] and [bool], a [TypeError] elsewhere. *)
Definition py_add1 (v : pyval) : result pyval :=
  match v with
  | PInt z => Ok (PInt (z + 1))
  | PFloat q => Ok (PFloat (q + 1))
  | PBool b => Ok (PInt ((if b then 1 else 0) + 1))
  | _ => Raise TypeError
  end.

(** [obj[k] += 1]: subscripting a non-dict with a string is a [TypeError],
    a missing key a [KeyError]. *)
Definition py_incr_item (k : string) (obj : pyval) : result pyval :=
  match obj with
  | PDict d =>
      match dict_get k d with
      | None => Raise KeyError
      | Some v =>
          match py_add1 v with
          | Ok v' => Ok (PDict (dict_set k v' d))
          | Raise e => Raise e
          end
      end
  | _ => Raise TypeError
  end.

(** Python's truth value of a value. *)
Definition py_bool (v : pyval) : bool :=
  match v with
  | PNone => false
  | PBool b => b
  | PInt z => negb (z =? 0)%Z
  | PFloat q => negb (Qeq_bool q 0)
  | PStr s => negb (String.eqb s "")
  | PList l => match l with [] => false | _ => true end
  | PDict d => match d with [] => false | _ => true end
  | PDatetime _ => true
  end.

(** [v == s] for a string literal [s]. *)
Definition py_eq_str (v : pyval) (s : string) : bool :=
  match v with
  | PStr s' => String.eqb s' s
  | _ => false
  end.

Definition result_bind {A B} (x : result A) (k : A -> result B) : result B :=
  match x with
  | Ok a => k a
  | Raise f => Raise f
  end.

(** [v.get(k, dflt)]: only a dict has the method. *)
Definition py_get (k : string) (dflt : pyval) (v : pyval) : result pyval :=
  match v with
  | PDict d => Ok (default dflt (dict_get k d))
  | _ => Raise AttributeError
  end.

(** [v[k]] and [v[k] = x] for a string [k]. *)
Definition py_getitem (k : string) (v : pyval) : result pyval :=
  match v with
  | PDict d =>
      match dict_get k d with
      | Some x => Ok x
      | None => Raise KeyError
      end
  | _ => Raise TypeError
  end.

Definition py_setitem (k : string) (x : pyval) (v : pyval) : result pyval :=
  match v with
  | PDict d => Ok (PDict (dict_set k x d))
  | _ => Raise TypeError
  end.

Definition is_number (v : pyval) : bool :=
  match v with
  | PInt _ | PFloat _ | PBool _ => true
  | _ => false
  end.

(** The value of a number ([bool] is a subtype of [int]); arithmetic on
    anything else is a [TypeError]. *)
Definition py_number (v : pyval) : result Q :=
  match v with
  | PInt z => Ok (inject_Z z)
  | PFloat q => Ok q
  | PBool b => Ok (if b then 1%Q else 0%Q)
  | _ => Raise TypeError
  end.

(** [current_time - last_time] for a float [current_time]. *)
Definition py_rsub (current_time : Q) (last_time : pyval) : result Q :=
  match py_number last_time with
  | Ok q => Ok (current_time - q)%Q
  | Raise e => Raise e
  end.

(** ** Text

    A Python [str] is kept as the bytes of its UTF-8 form.  A [str] can
    hold a lone surrogate (out of a JSON escape such as ["\ud800"], or of a
    file name that does not decode); it is kept as the three bytes that the
    same scheme gives it, [ED A0..BF xx].  [s.encode('utf-8')] succeeds
    exactly when [s] has no surrogate. *)
Definition surrogate_lead (a b : Ascii.ascii) : bool :=
  (Ascii.nat_of_ascii a =? 237)%nat
  && (160 <=? Ascii.nat_of_ascii b)%nat && (Ascii.nat_of_ascii b <=? 191)%nat.

Fixpoint has_surrogate (s : string) : bool :=
  match s with
  | EmptyString => false
  | String a rest =>
      match rest with
      | String b _ => surrogate_lead a b
      | EmptyString => false
      end
      || has_surrogate rest
  end.

Definition encodable (s : string) : bool := negb (has_surrogate s).

(** Every string in a value, keys included, can be encoded. *)
Fixpoint encodable_value (v : pyval) : bool :=
  match v with
  | PStr s => encodable s
  | PList l => forallb encodable_value l
  | PDict d => forallb (fun kv => encodable (fst kv) && encodable_value (snd kv)) d
  | _ => true
  end.

(** ** The data model *)

Inductive AlertLevel := INFO | WARNING | CRITICAL | ERROR.

(** [level.value] *)
Definition level_value (l : AlertLevel) : string :=
  match l with
  | INFO => "INFO"
  | WARNING => "WARNING"
  | CRITICAL => "CRITICAL"
  | ERROR => "ERROR"
  end.

(** [AlertLevel[name]]: lookup by member name, [KeyError] when absent. *)
Definition AlertLevel_getitem (name : string) : result AlertLevel :=
  if String.eqb name "INFO" then Ok INFO
  else if String.eqb name "WARNING" then Ok WARNING
  else if String.eqb name "CRITICAL" then Ok CRITICAL
  else if String.eqb name "ERROR" then Ok ERROR
  else Raise KeyError.

Record Alert := mk_Alert {
  level : AlertLevel;
  resource : string;
  message : string;
  value : Q;
  threshold : Q;
  timestamp : datetime
}.

(** [self.config], already parsed. *)
Record ResourceConfig := mk_ResourceConfig {
  rc_enabled : option bool;
  rc_threshold : option Q
}.

Record Config := mk_Config {
  notification_cooldown_seconds : option Q;
  cfg_cpu : ResourceConfig;
  cfg_memory : ResourceConfig;
  cfg_disk : ResourceConfig;
  cfg_disk_paths : option (list string);
  cfg_network_enabled : option bool;
  threshold_sent_mbps : option Q;
  threshold_recv_mbps : option Q;
  telegram_enabled : option bool;
  bot_token : option string;
  chat_id : option string
}.

(** [psutil.net_io_counters()]: cumulative byte counters. *)
Record NetIO := mk_NetIO { bytes_sent : Z; bytes_recv : Z }.

(** [self.current_metrics] *)
Record Metrics := mk_Metrics {
  cpu_percent : Q;
  memory_percent : Q;
  disk_percent : Q;
  network_sent_speed : Q;
  network_recv_speed : Q
}.

(** The mutable fields of a [ResourceMonitor]. *)
Record Monitor := mk_Monitor {
  config : Config;
  prev_net_io : NetIO;
  prev_check_time : Q;
  alert_history : list Alert;
  monitoring_enabled : bool;
  last_alert_times : pyval;
  current_metrics : Metrics;
  stats : pyval
}.

Definition set_prev_net (io : NetIO) (t : Q) (m : Monitor) : Monitor :=
  mk_Monitor (config m) io t (alert_history m) (monitoring_enabled m)
    (last_alert_times m) (current_metrics m) (stats m).
Definition set_alert_history (h : list Alert) (m : Monitor) : Monitor :=
  mk_Monitor (config m) (prev_net_io m) (prev_check_time m) h
    (monitoring_enabled m) (last_alert_times m) (current_metrics m) (stats m).
Definition set_monitoring_enabled (b : bool) (m : Monitor) : Monitor :=
  mk_Monitor (config m) (prev_net_io m) (prev_check_time m) (alert_history m)
    b (last_alert_times m) (current_metrics m) (stats m).
Definition set_last_alert_times (t : pyval) (m : Monitor) : Monitor :=
  mk_Monitor (config m) (prev_net_io m) (prev_check_time m) (alert_history m)
    (monitoring_enabled m) t (current_metrics m) (stats m).
Definition set_current_metrics (c : Metrics) (m : Monitor) : Monitor :=
  mk_Monitor (config m) (prev_net_io m) (prev_check_time m) (alert_history m)
    (monitoring_enabled m) (last_alert_times m) c (stats m).
Definition set_stats (s : pyval) (m : Monitor) : Monitor :=
  mk_Monitor (config m) (prev_net_io m) (prev_check_time m) (alert_history m)
    (monitoring_enabled m) (last_alert_times m) (current_metrics m) s.

(** ** The monad of methods: state [Monitor], exceptions [exn] *)

Definition M (A : Type) : Type := Monitor -> result A * Monitor.

Definition ret {A} (a : A) : M A := fun m => (Ok a, m).
Definition raise {A} (e : exn) : M A := fun m => (Raise e, m).
Definition bind {A B} (c : M A) (k : A -> M B) : M B :=
  fun m =>
    match c m with
    | (Ok a, m') => k a m'
    | (Raise e, m') => (Raise e, m')
    end.
Definition gets {A} (f : Monitor -> A) : M A := fun m => (Ok (f m), m).
Definition modify (f : Monitor -> Monitor) : M unit := fun m => (Ok tt, f m).
Definition lift {A} (r : result A) : M A := fun m => (r, m).

(** [try: body  except Exception as e: handler e] *)
Definition try_except {A} (body : M A) (handler : exn -> M A) : M A :=
  fun m =>
    match body m with
    | (Ok a, m') => (Ok a, m')
    | (Raise e, m') => handler e m'
    end.

Notation "x <- c ;; k" := (bind c (fun x => k))
  (at level 100, c at next level, right associativity).
Notation "c ;;; k" := (bind c (fun _ => k))
  (at level 100, k at level 200, right associativity).

(** [for x in xs: body x], with the position of [x] in [xs]. *)
Fixpoint for_each {A} (i : nat) (xs : list A) (body : nat -> A -> M unit)
  : M unit :=
  match xs with
  | [] => ret tt
  | x :: xs' => body i x ;;; for_each (S i) xs' body
  end.

(** [self.stats[k] += 1] *)
Definition incr_stat (k : string) : M unit :=
  fun m =>
    match py_incr_item k (stats m) with
    | Ok s => (Ok tt, set_stats s m)
    | Raise e => (Raise e, m)
    end.

(** ** The cooldown gate *)

(** [can_send_alert]; [current_time] is the [time.time()] it reads.
    [self.last_alert_times] is whatever [__init__], this method or
    [load_state] has put there: [.get] raises on anything but a dict, the
    subtraction on an entry that is not a number. *)
Definition can_send_alert (current_time : Q) (resource : string)
    (level : AlertLevel) : M bool :=
  cooldown <- gets (fun m =>
    default 300%Q (notification_cooldown_seconds (config m))) ;;
  let key := resource +:+ "_" +:+ level_value level in
  table <- gets last_alert_times ;;
  last_time <- lift (py_get key (PInt 0) table) ;;
  elapsed <- lift (py_rsub current_time last_time) ;;
  if py_lt elapsed cooldown then ret false
  else
    table' <- lift (py_setitem key (PFloat current_time) table) ;;
    modify (set_last_alert_times table') ;;;
    ret true.

(** ** What a tick reads from outside *)

(** One entry of [psutil.disk_partitions()], with the outcome of
    [psutil.disk_usage] on it: the used percentage or the exception. *)
Record Partition := mk_Partition {
  mountpoint : string;
  disk_usage : result Q;
  disk_now : datetime
}.

Record Readings := mk_Readings {
  psutil_cpu_percent : Q;
  cpu_now : datetime;
  psutil_memory_percent : Q;
  memory_now : datetime;
  psutil_disk_partitions : list Partition;
  psutil_net_io_counters : NetIO;
  network_time : Q;              (* [time.time()] in [check_network] *)
  sent_now : datetime;
  recv_now : datetime;
  gate_time : nat -> Q;          (* [time.time()] in the gate of the i-th alert *)
  http_status : nat -> result Z; (* answer of [requests.post] for the i-th alert *)
  error_http_status : result Z   (* the same for the loop's error message *)
}.

(** ** Threshold evaluation *)

Definition set_cpu_percent (v : Q) (c : Metrics) : Metrics :=
  mk_Metrics v (memory_percent c) (disk_percent c)
    (network_sent_speed c) (network_recv_speed c).
Definition set_memory_percent (v : Q) (c : Metrics) : Metrics :=
  mk_Metrics (cpu_percent c) v (disk_percent c)
    (network_sent_speed c) (network_recv_speed c).
Definition set_disk_percent (v : Q) (c : Metrics) : Metrics :=
  mk_Metrics (cpu_percent c) (memory_percent c) v
    (network_sent_speed c) (network_recv_speed c).
Definition set_network_speed (s r : Q) (c : Metrics) : Metrics :=
  mk_Metrics (cpu_percent c) (memory_percent c) (disk_percent c) s r.

Definition update_metrics (f : Metrics -> Metrics) : M unit :=
  modify (fun m => set_current_metrics (f (current_metrics m)) m).

Definition check_cpu (r : Readings) : M (list Alert) :=
  cfg <- gets (fun m => cfg_cpu (config m)) ;;
  if negb (default true (rc_enabled cfg)) then ret []
  else
    let threshold := default 80%Q (rc_threshold cfg) in
    let cpu := psutil_cpu_percent r in
    update_metrics (set_cpu_percent cpu) ;;;
    if py_gt cpu threshold then
      let level := if py_gt cpu 90 then CRITICAL else WARNING in
      ret [mk_Alert level "CPU" "Использование CPU превысило порог"
             cpu threshold (cpu_now r)]
    else ret [].

Definition check_memory (r : Readings) : M (list Alert) :=
  cfg <- gets (fun m => cfg_memory (config m)) ;;
  if negb (default true (rc_enabled cfg)) then ret []
  else
    let threshold := default 80%Q (rc_threshold cfg) in
    let mem := psutil_memory_percent r in
    update_metrics (set_memory_percent mem) ;;;
    if py_gt mem threshold then
      let level := if py_gt mem 90 then CRITICAL else WARNING in
      ret [mk_Alert level "Память" "Использование памяти превысило порог"
             mem threshold (memory_now r)]
    else ret [].

(** The body of the loop over [psutil.disk_partitions()]; [alerts] is the
    list built so far. *)
Definition check_disk_partition (threshold : Q) (disk_paths : list string)
    (partition : Partition) (alerts : list Alert) : M (list Alert) :=
  if bool_decide (mountpoint partition ∈ disk_paths)
     || bool_decide (disk_paths = [])
  then
    try_except
      (disk <- lift (disk_usage partition) ;;
       (if String.eqb (mountpoint partition) "/"
        then update_metrics (set_disk_percent disk) else ret tt) ;;;
       if py_gt disk threshold then
         let level := if py_gt disk 90 then CRITICAL else WARNING in
         ret (alerts ++
              [mk_Alert level ("Диск " +:+ mountpoint partition)
                 "Использование диска превысило порог"
                 disk threshold (disk_now partition)])
       else ret alerts)
      (fun e =>
         match e with
         | PermissionError => ret alerts   (* logged as a warning *)
         | _ => ret alerts                 (* logged as an error *)
         end)
  else ret alerts.

Fixpoint check_disk_loop (threshold : Q) (disk_paths : list string)
    (partitions : list Partition) (alerts : list Alert) : M (list Alert) :=
  match partitions with
  | [] => ret alerts
  | p :: ps =>
      alerts' <- check_disk_partition threshold disk_paths p alerts ;;
      check_disk_loop threshold disk_paths ps alerts'
  end.

Definition check_disk (r : Readings) : M (list Alert) :=
  cfg <- gets config ;;
  if negb (default true (rc_enabled (cfg_disk cfg))) then ret []
  else
    let threshold := default 80%Q (rc_threshold (cfg_disk cfg)) in
    let disk_paths := default ["/"] (cfg_disk_paths cfg) in
    check_disk_loop threshold disk_paths (psutil_disk_partitions r) [].

(** The two transfer rates of [check_network], in MB/s. *)
Definition network_time_diff (current_time prev_time : Q) : Q :=
  let time_diff := (current_time - prev_time)%Q in
  if py_eq time_diff 0 then 1%Q else time_diff.

Definition network_speed (current_bytes prev_bytes : Z) (time_diff : Q) : Q :=
  let mb := (inject_Z (current_bytes - prev_bytes) / inject_Z (1024 * 1024))%Q in
  (mb / time_diff)%Q.

Definition check_network (r : Readings) : M (list Alert) :=
  cfg <- gets config ;;
  if negb (default true (cfg_network_enabled cfg)) then ret []
  else
    let threshold_sent := default 10%Q (threshold_sent_mbps cfg) in
    let threshold_recv := default 10%Q (threshold_recv_mbps cfg) in
    let current_net_io := psutil_net_io_counters r in
    let current_time := network_time r in
    prev_time <- gets prev_check_time ;;
    prev_io <- gets prev_net_io ;;
    let time_diff := network_time_diff current_time prev_time in
    let mb_sent_speed :=
      network_speed (bytes_sent current_net_io) (bytes_sent prev_io) time_diff in
    let mb_recv_speed :=
      network_speed (bytes_recv current_net_io) (bytes_recv prev_io) time_diff in
    update_metrics (set_network_speed mb_sent_speed mb_recv_speed) ;;;
    modify (set_prev_net current_net_io current_time) ;;;
    let alerts := [] in
    let alerts :=
      if py_gt mb_sent_speed threshold_sent then
        alerts ++ [mk_Alert WARNING "Сеть (исходящий трафик)"
                     "Скорость отправки превысила порог"
                     mb_sent_speed threshold_sent (sent_now r)]
      else alerts in
    let alerts :=
      if py_gt mb_recv_speed threshold_recv then
        alerts ++ [mk_Alert WARNING "Сеть (входящий трафик)"
                     "Скорость получения превысила порог"
                     mb_recv_speed threshold_recv (recv_now r)]
      else alerts in
    ret alerts.

(** ** Notification and the tick *)

(** Python's truth value of an optional string ([None] and [""] are false). *)
Definition truthy (s : option string) : bool :=
  match s with
  | Some s => negb (String.eqb s "")
  | None => false
  end.

(** [send_telegram_message]; [response] is what [requests.post] gives: a
    status code or an exception. *)
Definition send_telegram_message (response : result Z) : M bool :=
  cfg <- gets config ;;
  if negb (default false (telegram_enabled cfg)) then ret false
  else if negb (truthy (bot_token cfg)) || negb (truthy (chat_id cfg))
  then ret false
  else
    try_except
      (status <- lift response ;;
       if (status =? 200)%Z then
         incr_stat "notifications_sent" ;;; ret true
       else ret false)
      (fun _ => ret false).

(** The body of the loop of [check_resources] over the tick's alerts, in
    its two parts.  First the block under [self.lock]: the alert is
    appended to the history and counted, and the front of the history is
    popped when its length has passed 100. *)
Definition record_alert (alert : Alert) : M unit :=
  modify (fun m => set_alert_history (alert_history m ++ [alert]) m) ;;;
  incr_stat "alerts_triggered" ;;;
  h <- gets alert_history ;;
  if (100 <? length h)%nat
  then modify (fun m => set_alert_history (tail (alert_history m)) m)
  else ret tt.

(** Then the gate, and the notification when the gate lets it through. *)
Definition notify_alert (r : Readings) (i : nat) (alert : Alert) : M unit :=
  ok <- can_send_alert (gate_time r i) (resource alert) (level alert) ;;
  if ok then
    _ <- send_telegram_message (http_status r i) ;; ret tt
  else ret tt.

Definition record_and_gate (r : Readings) (i : nat) (alert : Alert) : M unit :=
  record_alert alert ;;; notify_alert r i alert.

Definition check_resources (r : Readings) : M (list Alert) :=
  enabled <- gets monitoring_enabled ;;
  if negb enabled then ret []
  else
    incr_stat "checks" ;;;
    a_cpu <- check_cpu r ;;
    a_mem <- check_memory r ;;
    a_disk <- check_disk r ;;
    a_net <- check_network r ;;
    let alerts := (a_cpu ++ a_mem ++ a_disk ++ a_net)%list in
    for_each 0 alerts (record_and_gate r) ;;;
    ret alerts.

(** One turn of [monitoring_loop]: a call of [check_resources]; an
    exception that escapes it ends the loop after an attempt to send an
    error message. *)
Definition monitoring_tick (r : Readings) : M unit :=
  try_except
    (_ <- check_resources r ;; ret tt)
    (fun _ => _ <- send_telegram_message (error_http_status r) ;; ret tt).

(** ** The persisted state *)

(** The text of a [timestamp] field, up to what [datetime.fromisoformat]
    makes of it: the ISO form of a datetime (what [isoformat] writes and
    [fromisoformat] reads back), or a text that it rejects. *)
Inductive iso_text :=
| IsoFormat (t : datetime)
| NotIso (s : string).

Definition isoformat (t : datetime) : iso_text := IsoFormat t.

Definition fromisoformat (s : iso_text) : result datetime :=
  match s with
  | IsoFormat t => Ok t
  | NotIso _ => Raise ValueError
  end.

(** One object of the [alert_history] array; [None] is an absent key. *)
Record AlertData := mk_AlertData {
  ad_level : option string;
  ad_resource : option string;
  ad_message : option string;
  ad_value : option Q;
  ad_threshold : option Q;
  ad_timestamp : option iso_text
}.

(** The document of [monitor_state.json], a JSON object whose
    [alert_history], when present, is an array of objects with fields of
    the types that [save_state] writes; [None] is an absent key.  The
    values under [stats] and [last_alert_times] are any JSON values:
    [load_state] stores them as they are. *)
Record StateDoc := mk_StateDoc {
  doc_alert_history : option (list AlertData);
  doc_stats : option pyval;
  doc_last_alert_times : option pyval
}.

(** The state file: absent, not parsable as a JSON object, or a
    document. *)
Inductive StateFile :=
| FileMissing
| FileCorrupt
| FileJson (state : StateDoc).

Definition to_dict (a : Alert) : AlertData :=
  mk_AlertData (Some (level_value (level a))) (Some (resource a))
    (Some (message a)) (Some (value a)) (Some (threshold a))
    (Some (isoformat (timestamp a))).

(** What [json.dump(state, f, ensure_ascii=False)] writes to the utf-8 file
    without an exception: [stats] and the cooldown table hold no
    [datetime] (a [TypeError] of the encoder), and no string of the state
    has a surrogate (a [UnicodeEncodeError] of the file).  In an alert the
    level and the timestamp are written as ASCII text. *)
Definition dumpable_alert (a : Alert) : bool :=
  encodable (resource a) && encodable (message a).

Definition dumpable (m : Monitor) : bool :=
  forallb dumpable_alert (alert_history m)
  && (json_serializable (stats m) && encodable_value (stats m))
  && (json_serializable (last_alert_times m)
      && encodable_value (last_alert_times m)).

(** [save_state]: the content of the state file afterwards.  The file is
    opened for writing, which truncates it; when [json.dump] raises, the
    exception is caught and logged and the file is left cut short.  The
    file system is taken to accept the write, and the values to be nested
    within the recursion limit of the encoder. *)
Definition save_state (m : Monitor) : StateFile :=
  let state := mk_StateDoc (Some (map to_dict (alert_history m)))
                 (Some (stats m)) (Some (last_alert_times m)) in
  if dumpable m then FileJson state else FileCorrupt.

(** [d[key]] on a JSON object of the file. *)
Definition getitem {A} (field : option A) : result A :=
  match field with
  | Some v => Ok v
  | None => Raise KeyError
  end.

(** The [Alert(...)] built from one [alert_data] in [load_state]. *)
Definition alert_of_data (alert_data : AlertData) : result Alert :=
  match getitem (ad_level alert_data) with
  | Raise e => Raise e
  | Ok name =>
  match AlertLevel_getitem name with
  | Raise e => Raise e
  | Ok level =>
  match getitem (ad_resource alert_data) with
  | Raise e => Raise e
  | Ok resource =>
  match getitem (ad_message alert_data) with
  | Raise e => Raise e
  | Ok message =>
  match getitem (ad_value alert_data) with
  | Raise e => Raise e
  | Ok value =>
  match getitem (ad_threshold alert_data) with
  | Raise e => Raise e
  | Ok threshold =>
  match getitem (ad_timestamp alert_data) with
  | Raise e => Raise e
  | Ok text =>
  match fromisoformat text with
  | Raise e => Raise e
  | Ok timestamp => Ok (mk_Alert level resource message value threshold timestamp)
  end end end end end end end end.

(** The body of the loop of [load_state] over the alerts of the file. *)
Definition load_alert (alert_data : AlertData) : M unit :=
  alert <- lift (alert_of_data alert_data) ;;
  modify (fun m => set_alert_history (alert_history m ++ [alert]) m).

Definition load_state (file : StateFile) : M unit :=
  try_except
    (match file with
     | FileMissing => ret tt
     | FileCorrupt => raise ValueError
     | FileJson state =>
         modify (set_alert_history []) ;;;
         for_each 0 (default [] (doc_alert_history state))
           (fun _ => load_alert) ;;;
         modify (fun m => set_stats (default (stats m) (doc_stats state)) m) ;;;
         modify (set_last_alert_times (default (PDict []) (doc_last_alert_times state)))
     end)
    (fun _ => ret tt).

(** [ResourceMonitor.__init__]: the default fields, then [load_state]. *)
Definition default_stats (now : datetime) : pyval :=
  PDict [("checks", PInt 0); ("alerts_triggered", PInt 0);
         ("notifications_sent", PInt 0); ("start_time", PDatetime now)].

Definition init (cfg : Config) (net_io : NetIO) (time_now : Q)
    (now : datetime) (file : StateFile) : Monitor :=
  snd (load_state file
         (mk_Monitor cfg net_io time_now [] true (PDict [])
            (mk_Metrics 0 0 0 0 0) (default_stats now))).

(** ** Runs of the monitor *)

(** What happens to a monitor over its life: a turn of the monitoring
    loop, a load of the state file, the bot's enable and disable commands. *)
Inductive event :=
| Tick (r : Readings)
| LoadState (file : StateFile)
| Enable
| Disable.

Definition step (m : Monitor) (e : event) : Monitor :=
  match e with
  | Tick r => snd (monitoring_tick r m)
  | LoadState file => snd (load_state file m)
  | Enable => set_monitoring_enabled true m
  | Disable => set_monitoring_enabled false m
  end.

Definition run (m : Monitor) (es : list event) : Monitor := fold_left step es m.

(** ** Vocabulary of the statements *)

(** The key of a (resource, severity) pair in [last_alert_times]. *)
Definition cooldown_key (res : string) (lvl : AlertLevel) : string :=
  res +:+ "_" +:+ level_value lvl.

(** The configured cooldown, with the code's default. *)
Definition cooldown_of (m : Monitor) : Q :=
  default 300%Q (notification_cooldown_seconds (config m)).

(** The entry of a key in the cooldown table, when the table is a dict
    that has the key. *)
Definition table_entry (key : string) (m : Monitor) : option pyval :=
  match last_alert_times m with
  | PDict d => dict_get key d
  | _ => None
  end.

(** What the gate reads for a key: the stored time of the last
    notification, [0] when there is none, or the exception of the read (the
    table is not a dict, or the entry is not a number). *)
Definition stored_time (key : string) (m : Monitor) : result Q :=
  result_bind (py_get key (PInt 0) (last_alert_times m)) py_number.

Definition last_time_of (res : string) (lvl : AlertLevel) (m : Monitor)
  : result Q :=
  stored_time (cooldown_key res lvl) m.

(** The table with the entry of [key] set to the time [now]. *)
Definition table_set (key : string) (now : Q) (table : pyval) : pyval :=
  match table with
  | PDict d => PDict (dict_set key (PFloat now) d)
  | _ => table
  end.


(** ** Concrete monitors and readings *)

Definition new_year : datetime := mk_datetime 2024 1 1 0 0 0 0.

(** The default configuration of [create_default_config], with the given
    cooldown and working Telegram credentials. *)
Definition example_config (cooldown : Q) : Config :=
  mk_Config (Some cooldown)
    (mk_ResourceConfig (Some true) (Some 80%Q))
    (mk_ResourceConfig (Some true) (Some 80%Q))
    (mk_ResourceConfig (Some true) (Some 80%Q))
    (Some ["/"])
    (Some true) (Some 10%Q) (Some 10%Q)
    (Some true) (Some "123:token") (Some "42").

(** A monitor as [__init__] builds it when there is no state file. *)
Definition fresh_monitor (cooldown : Q) : Monitor :=
  init (example_config cooldown) (mk_NetIO 0 0) 1700000000%Q new_year
    FileMissing.

(** A quiet tick but for the CPU reading; every gate call of the tick
    reads the clock [now] and every notification is delivered. *)
Definition cpu_readings (cpu : Q) (now : Q) : Readings :=
  mk_Readings cpu new_year 50%Q new_year
    [mk_Partition "/" (Ok 40%Q) new_year]
    (mk_NetIO 0 0) now new_year new_year
    (fun _ => now) (fun _ => Ok 200) (Ok 200).

(** [self.stats[k]], when [stats] is a dict that has the key. *)
Definition stat (k : string) (m : Monitor) : option pyval :=
  match stats m with
  | PDict d => dict_get k d
  | _ => None
  end.

(** The rate formula as the specification words it: the byte difference
    over [max(elapsedSeconds, 1)], in MB. *)
Definition spec_network_rate (current_bytes prev_bytes : Z) (elapsed : Q) : Q :=
  (inject_Z (current_bytes - prev_bytes) / Qmax elapsed 1 / inject_Z (1024 * 1024))%Q.

(** A tick whose network counters moved from [fresh_monitor]'s zero to
    [sent] bytes, read at clock [now]. *)
Definition network_readings (sent : Z) (now : Q) : Readings :=
  mk_Readings 10%Q new_year 50%Q new_year
    [mk_Partition "/" (Ok 40%Q) new_year]
    (mk_NetIO sent 0) now new_year new_year
    (fun _ => now) (fun _ => Ok 200) (Ok 200).

(** The thresholds in force, with the code's defaults. *)
Definition cpu_threshold_of (m : Monitor) : Q :=
  default 80%Q (rc_threshold (cfg_cpu (config m))).
Definition memory_threshold_of (m : Monitor) : Q :=
  default 80%Q (rc_threshold (cfg_memory (config m))).
Definition disk_threshold_of (m : Monitor) : Q :=
  default 80%Q (rc_threshold (cfg_disk (config m))).
Definition sent_threshold_of (m : Monitor) : Q :=
  default 10%Q (threshold_sent_mbps (config m)).
Definition recv_threshold_of (m : Monitor) : Q :=
  default 10%Q (threshold_recv_mbps (config m)).

(** The rates that [check_network] compares with its thresholds. *)
Definition sent_rate (r : Readings) (m : Monitor) : Q :=
  network_speed (bytes_sent (psutil_net_io_counters r))
    (bytes_sent (prev_net_io m))
    (network_time_diff (network_time r) (prev_check_time m)).
Definition recv_rate (r : Readings) (m : Monitor) : Q :=
  network_speed (bytes_recv (psutil_net_io_counters r))
    (bytes_recv (prev_net_io m))
    (network_time_diff (network_time r) (prev_check_time m)).

(** The readings [r] with another list of disk partitions. *)
Definition with_partitions (ps : list Partition) (r : Readings) : Readings :=
  mk_Readings (psutil_cpu_percent r) (cpu_now r) (psutil_memory_percent r)
    (memory_now r) ps (psutil_net_io_counters r) (network_time r)
    (sent_now r) (recv_now r) (gate_time r) (http_status r)
    (error_http_status r).

(** The two severity tiers of a percentage. *)
Definition tiered (a : Alert) : Prop :=
  ((90 < value a)%Q -> level a = CRITICAL)
  /\ ((value a <= 90)%Q -> level a = WARNING).

Definition warning_or_critical (a : Alert) : Prop :=
  level a = WARNING \/ level a = CRITICAL.

(** The partition is one that [check_disk] looks at, and its usage was read
    and is strictly above the disk threshold. *)
Definition disk_breach (m : Monitor) (p : Partition) : bool :=
  (bool_decide (mountpoint p ∈ default ["/"] (cfg_disk_paths (config m)))
   || bool_decide (default ["/"] (cfg_disk_paths (config m)) = []))
  && match disk_usage p with
     | Ok disk => py_gt disk (disk_threshold_of m)
     | Raise _ => false
     end.

(** The alert of [check_disk] for a partition whose usage [a] carries. *)
Definition disk_alert_of (m : Monitor) (p : Partition) (a : Alert) : Prop :=
  disk_usage p = Ok (value a)
  /\ resource a = "Диск " +:+ mountpoint p
  /\ threshold a = disk_threshold_of m
  /\ (disk_threshold_of m < value a)%Q
  /\ level a = (if py_gt (value a) 90 then CRITICAL else WARNING).

(** A tick with the CPU at 95%, the root file system at 95% and 20 MiB
    sent in the second since the start. *)
Definition busy_readings : Readings :=
  mk_Readings 95%Q new_year 50%Q new_year
    [mk_Partition "/" (Ok 95%Q) new_year]
    (mk_NetIO 20971520 0) 1700000001%Q new_year new_year
    (fun _ => 1700000001%Q) (fun _ => Ok 200) (Ok 200).

(** What one partition adds to the alerts of [check_disk]. *)
Definition partition_alerts (threshold : Q) (disk_paths : list string)
    (p : Partition) : list Alert :=
  if bool_decide (mountpoint p ∈ disk_paths) || bool_decide (disk_paths = [])
  then
    match disk_usage p with
    | Ok disk =>
        if py_gt disk threshold then
          [mk_Alert (if py_gt disk 90 then CRITICAL else WARNING)
             ("Диск " +:+ mountpoint p) "Использование диска превысило порог"
             disk threshold (disk_now p)]
        else []
    | Raise _ => []
    end
  else [].

(** The counters that the monitor increments in [self.stats]. *)
Definition counter_keys : list string :=
  ["checks"; "alerts_triggered"; "notifications_sent"].

(** [stats] is a dict whose entry [k] is a number, so that
    [stats[k] += 1] succeeds. *)
Definition has_counter (k : string) (s : pyval) : bool :=
  match s with
  | PDict d =>
      match dict_get k d with
      | Some v => is_number v
      | None => false
      end
  | _ => false
  end.




(** [c] maintains the property [I] of the monitor, also when it raises. *)
Definition preserves {A} (I : Monitor -> Prop) (c : M A) : Prop :=
  forall m, I m -> I (snd (c m)).


(** A state document that a save of a longer-lived monitor could hold:
    [n] copies of one CPU alert and serialisable counters. *)
Definition cpu_alert : Alert :=
  mk_Alert WARNING "CPU" "Использование CPU превысило порог" 85%Q 80%Q new_year.

Definition saved_stats (alerts : Z) : pyval :=
  PDict [("checks", PInt 500); ("alerts_triggered", PInt alerts);
         ("notifications_sent", PInt 3);
         ("start_time", PStr "2024-01-01T00:00:00")].

Definition state_file (n : nat) : StateFile :=
  FileJson (mk_StateDoc (Some (repeat (to_dict cpu_alert) n))
              (Some (saved_stats (Z.of_nat n))) (Some (PDict []))).

(** [stats] still holds the [datetime] that [__init__] put under
    [start_time]. *)
Definition start_time_is_datetime (m : Monitor) : Prop :=
  exists t, stat "start_time" m = Some (PDatetime t).

(** The events that cannot replace [stats]: all but the load of a parsable
    state file. *)
Definition keeps_stats (e : event) : bool :=
  match e with
  | LoadState (FileJson _) => false
  | _ => true
  end.

(** What a monitor goes through between two alerts on the record-and-gate
    path: a turn of the loop of [check_resources] for another alert, the
    start of a tick up to that loop, or a whole event. *)
Inductive action :=
| Process (r : Readings) (i : nat) (alert : Alert)
| Evaluate (r : Readings)
| Happen (e : event).

(** The start of an enabled tick: the check is counted and the four checks
    are evaluated. *)
Definition evaluate_checks (r : Readings) : M (list Alert) :=
  incr_stat "checks" ;;;
  a_cpu <- check_cpu r ;;
  a_mem <- check_memory r ;;
  a_disk <- check_disk r ;;
  a_net <- check_network r ;;
  ret (a_cpu ++ a_mem ++ a_disk ++ a_net)%list.

Definition perform_one (m : Monitor) (x : action) : Monitor :=
  match x with
  | Process r i alert => snd (record_and_gate r i alert m)
  | Evaluate r => snd (evaluate_checks r m)
  | Happen e => step m e
  end.

Definition perform (xs : list action) (m : Monitor) : Monitor :=
  fold_left perform_one xs m.

(** The gate calls of an action read the clock at [t1] or later. *)
Definition clock_since (t1 : Q) (x : action) : Prop :=
  match x with
  | Process r i _ => (t1 <= gate_time r i)%Q
  | Happen (Tick r) => forall i, (t1 <= gate_time r i)%Q
  | _ => True
  end.

(** What the gate would read for [key] in the table of a state document;
    a document without a table is loaded as an empty table. *)
Definition doc_stored_time (key : string) (state : StateDoc) : result Q :=
  result_bind
    (py_get key (PInt 0) (default (PDict []) (doc_last_alert_times state)))
    py_number.

(** The action does not bring in a table that has forgotten the
    notification of [key] at [t1]: the table of a loaded state document
    holds for [key] a time at or after [t1]. *)
Definition keeps_notification (t1 : Q) (key : string) (x : action) : Prop :=
  match x with
  | Happen (LoadState (FileJson state)) =>
      exists v, doc_stored_time key state = Ok v /\ (t1 <= v)%Q
  | _ => True
  end.

(** The readings [r] with another answer of the Telegram API for the
    [i]-th alert. *)
Definition with_http_status (i : nat) (response : result Z) (r : Readings)
  : Readings :=
  mk_Readings (psutil_cpu_percent r) (cpu_now r) (psutil_memory_percent r)
    (memory_now r) (psutil_disk_partitions r) (psutil_net_io_counters r)
    (network_time r) (sent_now r) (recv_now r) (gate_time r)
    (fun j => if Nat.eqb j i then response else http_status r j)
    (error_http_status r).

(** The entry of [key] in the cooldown table is there and not older than
    [t1], and the configuration is [cfg]. *)
Definition notified_since (t1 : Q) (key : string) (cfg : Config) (m : Monitor)
  : Prop :=
  config m = cfg
  /\ exists v, stored_time key m = Ok v /\ (t1 <= v)%Q.

(** A state file with a full history whose [stats] object lacks the
    [alerts_triggered] counter. *)
Definition uncounted_state_file : StateFile :=
  FileJson (mk_StateDoc (Some (repeat (to_dict cpu_alert) 100))
              (Some (PDict [("checks", PInt 500)])) (Some (PDict []))).

(** The last [n] elements of a list. *)
Definition keep_last {A} (n : nat) (l : list A) : list A :=
  drop (length l - n) l.

(** ** Vocabulary of the further properties *)

(** The Telegram settings let a message out: notifications are enabled and
    both credentials are non-empty. *)
Definition telegram_ready (cfg : Config) : bool :=
  default false (telegram_enabled cfg)
  && truthy (bot_token cfg) && truthy (chat_id cfg).

(** The fields of the monitor that threshold evaluation has no business
    with. *)
Definition same_records (m m' : Monitor) : Prop :=
  config m' = config m
  /\ alert_history m' = alert_history m
  /\ monitoring_enabled m' = monitoring_enabled m
  /\ last_alert_times m' = last_alert_times m
  /\ stats m' = stats m.

(** The mount point is one that [check_disk] looks at. *)
Definition selected (disk_paths : list string) (p : Partition) : Prop :=
  disk_paths = [] \/ In (mountpoint p) disk_paths.

(** The alerts a check returns. *)
Definition alerts_of {A} (x : result (list A) * Monitor) : list A :=
  match fst x with
  | Ok l => l
  | Raise _ => []
  end.

(** The alerts of the four checks on one monitor, in the order in which a
    tick collects them. *)
Definition evaluate (r : Readings) (m : Monitor) : list Alert :=
  alerts_of (check_cpu r m) ++ alerts_of (check_memory r m)
  ++ alerts_of (check_disk r m) ++ alerts_of (check_network r m).

(** The monitor after the four checks of a tick. *)
Definition after_checks (r : Readings) (m : Monitor) : Monitor :=
  snd (check_network r (snd (check_disk r (snd (check_memory r
    (snd (check_cpu r m))))))).

(** Two metric snapshots agree but for the disk figure. *)
Definition same_but_disk (c c' : Metrics) : Prop :=
  cpu_percent c' = cpu_percent c
  /\ memory_percent c' = memory_percent c
  /\ network_sent_speed c' = network_sent_speed c
  /\ network_recv_speed c' = network_recv_speed c.

(** What the loop over the alerts of a tick leaves alone. *)
Definition same_samples (m m' : Monitor) : Prop :=
  config m' = config m
  /\ current_metrics m' = current_metrics m
  /\ prev_net_io m' = prev_net_io m
  /\ prev_check_time m' = prev_check_time m
  /\ monitoring_enabled m' = monitoring_enabled m.


(** The entries of a state file decode, one by one, to the alerts. *)
Definition decodes (entries : list AlertData) (alerts : list Alert) : Prop :=
  Forall2 (fun d a => alert_of_data d = Ok a) entries alerts.




(** [restart_application]: the state is saved and the process image is
    replaced; the new process builds its monitor from the same
    configuration file and from the state file just written. *)
Definition restart_application (m : Monitor) (net_io : NetIO) (time_now : Q)
    (now : datetime) : Monitor :=
  init (config m) net_io time_now now (save_state m).

(** A state file with one good entry, one entry without its [level] and
    one more good entry. *)
Definition damaged_state_file : StateFile :=
  FileJson (mk_StateDoc
              (Some [to_dict cpu_alert;
                     mk_AlertData None (Some "CPU") (Some "") (Some 85%Q)
                       (Some 80%Q) (Some (IsoFormat new_year));
                     to_dict cpu_alert])
              (Some (saved_stats 3)) (Some (PDict [("CPU_WARNING", PFloat 1700000000)]))).

(** ** The uptime text *)

(** [x // y] and [x % y] on floats, for a positive [y]. *)
Definition py_floordiv (x y : Q) : Z := Qfloor (x / y).
Definition py_mod (x y : Q) : Q := (x - inject_Z (Qfloor (x / y)) * y)%Q.

(** The three numbers of [format_uptime]. *)
Definition uptime_days (uptime_seconds : Q) : Z :=
  py_floordiv uptime_seconds 86400.
Definition uptime_hours (uptime_seconds : Q) : Z :=
  py_floordiv (py_mod uptime_seconds 86400) 3600.
Definition uptime_minutes (uptime_seconds : Q) : Z :=
  py_floordiv (py_mod uptime_seconds 3600) 60.

(** [format_uptime]; [time_now] is the [time.time()] it reads and
    [start_time] the monitor's [self.start_time].  Integers are printed in
    decimal. *)
Definition format_uptime (time_now start_time : Q) : string :=
  let uptime_seconds := (time_now - start_time)%Q in
  let days := uptime_days uptime_seconds in
  let hours := uptime_hours uptime_seconds in
  let minutes := uptime_minutes uptime_seconds in
  if (0 <? days)%Z then
    pretty days +:+ "д " +:+ pretty hours +:+ "ч " +:+ pretty minutes +:+ "м"
  else if (0 <? hours)%Z then
    pretty hours +:+ "ч " +:+ pretty minutes +:+ "м"
  else pretty minutes +:+ "м".

(** ** The bot's answers *)

(** The line feed of the message templates. *)
Definition nl : string := String (Ascii.ascii_of_nat 10) "".

(** [self.stats[k]] in an f-string. *)
Definition stats_item (k : string) (m : Monitor) : result pyval :=
  match stats m with
  | PDict d =>
      match dict_get k d with
      | Some v => Ok v
      | None => Raise KeyError
      end
  | _ => Raise TypeError
  end.

(** [v.strftime(...)]: only a [datetime] has the method. *)
Definition call_strftime (strftime : datetime -> string) (v : pyval)
  : result string :=
  match v with
  | PDatetime t => Ok (strftime t)
  | _ => Raise AttributeError
  end.

(** The emoji of a severity in the alerts message. *)
Definition level_emoji (l : AlertLevel) : string :=
  match l with
  | INFO => "ℹ️"
  | WARNING => "⚠️"
  | CRITICAL => "🚨"
  | ERROR => "❌"
  end.

(** What the bot sends back, and the thread it starts for a full
    restart. *)
Inductive outgoing :=
| reply_text (text : string)
| edit_message_text (text : string)
| answer
| start_restart_application.

(** The texts depend on how Python prints a float ([f"{x}"] and
    [f"{x:.2f}"]), an arbitrary value of [stats], and a datetime under
    ['%Y-%m-%d %H:%M:%S']; these four printers are parameters. *)
Section BotText.
Variable str_number : Q -> string.
Variable str_fixed2 : Q -> string.
Variable py_str : pyval -> string.
Variable strftime : datetime -> string.

(** [get_system_status]: [cpu], [mem] and [disk] are what psutil reads (the
    disk usage of ["/"] may raise), [time_now] and [start_time] feed
    [format_uptime]. *)
Definition get_system_status (cpu mem : Q) (disk : result Q)
    (time_now start_time : Q) : M string :=
  disk_percent <- lift disk ;;
  update_metrics (fun c =>
    set_disk_percent disk_percent (set_memory_percent mem (set_cpu_percent cpu c))) ;;;
  mb_sent_speed <- gets (fun m => network_sent_speed (current_metrics m)) ;;
  mb_recv_speed <- gets (fun m => network_recv_speed (current_metrics m)) ;;
  enabled <- gets monitoring_enabled ;;
  ret ("📊 <b>Текущее состояние системы</b>" +:+ nl +:+ nl
       +:+ "🖥️ <b>CPU:</b> " +:+ str_number cpu +:+ "%" +:+ nl
       +:+ "🧠 <b>Память:</b> " +:+ str_number mem +:+ "%" +:+ nl
       +:+ "💾 <b>Диск:</b> " +:+ str_number disk_percent +:+ "%" +:+ nl
       +:+ "📤 <b>Сеть (отправка):</b> " +:+ str_fixed2 mb_sent_speed
       +:+ " MB/сек" +:+ nl
       +:+ "📥 <b>Сеть (получение):</b> " +:+ str_fixed2 mb_recv_speed
       +:+ " MB/сек" +:+ nl +:+ nl
       +:+ "🔧 <b>Мониторинг:</b> "
       +:+ (if enabled then "✅ Включен" else "❌ Выключен") +:+ nl
       +:+ "⏰ <b>Время работы:</b> " +:+ format_uptime time_now start_time).

Definition get_stats_message (time_now start_time : Q) (m : Monitor)
  : result string :=
  let uptime := format_uptime time_now start_time in
  match stats_item "checks" m with
  | Raise f => Raise f
  | Ok checks =>
  match stats_item "alerts_triggered" m with
  | Raise f => Raise f
  | Ok alerts_triggered =>
  match stats_item "notifications_sent" m with
  | Raise f => Raise f
  | Ok notifications_sent =>
  match stats_item "start_time" m with
  | Raise f => Raise f
  | Ok start =>
  match call_strftime strftime start with
  | Raise f => Raise f
  | Ok started =>
      Ok ("📈 <b>Статистика мониторинга</b>" +:+ nl +:+ nl
            +:+ "🔄 <b>Проверок:</b> " +:+ py_str checks +:+ nl
            +:+ "⚠️ <b>Оповещений:</b> " +:+ py_str alerts_triggered +:+ nl
            +:+ "📨 <b>Уведомлений отправлено:</b> "
            +:+ py_str notifications_sent +:+ nl
            +:+ "⏰ <b>Время работы:</b> " +:+ uptime +:+ nl
            +:+ "📅 <b>Запущен:</b> " +:+ started)
  end end end end end.

(** One entry of the alerts message. *)
Definition alert_entry (alert : Alert) : string :=
  level_emoji (level alert) +:+ " <b>" +:+ resource alert +:+ "</b> - "
  +:+ str_number (value alert) +:+ " (порог: "
  +:+ str_number (threshold alert) +:+ ")" +:+ nl
  +:+ "   <i>" +:+ strftime (timestamp alert) +:+ "</i>" +:+ nl +:+ nl.

Definition get_alerts_message (m : Monitor) : string :=
  match alert_history m with
  | [] =>
      "📝 <b>История оповещений</b>" +:+ nl +:+ nl
      +:+ "Нет записей о оповещениях."
  | _ =>
      fold_left (fun alerts_text alert => alerts_text +:+ alert_entry alert)
        (keep_last 10 (alert_history m))
        ("📝 <b>История оповещений</b>" +:+ nl +:+ nl)
  end.

Definition get_config_message (m : Monitor) : string :=
  "⚙️ <b>Конфигурация мониторинга</b>" +:+ nl +:+ nl
  +:+ "🖥️ <b>CPU порог:</b> " +:+ str_number (cpu_threshold_of m) +:+ "%" +:+ nl
  +:+ "🧠 <b>Память порог:</b> " +:+ str_number (memory_threshold_of m)
  +:+ "%" +:+ nl
  +:+ "💾 <b>Диск порог:</b> " +:+ str_number (disk_threshold_of m) +:+ "%" +:+ nl
  +:+ "📤 <b>Сеть отправка порог:</b> " +:+ str_number (sent_threshold_of m)
  +:+ " MB/сек" +:+ nl
  +:+ "📥 <b>Сеть получение порог:</b> " +:+ str_number (recv_threshold_of m)
  +:+ " MB/сек" +:+ nl.

End BotText.

(** ** The bot's handlers *)

(** [restart_monitoring]: the thread of the loop is stopped and started
    again, which touches none of the fields modelled here, and [True] is
    returned. *)
Definition restart_monitoring : M bool := ret true.

(** What a handler did: the messages it sent, the exception that ended it,
    if any, and the monitor it leaves. *)
Record handled := mk_handled {
  sent : list outgoing;
  failed : option exn;
  after : Monitor
}.

(** What psutil and the clock give to a handler. *)
Record BotReadings := mk_BotReadings {
  bot_cpu_percent : Q;
  bot_memory_percent : Q;
  bot_disk_usage : result Q;
  bot_time : Q;
  bot_start_time : Q
}.

Definition help_text : string :=
  "🤖 <b>Справка по командам</b>" +:+ nl +:+ nl
  +:+ "📊 <b>Статус</b> - Текущее состояние системы" +:+ nl
  +:+ "📈 <b>Статистика</b> - Статистика мониторинга" +:+ nl
  +:+ "⚠️ <b>Оповещения</b> - История оповещений" +:+ nl
  +:+ "⚙️ <b>Конфигурация</b> - Показать конфигурацию" +:+ nl
  +:+ "✅ <b>Включить</b> - Включить мониторинг" +:+ nl
  +:+ "❌ <b>Выключить</b> - Выключить мониторинг" +:+ nl
  +:+ "🔄 <b>Перезапуск</b> - Перезапустить мониторинг" +:+ nl
  +:+ "🔄 <b>Полный перезапуск</b> - Полный перезапуск приложения" +:+ nl
  +:+ "❓ <b>Помощь</b> - Показать эту справку" +:+ nl +:+ nl
  +:+ "Используйте кнопки внизу экрана для быстрого доступа к командам.".

Section BotHandlers.
Variable str_number : Q -> string.
Variable str_fixed2 : Q -> string.
Variable py_str : pyval -> string.
Variable strftime : datetime -> string.
Variable env : BotReadings.

(** The message of [get_system_status] sent with [send], or its
    exception. *)
Definition with_system_status (before : list outgoing)
    (send : string -> outgoing) (m : Monitor) : handled :=
  match get_system_status str_number str_fixed2 (bot_cpu_percent env)
          (bot_memory_percent env) (bot_disk_usage env) (bot_time env)
          (bot_start_time env) m with
  | (Ok status_msg, m') => mk_handled (before ++ [send status_msg]) None m'
  | (Raise e, m') => mk_handled before (Some e) m'
  end.

Definition with_stats_message (before : list outgoing)
    (send : string -> outgoing) (m : Monitor) : handled :=
  match get_stats_message py_str strftime (bot_time env) (bot_start_time env) m with
  | Ok stats_msg => mk_handled (before ++ [send stats_msg]) None m
  | Raise f => mk_handled before (Some f) m
  end.

(** The command handlers. *)
Definition bot_status (m : Monitor) : handled :=
  with_system_status [] reply_text m.

Definition bot_stats (m : Monitor) : handled :=
  with_stats_message [] reply_text m.

Definition bot_alerts (m : Monitor) : handled :=
  mk_handled [reply_text (get_alerts_message str_number strftime m)] None m.

Definition bot_config_cmd (m : Monitor) : handled :=
  mk_handled [reply_text (get_config_message str_number m)] None m.

Definition bot_enable (m : Monitor) : handled :=
  mk_handled [reply_text "✅ Мониторинг включен"] None
    (set_monitoring_enabled true m).

Definition bot_disable (m : Monitor) : handled :=
  mk_handled [reply_text "❌ Мониторинг выключен"] None
    (set_monitoring_enabled false m).

Definition bot_restart (m : Monitor) : handled :=
  match restart_monitoring m with
  | (Ok true, m') => mk_handled [reply_text "✅ Мониторинг перезапущен"] None m'
  | (Ok false, m') =>
      mk_handled [reply_text "❌ Ошибка перезапуска мониторинга"] None m'
  | (Raise e, m') => mk_handled [] (Some e) m'
  end.

Definition bot_full_restart (m : Monitor) : handled :=
  mk_handled [reply_text "🔄 Полный перезапуск приложения...";
              start_restart_application] None m.

Definition bot_help_command (m : Monitor) : handled :=
  mk_handled [reply_text help_text] None m.

(** [button_handler]; [data] is [query.data]. *)
Definition button_handler (data : string) (m : Monitor) : handled :=
  if String.eqb data "status" then
    with_system_status [answer] edit_message_text m
  else if String.eqb data "stats" then
    with_stats_message [answer] edit_message_text m
  else if String.eqb data "alerts" then
    mk_handled [answer;
                edit_message_text (get_alerts_message str_number strftime m)]
      None m
  else if String.eqb data "config" then
    mk_handled [answer; edit_message_text (get_config_message str_number m)]
      None m
  else if String.eqb data "enable" then
    mk_handled [answer; edit_message_text "✅ Мониторинг включен"] None
      (set_monitoring_enabled true m)
  else if String.eqb data "disable" then
    mk_handled [answer; edit_message_text "❌ Мониторинг выключен"] None
      (set_monitoring_enabled false m)
  else if String.eqb data "restart" then
    match restart_monitoring m with
    | (Ok true, m') =>
        mk_handled [answer; edit_message_text "✅ Мониторинг перезапущен"] None m'
    | (Ok false, m') =>
        mk_handled [answer; edit_message_text "❌ Ошибка перезапуска мониторинга"]
          None m'
    | (Raise e, m') => mk_handled [answer] (Some e) m'
    end
  else if String.eqb data "full_restart" then
    mk_handled [answer; edit_message_text "🔄 Полный перезапуск приложения...";
                start_restart_application] None m
  else mk_handled [answer] None m.

(** [text_handler]; [text] is the text of the message. *)
Definition text_handler (text : string) (m : Monitor) : handled :=
  if String.eqb text "📊 Статус" then bot_status m
  else if String.eqb text "📈 Статистика" then bot_stats m
  else if String.eqb text "⚠️ Оповещения" then bot_alerts m
  else if String.eqb text "⚙️ Конфигурация" then bot_config_cmd m
  else if String.eqb text "✅ Включить" then bot_enable m
  else if String.eqb text "❌ Выключить" then bot_disable m
  else if String.eqb text "🔄 Перезапуск" then bot_restart m
  else if String.eqb text "🔄 Полный перезапуск" then bot_full_restart m
  else if String.eqb text "❓ Помощь" then bot_help_command m
  else
    mk_handled
      [reply_text "Неизвестная команда. Используйте кнопки или /help для справки."]
      None m.

End BotHandlers.

(** The texts a handler sent, whichever way. *)
Definition texts_of (out : list outgoing) : list string :=
  flat_map (fun o =>
              match o with
              | reply_text text | edit_message_text text => [text]
              | _ => []
              end) out.

(** The keyboard texts and the inline buttons of the eight actions. *)
Definition keyboard_and_button : list (string * string) :=
  [("📊 Статус", "status"); ("📈 Статистика", "stats");
   ("⚠️ Оповещения", "alerts"); ("⚙️ Конфигурация", "config");
   ("✅ Включить", "enable"); ("❌ Выключить", "disable");
   ("🔄 Перезапуск", "restart"); ("🔄 Полный перезапуск", "full_restart")].

(** The fields of the monitor that are not the business of the bot: all but
    the enabled flag and the metrics. *)
Definition same_state (m m' : Monitor) : Prop :=
  config m' = config m
  /\ prev_net_io m' = prev_net_io m
  /\ prev_check_time m' = prev_check_time m
  /\ alert_history m' = alert_history m
  /\ last_alert_times m' = last_alert_times m
  /\ stats m' = stats m.

(** Readings for a handler of the bot, three minutes after the start. *)
Definition bot_readings : BotReadings :=
  mk_BotReadings 12%Q 34%Q (Ok 56%Q) 1700000184%Q 1700000000%Q.

(** A monitor as [__init__] builds it when the state file holds two alerts
    and a [stats] object. *)
Definition reloaded_monitor : Monitor :=
  init (example_config 300) (mk_NetIO 0 0) 1700000000%Q new_year
    (state_file 2).

(** A printer that prints nothing. *)
Definition print_nothing {A} (_ : A) : string := "".

(** ** The configuration file *)

(** The configuration file: absent, not readable as YAML, or a document
    (an empty file is the document [None]).  Mapping keys are strings and
    the document shares no node through a YAML alias. *)
Inductive ConfigFile :=
| ConfigMissing
| ConfigUnreadable
| ConfigYaml (doc : pyval).

Definition default_logging : pyval :=
  PDict [("level", PStr "INFO"); ("file", PStr "monitor.log");
         ("max_size_mb", PInt 10); ("backup_count", PInt 5)].

Definition default_monitoring : pyval :=
  PDict [("check_interval_seconds", PInt 60);
         ("notification_cooldown_seconds", PInt 300);
         ("resources",
          PDict [("cpu", PDict [("enabled", PBool true); ("threshold", PInt 80)]);
                 ("memory",
                  PDict [("enabled", PBool true); ("threshold", PInt 80)]);
                 ("disk",
                  PDict [("enabled", PBool true); ("threshold", PInt 80);
                         ("paths", PList [PStr "/"])]);
                 ("network",
                  PDict [("enabled", PBool true);
                         ("threshold_sent_mbps", PInt 10);
                         ("threshold_recv_mbps", PInt 10)])])].

Definition default_notifications : pyval :=
  PDict [("telegram",
          PDict [("enabled", PBool true);
                 ("bot_token", PStr "your_bot_token_here");
                 ("chat_id", PStr "your_chat_id_here")])].

(** [create_default_config]: the value it returns, which is also what it
    hands to [save_config]. *)
Definition create_default_config : pyval :=
  PDict [("logging", default_logging); ("monitoring", default_monitoring);
         ("notifications", default_notifications)].

(** [config["notifications"]["telegram"]["enabled"] = False]: the inner
    dict is changed in place, which shows in [config]. *)
Definition disable_telegram (config : pyval) : result pyval :=
  result_bind (py_getitem "notifications" config) (fun notifications =>
  result_bind (py_getitem "telegram" notifications) (fun telegram =>
  result_bind (py_setitem "enabled" (PBool false) telegram) (fun telegram' =>
  result_bind (py_setitem "telegram" telegram' notifications)
    (fun notifications' =>
  py_setitem "notifications" notifications' config)))).

(** The check of the Telegram credentials in [load_config]. *)
Definition check_credentials (config : pyval) : result pyval :=
  result_bind (py_get "notifications" (PDict []) config) (fun notifications =>
  result_bind (py_get "telegram" (PDict []) notifications)
    (fun telegram_config =>
  result_bind (py_get "enabled" (PBool false) telegram_config) (fun enabled =>
  if py_bool enabled then
    result_bind (py_get "bot_token" (PStr "") telegram_config) (fun bot_token =>
    result_bind (py_get "chat_id" (PStr "") telegram_config) (fun chat_id =>
    result_bind
      (if negb (py_bool bot_token) || py_eq_str bot_token "your_bot_token_here"
       then disable_telegram config else Ok config) (fun config =>
    if negb (py_bool chat_id) || py_eq_str chat_id "your_chat_id_here"
    then disable_telegram config else Ok config)))
  else Ok config))).

(** [if k not in config: config[k] = v].  On anything but a dict
    [config.get] has raised before this is reached. *)
Definition add_section (k : string) (v : pyval) (config : pyval)
  : result pyval :=
  match config with
  | PDict d =>
      match dict_get k d with
      | Some _ => Ok config
      | None => py_setitem k v config
      end
  | _ => Raise TypeError
  end.

(** [load_config]: the configuration it returns.  Every exception of the
    [try] block ends in [create_default_config]; the returned value is also
    what is written back to the file. *)
Definition load_config (file : ConfigFile) : pyval :=
  match file with
  | ConfigMissing => create_default_config
  | ConfigUnreadable => create_default_config
  | ConfigYaml doc =>
      let config := if py_bool doc then doc else PDict [] in
      match
        result_bind (check_credentials config) (fun config =>
        result_bind (add_section "logging" default_logging config)
          (fun config =>
        result_bind (add_section "monitoring" default_monitoring config)
          (fun config =>
        add_section "notifications" default_notifications config)))
      with
      | Ok config => config
      | Raise _ => create_default_config
      end
  end.

(** The value under a path of keys in nested dicts. *)
Fixpoint config_item (path : list string) (v : pyval) : option pyval :=
  match path with
  | [] => Some v
  | k :: path' =>
      match v with
      | PDict d =>
          match dict_get k d with
          | Some x => config_item path' x
          | None => None
          end
      | _ => None
      end
  end.

(** A credential that the check of [load_config] does not accept: absent,
    false as a truth value, or the placeholder. *)
Definition placeholder_credential (k placeholder : string)
    (telegram : list (string * pyval)) : bool :=
  match dict_get k telegram with
  | None => true
  | Some v => negb (py_bool v) || py_eq_str v placeholder
  end.

(** The mapping [c] of a configuration document has the shape that
    [load_config] reads without an exception: [notifications], when there,
    is a mapping, and so is its [telegram]. *)
Definition readable_shape (c : list (string * pyval)) : Prop :=
  match dict_get "notifications" c with
  | None => True
  | Some (PDict n) =>
      match dict_get "telegram" n with
      | None | Some (PDict _) => True
      | Some _ => False
      end
  | Some _ => False
  end.

(** The mapping [c] with the section [k] added when it has none, and with
    the three sections of [load_config]. *)
Definition with_section (k : string) (v : pyval) (c : list (string * pyval))
  : list (string * pyval) :=
  match dict_get k c with
  | Some _ => c
  | None => dict_set k v c
  end.

Definition with_defaults (c : list (string * pyval)) : list (string * pyval) :=
  with_section "notifications" default_notifications
    (with_section "monitoring" default_monitoring
       (with_section "logging" default_logging c)).

(** A configuration file with thresholds of its own and nothing under
    [notifications]. *)
Definition thresholds_only : pyval :=
  PDict [("monitoring",
          PDict [("resources",
                  PDict [("cpu", PDict [("enabled", PBool true);
                                        ("threshold", PInt 95)])])]);
         ("notifications", PNone)].

(** A configuration file with a real token and the placeholder chat id. *)
Definition half_configured : pyval :=
  PDict [("notifications",
          PDict [("telegram",
                  PDict [("enabled", PBool true);
                         ("bot_token", PStr "123:token");
                         ("chat_id", PStr "your_chat_id_here")])])].

(** * Properties *)

(** ** The monad *)

Lemma bind_Ok {A B} (c : M A) (k : A -> M B) (m : Monitor) (b : B) :
  fst (bind c k m) = Ok b ->
  exists a m', c m = (Ok a, m') /\ fst (k a m') = Ok b.
Proof.
  unfold bind. destruct (c m) as [[a | e] m']; [eauto | discriminate].
Qed.

Lemma for_each_cons {A} (i : nat) (x : A) (xs : list A)
    (body : nat -> A -> M unit) (m : Monitor) :
  for_each i (x :: xs) body m
  = match body i x m with
    | (Ok _, m') => for_each (S i) xs body m'
    | (Raise e, m') => (Raise e, m')
    end.
Proof. reflexivity. Qed.

(** ** Comparisons *)

Lemma py_gt_true (a b : Q) : py_gt a b = true <-> (b < a)%Q.
Proof.
  unfold py_gt. rewrite negb_true_iff, <- not_true_iff_false, Qle_bool_iff.
  split; [apply Qnot_le_lt | apply Qlt_not_le].
Qed.

Lemma py_gt_false (a b : Q) : py_gt a b = false <-> (a <= b)%Q.
Proof. unfold py_gt. rewrite negb_false_iff. apply Qle_bool_iff. Qed.

Lemma py_lt_true (a b : Q) : py_lt a b = true <-> (a < b)%Q.
Proof. apply py_gt_true. Qed.

Lemma py_lt_false (a b : Q) : py_lt a b = false <-> (b <= a)%Q.
Proof. apply py_gt_false. Qed.

Lemma py_gt_irrefl (a b : Q) : (a == b)%Q -> py_gt a b = false.
Proof. intros E. apply py_gt_false. rewrite E. apply Qle_refl. Qed.

(** ** Strings *)

Lemma append_empty (s : string) : "" +:+ s = s.
Proof. reflexivity. Qed.

Lemma append_cons (a : Ascii.ascii) (s t : string) :
  String a s +:+ t = String a (s +:+ t).
Proof. reflexivity. Qed.

(** ** Dicts *)

Lemma dict_get_set (k k' : string) (v : pyval) (d : list (string * pyval)) :
  dict_get k (dict_set k' v d)
  = if String.eqb k k' then Some v else dict_get k d.
Proof.
  induction d as [| [k0 v0] d IH]; cbn.
  - destruct (String.eqb k k'); reflexivity.
  - destruct (String.eqb k' k0) eqn:E1; cbn.
    + apply String.eqb_eq in E1. subst k0.
      destruct (String.eqb k k'); reflexivity.
    + destruct (String.eqb k k0) eqn:E2.
      * apply String.eqb_eq in E2. subst k0.
        rewrite String.eqb_sym in E1. by rewrite E1.
      * exact IH.
Qed.

Lemma dict_set_twice (k : string) (v v' : pyval) (d : list (string * pyval)) :
  dict_set k v' (dict_set k v d) = dict_set k v' d.
Proof.
  induction d as [| [k0 v0] d IH]; cbn.
  - by rewrite String.eqb_refl.
  - destruct (String.eqb k k0) eqn:E; cbn; rewrite E; [reflexivity |].
    by rewrite IH.
Qed.

Lemma dict_get_set_same (k : string) (v : pyval) (d : list (string * pyval)) :
  dict_get k (dict_set k v d) = Some v.
Proof. by rewrite dict_get_set, String.eqb_refl. Qed.

Lemma dict_get_set_other (k k' : string) (v : pyval)
    (d : list (string * pyval)) :
  k <> k' -> dict_get k (dict_set k' v d) = dict_get k d.
Proof.
  intros H. rewrite dict_get_set.
  destruct (String.eqb k k') eqn:E; [| reflexivity].
  by apply String.eqb_eq in E.
Qed.



(** ** The cooldown gate *)

Lemma can_send_alert_eq (now : Q) (res : string) (lvl : AlertLevel) (m : Monitor) :
  can_send_alert now res lvl m =
  match last_time_of res lvl m with
  | Ok last =>
      if py_lt (now - last) (cooldown_of m)
      then (Ok false, m)
      else (Ok true,
            set_last_alert_times
              (table_set (cooldown_key res lvl) now (last_alert_times m)) m)
  | Raise e => (Raise e, m)
  end.
Proof.
  unfold can_send_alert, bind, gets, lift, last_time_of, stored_time,
    cooldown_of, cooldown_key, py_rsub, result_bind, table_set.
  destruct (last_alert_times m) as [| | | | | | d |]; try reflexivity.
  cbn [py_get py_setitem].
  destruct (py_number _) as [last | e]; [| reflexivity].
  destruct (py_lt _ _); reflexivity.
Qed.

Lemma can_send_alert_config now res lvl m :
  config (snd (can_send_alert now res lvl m)) = config m.
Proof.
  rewrite can_send_alert_eq.
  destruct (last_time_of res lvl m); [| reflexivity].
  destruct (py_lt _ _); reflexivity.
Qed.


Lemma stored_time_congr (key : string) (m m' : Monitor) :
  last_alert_times m' = last_alert_times m ->
  stored_time key m' = stored_time key m.
Proof. unfold stored_time. by intros ->. Qed.


Lemma stored_time_ok_dict (key : string) (m : Monitor) (v : Q) :
  stored_time key m = Ok v -> exists d, last_alert_times m = PDict d.
Proof.
  unfold stored_time.
  destruct (last_alert_times m) as [| | | | | | d |]; try discriminate.
  by exists d.
Qed.

(** The entries of the table after one of them has been set. *)
Lemma stored_time_set (key key' : string) (now : Q) (m : Monitor) (v : Q) :
  stored_time key m = Ok v ->
  stored_time key'
    (set_last_alert_times (table_set key now (last_alert_times m)) m)
  = if String.eqb key' key then Ok now else stored_time key' m.
Proof.
  intros Hv. destruct (stored_time_ok_dict _ _ _ Hv) as [d Hd].
  unfold stored_time, table_set. cbn [last_alert_times set_last_alert_times].
  rewrite Hd. cbn [py_get result_bind]. rewrite dict_get_set.
  by destruct (String.eqb key' key).
Qed.

Lemma table_entry_set (key key' : string) (now : Q) (m : Monitor) (v : Q) :
  stored_time key m = Ok v ->
  table_entry key'
    (set_last_alert_times (table_set key now (last_alert_times m)) m)
  = if String.eqb key' key then Some (PFloat now) else table_entry key' m.
Proof.
  intros Hv. destruct (stored_time_ok_dict _ _ _ Hv) as [d Hd].
  unfold table_entry, table_set. cbn [last_alert_times set_last_alert_times].
  rewrite Hd. apply dict_get_set.
Qed.







(** ** The enabled flag *)

(** C5, as amended.  While monitoring is disabled a tick returns at once
    with no alert and changes nothing in the monitor: neither the counter
    of checks nor the counter of alerts moves, whatever the readings. *)
Theorem disabled_tick_changes_nothing (r : Readings) (m : Monitor) :
  monitoring_enabled m = false ->
  check_resources r m = (Ok [], m).
Proof.
  intros Hoff. unfold check_resources, bind, gets. cbn. by rewrite Hoff.
Qed.

Lemma disabled_tick_changes_nothing_witness :
  check_resources (cpu_readings 95 1700000060)
    (set_monitoring_enabled false (fresh_monitor 300))
  = (Ok [], set_monitoring_enabled false (fresh_monitor 300)).
Proof.
  apply (disabled_tick_changes_nothing (cpu_readings 95 1700000060)
           (set_monitoring_enabled false (fresh_monitor 300))).
  reflexivity.
Defined.

(** The claim as stated fails: a tick of a disabled monitor does not count
    as a check.  The counter of checks is 0 before and 0, not 1, after a
    tick with the CPU at 95%. *)
Lemma disabled_tick_not_counted :
  let m := run (fresh_monitor 300) [Disable] in
  let m' := run m [Tick (cpu_readings 95 1700000060)] in
  monitoring_enabled m = false
  /\ stat "checks" m = Some (PInt 0)
  /\ stat "checks" m' = Some (PInt 0)
  /\ stat "checks" m' <> Some (PInt (0 + 1)).
Proof. vm_compute. repeat split; try reflexivity. discriminate. Qed.

(** ** Network rates *)

Lemma network_time_diff_zero (now prev : Q) :
  (now - prev == 0)%Q -> network_time_diff now prev = 1%Q.
Proof.
  intros E. unfold network_time_diff, py_eq.
  apply Qeq_bool_iff in E. by rewrite E.
Qed.

Lemma network_time_diff_nonzero (now prev : Q) :
  ~ (now - prev == 0)%Q -> network_time_diff now prev = (now - prev)%Q.
Proof.
  intros E. unfold network_time_diff, py_eq.
  destruct (Qeq_bool _ _) eqn:B; [| done].
  apply Qeq_bool_iff in B. contradiction.
Qed.

Lemma check_network_metrics (r : Readings) (m : Monitor) :
  default true (cfg_network_enabled (config m)) = true ->
  let d := network_time_diff (network_time r) (prev_check_time m) in
  current_metrics (snd (check_network r m))
  = set_network_speed
      (network_speed (bytes_sent (psutil_net_io_counters r))
         (bytes_sent (prev_net_io m)) d)
      (network_speed (bytes_recv (psutil_net_io_counters r))
         (bytes_recv (prev_net_io m)) d)
      (current_metrics m).
Proof.
  intros Hon. unfold check_network, bind, gets. cbn. rewrite Hon. reflexivity.
Qed.

Lemma network_speed_eq (cur prev : Z) (d : Q) :
  ~ (d == 0)%Q ->
  (network_speed cur prev d
   == inject_Z (cur - prev) / d / inject_Z (1024 * 1024))%Q.
Proof. intros Hd. unfold network_speed. field. split; [done | discriminate]. Qed.

(** C6, as amended.  With the network check enabled, the send and receive
    rates stored by [check_network] are
    (current bytes - previous bytes) / d / (1024*1024), where the divisor
    [d] is the elapsed time itself, replaced by one second only when the
    elapsed time is exactly zero.  The divisor is therefore never zero, and
    it agrees with [max(elapsed, 1)] whenever the elapsed time is zero or
    at least one second. *)
Theorem network_rate_formula (r : Readings) (m : Monitor) :
  default true (cfg_network_enabled (config m)) = true ->
  let elapsed := (network_time r - prev_check_time m)%Q in
  let sent := (bytes_sent (psutil_net_io_counters r) - bytes_sent (prev_net_io m))%Z in
  let recv := (bytes_recv (psutil_net_io_counters r) - bytes_recv (prev_net_io m))%Z in
  let metrics := current_metrics (snd (check_network r m)) in
  exists d : Q,
    ((elapsed == 0 -> d == 1) /\ (~ elapsed == 0 -> d == elapsed) /\ ~ d == 0
     /\ (elapsed == 0 \/ 1 <= elapsed -> d == Qmax elapsed 1)
     /\ network_sent_speed metrics == inject_Z sent / d / inject_Z (1024 * 1024)
     /\ network_recv_speed metrics == inject_Z recv / d / inject_Z (1024 * 1024))%Q.
Proof.
  intros Hon elapsed sent recv metrics.
  exists (network_time_diff (network_time r) (prev_check_time m)).
  assert (Hnz : ~ (network_time_diff (network_time r) (prev_check_time m) == 0)%Q).
  { destruct (Qeq_dec elapsed 0) as [E | E].
    - rewrite (network_time_diff_zero _ _ E). discriminate.
    - by rewrite (network_time_diff_nonzero _ _ E). }
  split; [| split; [| split; [| split; [| split]]]].
  - intros E. by rewrite (network_time_diff_zero _ _ E).
  - intros E. by rewrite (network_time_diff_nonzero _ _ E).
  - exact Hnz.
  - intros [E | E].
    + rewrite (network_time_diff_zero _ _ E).
      symmetry. apply Q.max_r. lra.
    + assert (Hne : ~ (elapsed == 0)%Q) by lra.
      rewrite (network_time_diff_nonzero _ _ Hne).
      symmetry. apply Q.max_l. exact E.
  - subst metrics. rewrite (check_network_metrics r m Hon). cbn.
    by apply network_speed_eq.
  - subst metrics. rewrite (check_network_metrics r m Hon). cbn.
    by apply network_speed_eq.
Qed.

Lemma network_rate_formula_witness :
  exists d : Q,
    (~ d == 0)%Q
    /\ (network_sent_speed
          (current_metrics
             (snd (check_network (network_readings 20971520 1700000001)
                     (fresh_monitor 300))))
        == inject_Z 20971520 / d / inject_Z (1024 * 1024))%Q.
Proof.
  destruct (network_rate_formula (network_readings 20971520 1700000001)
              (fresh_monitor 300)) as [d [_ [_ [Hnz [_ [Hsent _]]]]]].
  - reflexivity.
  - exists d. split; [exact Hnz | exact Hsent].
Defined.

(** The claim as stated fails for an elapsed time between zero and one
    second: the code divides by the elapsed time itself.  One MiB sent in
    half a second is stored as 2 MB/s, where the stated formula, dividing
    by [max(1/2, 1)], gives 1 MB/s. *)
Lemma network_rate_below_one_second :
  let r := network_readings 1048576 (3400000001 # 2) in
  let m := fresh_monitor 300 in
  let rate := network_sent_speed (current_metrics (snd (check_network r m))) in
  let elapsed := (network_time r - prev_check_time m)%Q in
  (elapsed == 1 # 2)%Q
  /\ (rate == 2)%Q
  /\ (spec_network_rate (bytes_sent (psutil_net_io_counters r))
        (bytes_sent (prev_net_io m)) elapsed == 1)%Q
  /\ ~ (rate == spec_network_rate (bytes_sent (psutil_net_io_counters r))
                  (bytes_sent (prev_net_io m)) elapsed)%Q.
Proof. vm_compute. repeat split; try reflexivity. discriminate. Qed.

(** ** Threshold evaluation *)

Lemma tiered_intro (lvl : AlertLevel) res msg (v thr : Q) t :
  lvl = (if py_gt v 90 then CRITICAL else WARNING) ->
  tiered (mk_Alert lvl res msg v thr t).
Proof.
  intros ->. unfold tiered. cbn. destruct (py_gt v 90) eqn:E; split; intros H;
    try reflexivity; exfalso.
  - apply py_gt_true in E. lra.
  - apply py_gt_false in E. lra.
Qed.

Lemma tiered_warning_or_critical (a : Alert) : tiered a -> warning_or_critical a.
Proof.
  intros [Hhi Hlo]. unfold warning_or_critical.
  destruct (Qlt_le_dec 90 (value a)); [right | left]; auto.
Qed.

(** [check_cpu], evaluated. *)
Lemma check_cpu_fst (r : Readings) (m : Monitor) :
  fst (check_cpu r m)
  = Ok (if default true (rc_enabled (cfg_cpu (config m)))
           && py_gt (psutil_cpu_percent r) (cpu_threshold_of m)
        then [mk_Alert (if py_gt (psutil_cpu_percent r) 90 then CRITICAL else WARNING)
                "CPU" "Использование CPU превысило порог"
                (psutil_cpu_percent r) (cpu_threshold_of m) (cpu_now r)]
        else []).
Proof.
  unfold check_cpu, cpu_threshold_of, bind, gets, update_metrics, modify. cbn.
  destruct (default true _); cbn; [| reflexivity].
  destruct (py_gt (psutil_cpu_percent r) _); reflexivity.
Qed.

Lemma check_memory_fst (r : Readings) (m : Monitor) :
  fst (check_memory r m)
  = Ok (if default true (rc_enabled (cfg_memory (config m)))
           && py_gt (psutil_memory_percent r) (memory_threshold_of m)
        then [mk_Alert (if py_gt (psutil_memory_percent r) 90 then CRITICAL else WARNING)
                "Память" "Использование памяти превысило порог"
                (psutil_memory_percent r) (memory_threshold_of m) (memory_now r)]
        else []).
Proof.
  unfold check_memory, memory_threshold_of, bind, gets, update_metrics, modify. cbn.
  destruct (default true _); cbn; [| reflexivity].
  destruct (py_gt (psutil_memory_percent r) _); reflexivity.
Qed.

(** One turn of the disk loop never raises and appends [partition_alerts]. *)
Lemma check_disk_partition_fst thr paths p alerts m :
  fst (check_disk_partition thr paths p alerts m)
  = Ok (alerts ++ partition_alerts thr paths p).
Proof.
  unfold check_disk_partition, partition_alerts, try_except, bind, lift,
    update_metrics, modify.
  destruct (_ || _); cbn; [| by rewrite app_nil_r].
  destruct (disk_usage p) as [disk | e]; cbn.
  - destruct (String.eqb _ _); cbn;
      (destruct (py_gt disk thr); cbn; [reflexivity | by rewrite app_nil_r]).
  - destruct e; cbn; by rewrite app_nil_r.
Qed.

Lemma check_disk_loop_fst thr paths ps : forall alerts m,
  fst (check_disk_loop thr paths ps alerts m)
  = Ok (alerts ++ flat_map (partition_alerts thr paths) ps).
Proof.
  induction ps as [| p ps IH]; intros alerts m; cbn.
  - by rewrite app_nil_r.
  - unfold bind.
    pose proof (check_disk_partition_fst thr paths p alerts m) as Hp.
    destruct (check_disk_partition thr paths p alerts m) as [[a' | e] m'];
      cbn in Hp; [| discriminate].
    injection Hp as ->. rewrite IH. by rewrite <- app_assoc.
Qed.

(** A turn of the loop on a partition whose usage cannot be read for lack
    of permission leaves the alerts and the monitor as they were. *)
Lemma check_disk_partition_permission thr paths mp t alerts m :
  check_disk_partition thr paths (mk_Partition mp (Raise PermissionError) t) alerts m
  = (Ok alerts, m).
Proof.
  unfold check_disk_partition, try_except, bind, lift. cbn.
  destruct (_ || _); reflexivity.
Qed.

Lemma check_disk_loop_app thr paths ps1 : forall ps2 alerts m,
  check_disk_loop thr paths (ps1 ++ ps2) alerts m
  = match check_disk_loop thr paths ps1 alerts m with
    | (Ok alerts', m') => check_disk_loop thr paths ps2 alerts' m'
    | (Raise e, m') => (Raise e, m')
    end.
Proof.
  induction ps1 as [| p ps1 IH]; intros ps2 alerts m; cbn; [reflexivity |].
  unfold bind.
  destruct (check_disk_partition thr paths p alerts m) as [[a' | e] m'];
    [apply IH | reflexivity].
Qed.

(** [check_disk], evaluated. *)
Lemma check_disk_fst (r : Readings) (m : Monitor) :
  fst (check_disk r m)
  = Ok (if default true (rc_enabled (cfg_disk (config m)))
        then flat_map (partition_alerts (disk_threshold_of m)
                         (default ["/"] (cfg_disk_paths (config m))))
               (psutil_disk_partitions r)
        else []).
Proof.
  unfold check_disk, disk_threshold_of, bind, gets. cbn.
  destruct (default true _); cbn; [| reflexivity].
  by rewrite check_disk_loop_fst.
Qed.

(** [check_network], evaluated. *)
Lemma check_network_fst (r : Readings) (m : Monitor) :
  fst (check_network r m)
  = Ok (if default true (cfg_network_enabled (config m))
        then
          (if py_gt (sent_rate r m) (sent_threshold_of m)
           then [mk_Alert WARNING "Сеть (исходящий трафик)"
                   "Скорость отправки превысила порог"
                   (sent_rate r m) (sent_threshold_of m) (sent_now r)]
           else [])
          ++ (if py_gt (recv_rate r m) (recv_threshold_of m)
              then [mk_Alert WARNING "Сеть (входящий трафик)"
                      "Скорость получения превысила порог"
                      (recv_rate r m) (recv_threshold_of m) (recv_now r)]
              else [])
        else []).
Proof.
  unfold check_network, sent_rate, recv_rate, sent_threshold_of,
    recv_threshold_of, bind, gets, update_metrics, modify. cbn.
  destruct (default true _); cbn; [| reflexivity].
  destruct (py_gt _ _); destruct (py_gt _ _); reflexivity.
Qed.

(** The scenarios of the specification, run on the model. *)
Example scenario_cpu_warning :
  fst (check_cpu (cpu_readings 85 1700000060) (fresh_monitor 300))
  = Ok [mk_Alert WARNING "CPU" "Использование CPU превысило порог"
          85 80 new_year].
Proof. reflexivity. Qed.

Example scenario_cpu_critical :
  fst (check_cpu (cpu_readings 95 1700000060) (fresh_monitor 300))
  = Ok [mk_Alert CRITICAL "CPU" "Использование CPU превысило порог"
          95 80 new_year].
Proof. reflexivity. Qed.

Example scenario_network_sent :
  exists a,
    fst (check_network (network_readings 20971520 1700000001) (fresh_monitor 300))
    = Ok [a]
    /\ level a = WARNING /\ resource a = "Сеть (исходящий трафик)"
    /\ (value a == 20)%Q /\ threshold a = 10%Q.
Proof. eexists. split; [reflexivity |]. cbn. repeat split; reflexivity. Qed.

Example scenario_disk_at_threshold :
  fst (check_disk
         (with_partitions [mk_Partition "/" (Ok 80%Q) new_year]
            (cpu_readings 10 1700000060))
         (fresh_monitor 300))
  = Ok [].
Proof. reflexivity. Qed.

Lemma partition_alerts_at_threshold thr paths mp (v : Q) t :
  (v == thr)%Q -> partition_alerts thr paths (mk_Partition mp (Ok v) t) = [].
Proof.
  intros E. unfold partition_alerts. cbn.
  rewrite (py_gt_irrefl v thr E). by destruct (_ || _).
Qed.

(** C7.  A reading exactly equal to its threshold produces no alert in any
    of the four checks.  For CPU and memory the check returns the empty
    list; a disk partition whose usage equals the threshold contributes
    nothing, the check returning the alerts it returns without that
    partition; a send (receive) rate equal to its threshold yields no
    alert for outbound (inbound) traffic. *)
Theorem reading_at_threshold_no_alert (r : Readings) (m : Monitor) :
  ((psutil_cpu_percent r == cpu_threshold_of m)%Q ->
     fst (check_cpu r m) = Ok [])
  /\ ((psutil_memory_percent r == memory_threshold_of m)%Q ->
     fst (check_memory r m) = Ok [])
  /\ (forall before after mp (v : Q) t,
        (v == disk_threshold_of m)%Q ->
        fst (check_disk
               (with_partitions (before ++ mk_Partition mp (Ok v) t :: after) r) m)
        = fst (check_disk (with_partitions (before ++ after) r) m))
  /\ ((sent_rate r m == sent_threshold_of m)%Q ->
      exists alerts, fst (check_network r m) = Ok alerts
        /\ Forall (fun a => resource a <> "Сеть (исходящий трафик)") alerts)
  /\ ((recv_rate r m == recv_threshold_of m)%Q ->
      exists alerts, fst (check_network r m) = Ok alerts
        /\ Forall (fun a => resource a <> "Сеть (входящий трафик)") alerts).
Proof.
  split; [| split; [| split; [| split]]].
  - intros E. rewrite check_cpu_fst, (py_gt_irrefl _ _ E).
    by rewrite andb_false_r.
  - intros E. rewrite check_memory_fst, (py_gt_irrefl _ _ E).
    by rewrite andb_false_r.
  - intros before after mp v t E. rewrite !check_disk_fst. cbn.
    destruct (default true _); [| reflexivity].
    rewrite !flat_map_app. cbn.
    by rewrite (partition_alerts_at_threshold _ _ _ _ _ E).
  - intros E. eexists. split; [apply check_network_fst |].
    rewrite (py_gt_irrefl _ _ E). cbn.
    destruct (default true _); [| constructor].
    destruct (py_gt _ _); repeat constructor. cbn. discriminate.
  - intros E. eexists. split; [apply check_network_fst |].
    rewrite (py_gt_irrefl _ _ E). rewrite app_nil_r.
    destruct (default true _); [| constructor].
    destruct (py_gt _ _); repeat constructor. cbn. discriminate.
Qed.

Lemma reading_at_threshold_no_alert_witness :
  let m := init (mk_Config (Some 300%Q)
                   (mk_ResourceConfig (Some true) (Some 100%Q))
                   (mk_ResourceConfig (Some true) (Some 100%Q))
                   (mk_ResourceConfig (Some true) (Some 80%Q))
                   (Some ["/"]) (Some true) (Some 1%Q) (Some 10%Q)
                   (Some true) (Some "123:token") (Some "42"))
              (mk_NetIO 0 0) 1700000000%Q new_year FileMissing in
  let r := mk_Readings 100%Q new_year 100%Q new_year
             [mk_Partition "/" (Ok 95%Q) new_year]
             (mk_NetIO 1048576 10485760) 1700000001%Q new_year new_year
             (fun _ => 1700000001%Q) (fun _ => Ok 200%Z) (Ok 200%Z) in
  fst (check_cpu r m) = Ok []
  /\ fst (check_memory r m) = Ok []
  /\ fst (check_disk
            (with_partitions ([] ++ mk_Partition "/" (Ok (160 # 2)) new_year :: []) r) m)
     = Ok []
  /\ (exists alerts, fst (check_network r m) = Ok alerts
        /\ Forall (fun a => resource a <> "Сеть (исходящий трафик)") alerts)
  /\ (exists alerts, fst (check_network r m) = Ok alerts
        /\ Forall (fun a => resource a <> "Сеть (входящий трафик)") alerts).
Proof.
  intros m r.
  destruct (reading_at_threshold_no_alert r m) as [Hcpu [Hmem [Hdisk [Hsent Hrecv]]]].
  split; [| split; [| split; [| split]]].
  - apply Hcpu. reflexivity.
  - apply Hmem. reflexivity.
  - rewrite (Hdisk [] [] "/" (160 # 2)%Q new_year); reflexivity.
  - apply Hsent. reflexivity.
  - apply Hrecv. reflexivity.
Defined.

Lemma selected_true (disk_paths : list string) (p : Partition) :
  bool_decide (mountpoint p ∈ disk_paths) || bool_decide (disk_paths = []) = true
  <-> selected disk_paths p.
Proof.
  unfold selected.
  rewrite orb_true_iff, !bool_decide_eq_true, list_elem_of_In. tauto.
Qed.

(** The alerts of the disk check, partition by partition: one for each
    partition that breaches, in the order of the partitions. *)
Lemma partition_alerts_breach (m : Monitor) (ps : list Partition) :
  Forall2 (disk_alert_of m) (List.filter (disk_breach m) ps)
    (flat_map (partition_alerts (disk_threshold_of m)
                 (default ["/"] (cfg_disk_paths (config m)))) ps).
Proof.
  induction ps as [| p ps IH]; [constructor |].
  cbn [List.filter flat_map]. unfold disk_breach at 1, partition_alerts at 1.
  destruct (_ || _); cbn [andb]; [| exact IH].
  destruct (disk_usage p) as [disk | e] eqn:Hu; [| exact IH].
  destruct (py_gt disk (disk_threshold_of m)) eqn:E; [| exact IH].
  cbn [app]. constructor; [| exact IH].
  unfold disk_alert_of. cbn [value resource threshold level].
  repeat split; try done. by apply py_gt_true.
Qed.

Lemma partition_alerts_in (m : Monitor) (ps : list Partition) (p : Partition)
    (v : Q) :
  In p ps -> selected (default ["/"] (cfg_disk_paths (config m))) p ->
  disk_usage p = Ok v -> (disk_threshold_of m < v)%Q ->
  In (mk_Alert (if py_gt v 90 then CRITICAL else WARNING)
        ("Диск " +:+ mountpoint p) "Использование диска превысило порог"
        v (disk_threshold_of m) (disk_now p))
    (flat_map (partition_alerts (disk_threshold_of m)
                 (default ["/"] (cfg_disk_paths (config m)))) ps).
Proof.
  intros Hp Hsel Hu Hv. apply in_flat_map. exists p. split; [exact Hp |].
  unfold partition_alerts. rewrite (proj2 (selected_true _ p) Hsel), Hu.
  rewrite (proj2 (py_gt_true _ _) Hv). by left.
Qed.

(** C8.  Each check returns a list of alerts.  An alert of the CPU, memory
    or disk check carries the observed percentage as its value and is
    [CRITICAL] when that percentage is strictly above 90 and [WARNING]
    otherwise; an enabled CPU or memory check whose reading breaches the
    threshold returns exactly one such alert, and an enabled disk check
    returns one for each partition it looks at whose usage was read and
    breaches the threshold, in the order of the partitions, and no other.
    Every alert of the network check, outbound or inbound, is [WARNING];
    an enabled network check returns one alert for the outbound rate when
    it breaches its threshold, one for the inbound rate when it breaches
    its own, and no other. *)
Theorem severity_tiers (r : Readings) (m : Monitor) :
  (exists alerts, fst (check_cpu r m) = Ok alerts
     /\ Forall (fun a => value a = psutil_cpu_percent r /\ tiered a) alerts
     /\ (default true (rc_enabled (cfg_cpu (config m))) = true ->
         (cpu_threshold_of m < psutil_cpu_percent r)%Q -> length alerts = 1%nat))
  /\ (exists alerts, fst (check_memory r m) = Ok alerts
     /\ Forall (fun a => value a = psutil_memory_percent r /\ tiered a) alerts
     /\ (default true (rc_enabled (cfg_memory (config m))) = true ->
         (memory_threshold_of m < psutil_memory_percent r)%Q -> length alerts = 1%nat))
  /\ (exists alerts, fst (check_disk r m) = Ok alerts
     /\ Forall (fun a =>
                  (exists p, In p (psutil_disk_partitions r)
                             /\ disk_usage p = Ok (value a))
                  /\ tiered a) alerts
     /\ (default true (rc_enabled (cfg_disk (config m))) = true ->
         (forall p v,
             In p (psutil_disk_partitions r) ->
             selected (default ["/"] (cfg_disk_paths (config m))) p ->
             disk_usage p = Ok v -> (disk_threshold_of m < v)%Q ->
             exists a, In a alerts
                       /\ resource a = "Диск " +:+ mountpoint p
                       /\ value a = v
                       /\ level a = (if py_gt v 90 then CRITICAL else WARNING))
         /\ Forall2 (disk_alert_of m)
              (List.filter (disk_breach m) (psutil_disk_partitions r)) alerts))
  /\ (exists alerts, fst (check_network r m) = Ok alerts
     /\ Forall (fun a => level a = WARNING) alerts
     /\ (default true (cfg_network_enabled (config m)) = true ->
         ((sent_threshold_of m < sent_rate r m)%Q ->
          exists a, In a alerts /\ resource a = "Сеть (исходящий трафик)"
                    /\ value a = sent_rate r m /\ level a = WARNING)
         /\ ((recv_threshold_of m < recv_rate r m)%Q ->
             exists a, In a alerts /\ resource a = "Сеть (входящий трафик)"
                       /\ value a = recv_rate r m /\ level a = WARNING)
         /\ length alerts
            = ((if py_gt (sent_rate r m) (sent_threshold_of m) then 1 else 0)
               + (if py_gt (recv_rate r m) (recv_threshold_of m) then 1 else 0))%nat)).
Proof.
  split; [| split; [| split]].
  - eexists. split; [apply check_cpu_fst |].
    destruct (default true _); cbn.
    + destruct (py_gt (psutil_cpu_percent r) (cpu_threshold_of m)) eqn:E.
      * split; [| done].
        constructor; [split; [reflexivity | by apply tiered_intro] | constructor].
      * split; [constructor |]. intros _ H. apply py_gt_false in E. lra.
    + split; [constructor | discriminate].
  - eexists. split; [apply check_memory_fst |].
    destruct (default true _); cbn.
    + destruct (py_gt (psutil_memory_percent r) (memory_threshold_of m)) eqn:E.
      * split; [| done].
        constructor; [split; [reflexivity | by apply tiered_intro] | constructor].
      * split; [constructor |]. intros _ H. apply py_gt_false in E. lra.
    + split; [constructor | discriminate].
  - eexists. split; [apply check_disk_fst |].
    destruct (default true _); [| by split; [constructor |]].
    split; [| intros _; split].
    + apply List.Forall_forall. intros a Ha.
      apply in_flat_map in Ha as [p [Hp Ha]].
      unfold partition_alerts in Ha.
      destruct (_ || _); [| destruct Ha].
      destruct (disk_usage p) as [disk |] eqn:Hu; [| destruct Ha].
      destruct (py_gt disk _); [| destruct Ha].
      destruct Ha as [<- | []]. split.
      * exists p. by split.
      * by apply tiered_intro.
    + intros p v Hp Hsel Hu Hv. eexists.
      split; [by apply (partition_alerts_in m _ p v) |]. by repeat split.
    + apply partition_alerts_breach.
  - eexists. split; [apply check_network_fst |].
    destruct (default true _); [| by split; [constructor |]].
    split; [destruct (py_gt _ _); destruct (py_gt _ _); repeat constructor |].
    intros _. split; [| split].
    + intros H. apply py_gt_true in H. rewrite H. eexists.
      split; [by left |]. by repeat split.
    + intros H. apply py_gt_true in H. rewrite H. eexists.
      split; [apply in_or_app; right; by left |]. by repeat split.
    + by destruct (py_gt _ _), (py_gt _ _).
Qed.

Lemma severity_tiers_witness :
  let m := fresh_monitor 300 in
  (exists alerts,
      fst (check_cpu busy_readings m) = Ok alerts
      /\ length alerts = 1%nat
      /\ Forall (fun a => level a = CRITICAL) alerts)
  /\ (exists alerts a,
        fst (check_disk busy_readings m) = Ok alerts
        /\ In a alerts /\ resource a = "Диск /" /\ level a = CRITICAL)
  /\ (exists alerts a,
        fst (check_network busy_readings m) = Ok alerts
        /\ In a alerts /\ resource a = "Сеть (исходящий трафик)"
        /\ level a = WARNING).
Proof.
  intros m.
  destruct (severity_tiers busy_readings m)
    as ((cpu & Hcpu & Hall & Hone) & _ & (disk & Hdisk & _ & Hbreach)
        & (net & Hnet & _ & Hrates)).
  split; [| split].
  - exists cpu. split; [exact Hcpu | split].
    + apply Hone; vm_compute; reflexivity.
    + eapply Forall_impl; [exact Hall |].
      intros a [Hv [Hhi _]]. apply Hhi. rewrite Hv. vm_compute. reflexivity.
  - destruct (Hbreach eq_refl) as [Hin _].
    destruct (Hin (mk_Partition "/" (Ok 95%Q) new_year) 95%Q)
      as (a & Ha & Hres & _ & Hlvl).
    + by left.
    + right. by left.
    + reflexivity.
    + vm_compute. reflexivity.
    + exists disk, a. by repeat split.
  - destruct (Hrates eq_refl) as [Hsent _].
    destruct Hsent as (a & Ha & Hres & _ & Hlvl); [vm_compute; reflexivity |].
    exists net, a. by repeat split.
Defined.

(** C9.  The disk check never raises, whatever the outcome of the usage
    reads.  A partition whose usage read raises a permission error is
    skipped: the check returns the same alerts, and leaves the same
    monitor, as on the list without that partition, so the partitions
    before and after it are all still evaluated and contribute their
    alerts. *)
Theorem permission_error_mount_skipped (r : Readings) (m : Monitor)
    (before after : list Partition) (mp : string) (t : datetime) :
  let denied := mk_Partition mp (Raise PermissionError) t in
  (exists alerts m', check_disk r m = (Ok alerts, m'))
  /\ check_disk (with_partitions (before ++ denied :: after) r) m
     = check_disk (with_partitions (before ++ after) r) m
  /\ fst (check_disk (with_partitions (before ++ denied :: after) r) m)
     = Ok (if default true (rc_enabled (cfg_disk (config m)))
           then
             flat_map (partition_alerts (disk_threshold_of m)
                         (default ["/"] (cfg_disk_paths (config m)))) before
             ++ flat_map (partition_alerts (disk_threshold_of m)
                            (default ["/"] (cfg_disk_paths (config m)))) after
           else []).
Proof.
  intros denied. split; [| split].
  - pose proof (check_disk_fst r m) as H.
    destruct (check_disk r m) as [res m']. cbn in H. subst res. eauto.
  - unfold check_disk, bind, gets. cbn.
    destruct (default true _); cbn; [| reflexivity].
    rewrite !check_disk_loop_app.
    destruct (check_disk_loop _ _ before [] m) as [[alerts' | e] m'];
      [| reflexivity].
    cbn. unfold bind at 1. subst denied.
    by rewrite check_disk_partition_permission.
  - rewrite check_disk_fst. cbn.
    destruct (default true _); [| reflexivity].
    rewrite flat_map_app. cbn. subst denied. unfold partition_alerts at 2. cbn.
    by destruct (_ || _).
Qed.

(** C10.  Each of the four checks returns a list of alerts, and every alert
    in it is [WARNING] or [CRITICAL]; so is every alert that a completed
    tick returns.  [INFO] and [ERROR] never come out of threshold
    evaluation. *)
Theorem check_levels (r : Readings) (m : Monitor) :
  (exists alerts, fst (check_cpu r m) = Ok alerts
     /\ Forall warning_or_critical alerts)
  /\ (exists alerts, fst (check_memory r m) = Ok alerts
     /\ Forall warning_or_critical alerts)
  /\ (exists alerts, fst (check_disk r m) = Ok alerts
     /\ Forall warning_or_critical alerts)
  /\ (exists alerts, fst (check_network r m) = Ok alerts
     /\ Forall warning_or_critical alerts)
  /\ (forall alerts, fst (check_resources r m) = Ok alerts ->
      Forall warning_or_critical alerts).
Proof.
  assert (Hcpu : forall m, exists alerts, fst (check_cpu r m) = Ok alerts
                 /\ Forall warning_or_critical alerts).
  { intros m0. eexists. split; [apply check_cpu_fst |].
    destruct (_ && _); [| constructor].
    constructor; [| constructor].
    apply tiered_warning_or_critical. by apply tiered_intro. }
  assert (Hmem : forall m, exists alerts, fst (check_memory r m) = Ok alerts
                 /\ Forall warning_or_critical alerts).
  { intros m0. eexists. split; [apply check_memory_fst |].
    destruct (_ && _); [| constructor].
    constructor; [| constructor].
    apply tiered_warning_or_critical. by apply tiered_intro. }
  assert (Hdisk : forall m, exists alerts, fst (check_disk r m) = Ok alerts
                  /\ Forall warning_or_critical alerts).
  { intros m0. eexists. split; [apply check_disk_fst |].
    destruct (default true _); [| constructor].
    apply List.Forall_forall. intros a Ha.
    apply in_flat_map in Ha as [p [_ Ha]]. unfold partition_alerts in Ha.
    destruct (_ || _); [| destruct Ha].
    destruct (disk_usage p) as [disk |]; [| destruct Ha].
    destruct (py_gt disk _); [| destruct Ha].
    destruct Ha as [<- | []].
    apply tiered_warning_or_critical. by apply tiered_intro. }
  assert (Hnet : forall m, exists alerts, fst (check_network r m) = Ok alerts
                 /\ Forall warning_or_critical alerts).
  { intros m0. eexists. split; [apply check_network_fst |].
    destruct (default true _); [| constructor].
    destruct (py_gt _ _); destruct (py_gt _ _); cbn;
      repeat (constructor; [by left |]); constructor. }
  split; [apply Hcpu | split; [apply Hmem | split; [apply Hdisk |
    split; [apply Hnet |]]]].
  intros alerts H. unfold check_resources in H.
  apply bind_Ok in H as (enabled & m' & Hg & H).
  unfold gets in Hg. injection Hg as <- <-.
  destruct (monitoring_enabled m); cbn [negb] in H.
  2: { injection H as <-. constructor. }
  apply bind_Ok in H as ([] & m0 & _ & H).
  apply bind_Ok in H as (a1 & m1 & E1 & H).
  apply bind_Ok in H as (a2 & m2 & E2 & H).
  apply bind_Ok in H as (a3 & m3 & E3 & H).
  apply bind_Ok in H as (a4 & m4 & E4 & H).
  apply bind_Ok in H as ([] & m5 & _ & H).
  injection H as <-.
  destruct (Hcpu m0) as [? [E F1]]. rewrite E1 in E. injection E as <-.
  destruct (Hmem m1) as [? [E F2]]. rewrite E2 in E. injection E as <-.
  destruct (Hdisk m2) as [? [E F3]]. rewrite E3 in E. injection E as <-.
  destruct (Hnet m3) as [? [E F4]]. rewrite E4 in E. injection E as <-.
  repeat (apply Forall_app; split); assumption.
Qed.

Lemma check_levels_witness :
  exists alerts,
    fst (check_resources (cpu_readings 95 1700000060) (fresh_monitor 300))
    = Ok alerts
    /\ Forall warning_or_critical alerts.
Proof.
  destruct (check_levels (cpu_readings 95 1700000060) (fresh_monitor 300))
    as (_ & _ & _ & _ & Htick).
  eexists. split; [vm_compute; reflexivity |].
  apply Htick. vm_compute. reflexivity.
Defined.

(** ** Dicts and counters *)



Lemma py_incr_item_inv (k : string) (s s' : pyval) :
  py_incr_item k s = Ok s' ->
  exists d v v', s = PDict d /\ dict_get k d = Some v /\ py_add1 v = Ok v'
                 /\ s' = PDict (dict_set k v' d).
Proof.
  destruct s; cbn; try discriminate.
  destruct (dict_get k d) as [v |] eqn:G; [| discriminate].
  destruct (py_add1 v) as [v' |] eqn:A; [| discriminate].
  intros [= <-]. eauto 7.
Qed.


Lemma has_counter_incr (k : string) (s : pyval) :
  has_counter k s = true -> exists s', py_incr_item k s = Ok s'.
Proof.
  destruct s; cbn; try discriminate.
  destruct (dict_get k d) as [v |]; [| discriminate].
  destruct v; cbn; try discriminate; eauto.
Qed.

Lemma incr_stat_cases (k : string) (m : Monitor) :
  (exists s', py_incr_item k (stats m) = Ok s'
              /\ incr_stat k m = (Ok tt, set_stats s' m))
  \/ (exists e, incr_stat k m = (Raise e, m)).
Proof.
  unfold incr_stat. destruct (py_incr_item k (stats m)) as [s' | e]; eauto.
Qed.

(** ** Maintained properties *)

Lemma preserves_ret {A} I (a : A) : preserves I (ret a).
Proof. by intros m. Qed.

Lemma preserves_gets {A} I (f : Monitor -> A) : preserves I (gets f).
Proof. by intros m. Qed.

Lemma preserves_lift {A} I (r : result A) : preserves I (lift r).
Proof. by intros m. Qed.

Lemma preserves_modify I (f : Monitor -> Monitor) :
  (forall m, I m -> I (f m)) -> preserves I (modify f).
Proof. intros Hf m Hm. by apply Hf. Qed.

Lemma preserves_bind {A B} I (c : M A) (k : A -> M B) :
  preserves I c -> (forall a, preserves I (k a)) -> preserves I (bind c k).
Proof.
  intros Hc Hk m Hm. unfold bind. specialize (Hc m Hm).
  destruct (c m) as [[a | e] m']; cbn in *; [by apply Hk | done].
Qed.

Lemma preserves_try_except {A} I (body : M A) (handler : exn -> M A) :
  preserves I body -> (forall e, preserves I (handler e)) ->
  preserves I (try_except body handler).
Proof.
  intros Hb Hh m Hm. unfold try_except. specialize (Hb m Hm).
  destruct (body m) as [[a | e] m']; cbn in *; [done | by apply Hh].
Qed.

Lemma preserves_for_each {A} I (body : nat -> A -> M unit) (xs : list A) :
  (forall i x, preserves I (body i x)) ->
  forall i, preserves I (for_each i xs body).
Proof.
  intros Hb. induction xs as [| x xs IH]; intros i; cbn.
  - apply preserves_ret.
  - apply preserves_bind; [apply Hb | intros _; apply IH].
Qed.

Lemma preserves_incr_stat I (k : string) :
  (forall m s', I m -> py_incr_item k (stats m) = Ok s' -> I (set_stats s' m)) ->
  preserves I (incr_stat k).
Proof.
  intros Hk m Hm. destruct (incr_stat_cases k m) as [(s' & Hs & ->) | (e & ->)];
    cbn; [by apply Hk | done].
Qed.

(** The gate maintains every property that does not depend on the cooldown
    table. *)
Lemma preserves_gate_of_table I now res lvl :
  (forall t m, I m -> I (set_last_alert_times t m)) ->
  preserves I (can_send_alert now res lvl).
Proof.
  intros I_table m Hm. rewrite can_send_alert_eq.
  destruct (last_time_of res lvl m); [| done].
  destruct (py_lt _ _); cbn; [done | by apply I_table].
Qed.

(** Properties that do not depend on the metrics or on the previous network
    counters, that survive the increment of a counter and that the gate
    maintains when it reads a clock value that is [timely], are maintained
    by the checks and the notification; when they do not depend on the
    history either, by the whole tick. *)
Section Maintained.
Variable I : Monitor -> Prop.
Variable timely : Q -> Prop.
Hypothesis I_metrics : forall c m, I m -> I (set_current_metrics c m).
Hypothesis I_prev_net : forall io t m, I m -> I (set_prev_net io t m).
Hypothesis I_gate : forall now res lvl,
  timely now -> preserves I (can_send_alert now res lvl).
Hypothesis I_incr : forall k m s',
  In k counter_keys -> I m -> py_incr_item k (stats m) = Ok s' ->
  I (set_stats s' m).

Lemma preserves_update_metrics f : preserves I (update_metrics f).
Proof. apply preserves_modify. intros m. apply I_metrics. Qed.

Lemma preserves_check_cpu r : preserves I (check_cpu r).
Proof.
  unfold check_cpu. apply preserves_bind; [apply preserves_gets |].
  intros cfg. destruct (negb _); [apply preserves_ret |].
  apply preserves_bind; [apply preserves_update_metrics |].
  intros _. destruct (py_gt _ _); apply preserves_ret.
Qed.

Lemma preserves_check_memory r : preserves I (check_memory r).
Proof.
  unfold check_memory. apply preserves_bind; [apply preserves_gets |].
  intros cfg. destruct (negb _); [apply preserves_ret |].
  apply preserves_bind; [apply preserves_update_metrics |].
  intros _. destruct (py_gt _ _); apply preserves_ret.
Qed.

Lemma preserves_check_disk_loop thr paths ps :
  forall alerts, preserves I (check_disk_loop thr paths ps alerts).
Proof.
  induction ps as [| p ps IH]; intros alerts; cbn; [apply preserves_ret |].
  apply preserves_bind; [| intros a; apply IH].
  unfold check_disk_partition. destruct (_ || _); [| apply preserves_ret].
  apply preserves_try_except.
  - apply preserves_bind; [apply preserves_lift |]. intros disk.
    apply preserves_bind.
    + destruct (String.eqb _ _);
        [apply preserves_update_metrics | apply preserves_ret].
    + intros _. destruct (py_gt _ _); apply preserves_ret.
  - intros e. destruct e; apply preserves_ret.
Qed.

Lemma preserves_check_disk r : preserves I (check_disk r).
Proof.
  unfold check_disk. apply preserves_bind; [apply preserves_gets |].
  intros cfg. destruct (negb _); [apply preserves_ret |].
  apply preserves_check_disk_loop.
Qed.

Lemma preserves_check_network r : preserves I (check_network r).
Proof.
  unfold check_network. apply preserves_bind; [apply preserves_gets |].
  intros cfg. destruct (negb _); [apply preserves_ret |].
  apply preserves_bind; [apply preserves_gets |]. intros prev_time.
  apply preserves_bind; [apply preserves_gets |]. intros prev_io.
  apply preserves_bind; [apply preserves_update_metrics |]. intros _.
  apply preserves_bind; [| intros _; apply preserves_ret].
  apply preserves_modify. intros m. apply I_prev_net.
Qed.

Lemma preserves_counter k : In k counter_keys -> preserves I (incr_stat k).
Proof.
  intros Hk. apply preserves_incr_stat. intros m s'. by apply I_incr.
Qed.

Lemma preserves_send_telegram_message response :
  preserves I (send_telegram_message response).
Proof.
  unfold send_telegram_message. apply preserves_bind; [apply preserves_gets |].
  intros cfg. destruct (negb _); [apply preserves_ret |].
  destruct (_ || _); [apply preserves_ret |].
  apply preserves_try_except; [| intros e; apply preserves_ret].
  apply preserves_bind; [apply preserves_lift |]. intros status.
  destruct (status =? 200)%Z; [| apply preserves_ret].
  apply preserves_bind; [| intros _; apply preserves_ret].
  apply preserves_counter. cbn. tauto.
Qed.

Lemma preserves_notify_alert r i alert :
  timely (gate_time r i) -> preserves I (notify_alert r i alert).
Proof.
  intros Ht. unfold notify_alert.
  apply preserves_bind; [by apply I_gate |].
  intros ok. destruct ok; [| apply preserves_ret].
  apply preserves_bind; [apply preserves_send_telegram_message |].
  intros _. apply preserves_ret.
Qed.

Hypothesis I_history : forall h m, I m -> I (set_alert_history h m).

Lemma preserves_record_alert alert : preserves I (record_alert alert).
Proof.
  unfold record_alert.
  apply preserves_bind; [apply preserves_modify; intros m; apply I_history |].
  intros _. apply preserves_bind; [apply preserves_counter; cbn; tauto |].
  intros _. apply preserves_bind; [apply preserves_gets |].
  intros h. destruct (Nat.ltb 100 _); [| apply preserves_ret].
  apply preserves_modify. intros m. apply I_history.
Qed.

Lemma preserves_check_resources r :
  (forall i, timely (gate_time r i)) -> preserves I (check_resources r).
Proof.
  intros Ht. unfold check_resources.
  apply preserves_bind; [apply preserves_gets |].
  intros enabled. destruct (negb enabled); [apply preserves_ret |].
  apply preserves_bind; [apply preserves_counter; cbn; tauto |].
  intros _. apply preserves_bind; [apply preserves_check_cpu |].
  intros a1. apply preserves_bind; [apply preserves_check_memory |].
  intros a2. apply preserves_bind; [apply preserves_check_disk |].
  intros a3. apply preserves_bind; [apply preserves_check_network |].
  intros a4. apply preserves_bind; [| intros _; apply preserves_ret].
  apply preserves_for_each. intros i a. unfold record_and_gate.
  apply preserves_bind; [apply preserves_record_alert |].
  intros _. by apply preserves_notify_alert.
Qed.

Lemma preserves_monitoring_tick r :
  (forall i, timely (gate_time r i)) -> preserves I (monitoring_tick r).
Proof.
  intros Ht. unfold monitoring_tick. apply preserves_try_except.
  - apply preserves_bind; [by apply preserves_check_resources |].
    intros _. apply preserves_ret.
  - intros e. apply preserves_bind; [apply preserves_send_telegram_message |].
    intros _. apply preserves_ret.
Qed.
End Maintained.

(** ** The shape of a tick *)

Lemma check_cpu_fst_congr r (m m' : Monitor) :
  config m' = config m -> fst (check_cpu r m') = fst (check_cpu r m).
Proof. intros H. rewrite !check_cpu_fst. unfold cpu_threshold_of. by rewrite H. Qed.

Lemma check_memory_fst_congr r (m m' : Monitor) :
  config m' = config m -> fst (check_memory r m') = fst (check_memory r m).
Proof.
  intros H. rewrite !check_memory_fst. unfold memory_threshold_of. by rewrite H.
Qed.

Lemma check_disk_fst_congr r (m m' : Monitor) :
  config m' = config m -> fst (check_disk r m') = fst (check_disk r m).
Proof. intros H. rewrite !check_disk_fst. unfold disk_threshold_of. by rewrite H. Qed.

Lemma check_network_fst_congr r (m m' : Monitor) :
  config m' = config m -> prev_net_io m' = prev_net_io m ->
  prev_check_time m' = prev_check_time m ->
  fst (check_network r m') = fst (check_network r m).
Proof.
  intros H Hio Ht. rewrite !check_network_fst.
  unfold sent_rate, recv_rate, sent_threshold_of, recv_threshold_of.
  by rewrite H, Hio, Ht.
Qed.

(** The configuration and the previous network sample are as they were. *)
Lemma preserves_inputs_cpu r (m : Monitor) :
  config (snd (check_cpu r m)) = config m
  /\ prev_net_io (snd (check_cpu r m)) = prev_net_io m
  /\ prev_check_time (snd (check_cpu r m)) = prev_check_time m.
Proof.
  by apply (preserves_check_cpu
              (fun m' => config m' = config m /\ prev_net_io m' = prev_net_io m
                         /\ prev_check_time m' = prev_check_time m)).
Qed.

Lemma preserves_inputs_memory r (m : Monitor) :
  config (snd (check_memory r m)) = config m
  /\ prev_net_io (snd (check_memory r m)) = prev_net_io m
  /\ prev_check_time (snd (check_memory r m)) = prev_check_time m.
Proof.
  by apply (preserves_check_memory
              (fun m' => config m' = config m /\ prev_net_io m' = prev_net_io m
                         /\ prev_check_time m' = prev_check_time m)).
Qed.

Lemma preserves_inputs_disk r (m : Monitor) :
  config (snd (check_disk r m)) = config m
  /\ prev_net_io (snd (check_disk r m)) = prev_net_io m
  /\ prev_check_time (snd (check_disk r m)) = prev_check_time m.
Proof.
  by apply (preserves_check_disk
              (fun m' => config m' = config m /\ prev_net_io m' = prev_net_io m
                         /\ prev_check_time m' = prev_check_time m)).
Qed.

Lemma check_ok {A} (c : M (list A)) (m : Monitor) (l : list A) :
  fst (c m) = Ok l -> c m = (Ok l, snd (c m)) /\ alerts_of (c m) = l.
Proof.
  unfold alerts_of. destruct (c m) as [[l' | e] m']; cbn; [| discriminate].
  by intros [= ->].
Qed.

(** An enabled tick that could count itself runs the four checks, then the
    loop over the alerts that [evaluate] gives, and returns those alerts
    unless the loop raises. *)
Lemma check_resources_eq (r : Readings) (m : Monitor) (s0 : pyval) :
  monitoring_enabled m = true ->
  py_incr_item "checks" (stats m) = Ok s0 ->
  check_resources r m
  = match for_each 0 (evaluate r m) (record_and_gate r)
            (after_checks r (set_stats s0 m)) with
    | (Ok _, m') => (Ok (evaluate r m), m')
    | (Raise e, m') => (Raise e, m')
    end.
Proof.
  intros Hon Hs0. unfold evaluate, after_checks.
  set (m0 := set_stats s0 m).
  destruct (preserves_inputs_cpu r m0) as (C1 & N1 & T1).
  destruct (preserves_inputs_memory r (snd (check_cpu r m0))) as (C2 & N2 & T2).
  destruct (preserves_inputs_disk r (snd (check_memory r (snd (check_cpu r m0)))))
    as (C3 & N3 & T3).
  destruct (check_ok _ _ _ (check_cpu_fst r m0)) as [E1 A1].
  destruct (check_ok _ _ _ (check_memory_fst r (snd (check_cpu r m0)))) as [E2 A2].
  destruct (check_ok _ _ _
              (check_disk_fst r (snd (check_memory r (snd (check_cpu r m0))))))
    as [E3 A3].
  destruct (check_ok _ _ _
              (check_network_fst r
                 (snd (check_disk r (snd (check_memory r (snd (check_cpu r m0))))))))
    as [E4 A4].
  assert (F1 : alerts_of (check_cpu r m) = alerts_of (check_cpu r m0)).
  { unfold alerts_of. by rewrite (check_cpu_fst_congr r m m0). }
  assert (F2 : alerts_of (check_memory r m)
               = alerts_of (check_memory r (snd (check_cpu r m0)))).
  { unfold alerts_of. rewrite (check_memory_fst_congr r m (snd (check_cpu r m0)));
      [done | by rewrite C1]. }
  assert (F3 : alerts_of (check_disk r m)
               = alerts_of (check_disk r (snd (check_memory r (snd (check_cpu r m0)))))).
  { unfold alerts_of.
    rewrite (check_disk_fst_congr r m (snd (check_memory r (snd (check_cpu r m0)))));
      [done | by rewrite C2, C1]. }
  assert (F4 : alerts_of (check_network r m)
               = alerts_of (check_network r
                   (snd (check_disk r (snd (check_memory r (snd (check_cpu r m0)))))))).
  { unfold alerts_of.
    rewrite (check_network_fst_congr r m
               (snd (check_disk r (snd (check_memory r (snd (check_cpu r m0)))))));
      [done | by rewrite C3, C2, C1 | by rewrite N3, N2, N1
      | by rewrite T3, T2, T1]. }
  rewrite F1, F2, F3, F4. clear F1 F2 F3 F4 E1 E2 E3 E4 A1 A2 A3 A4.
  clear C1 C2 C3 N1 N2 N3 T1 T2 T3.
  unfold check_resources, bind at 1, gets. rewrite Hon. cbn [negb].
  unfold bind at 1, incr_stat. rewrite Hs0. fold m0.
  unfold alerts_of. unfold bind at 1.
  pose proof (check_cpu_fst r m0) as E1.
  destruct (check_cpu r m0) as [[a1 | e] m1]; [| discriminate].
  clear E1. cbn [fst snd]. unfold bind at 1.
  pose proof (check_memory_fst r m1) as E2.
  destruct (check_memory r m1) as [[a2 | e] m2]; [| discriminate].
  clear E2. cbn [fst snd]. unfold bind at 1.
  pose proof (check_disk_fst r m2) as E3.
  destruct (check_disk r m2) as [[a3 | e] m3]; [| discriminate].
  clear E3. cbn [fst snd]. unfold bind at 1.
  pose proof (check_network_fst r m3) as E4.
  destruct (check_network r m3) as [[a4 | e] m4]; [| discriminate].
  clear E4. cbn [fst snd]. unfold bind at 1, ret.
  by destruct (for_each 0 _ _ m4) as [[[] | e] m'].
Qed.

Lemma same_records_refl (m : Monitor) : same_records m m.
Proof. by repeat split. Qed.

Lemma after_checks_same_records r (m : Monitor) :
  same_records m (after_checks r m).
Proof.
  unfold after_checks.
  assert (H : forall c : M (list Alert),
            preserves (same_records m) c ->
            forall m1, same_records m m1 -> same_records m (snd (c m1)))
    by (intros c Hc m1; apply Hc).
  apply H; [by apply preserves_check_network |].
  apply H; [by apply preserves_check_disk |].
  apply H; [by apply preserves_check_memory |].
  apply H; [by apply preserves_check_cpu |].
  apply same_records_refl.
Qed.

(** ** The bounded history *)






Lemma load_alert_eq (alert_data : AlertData) (m : Monitor) :
  load_alert alert_data m
  = match alert_of_data alert_data with
    | Ok alert => (Ok tt, set_alert_history (alert_history m ++ [alert]) m)
    | Raise e => (Raise e, m)
    end.
Proof.
  unfold load_alert, bind, lift, modify. by destruct (alert_of_data alert_data).
Qed.






(** *** A whole tick *)















(** Why the alert counter matters to the cap: [check_resources] counts the
    alert between the append and the look at the length.  When the loaded
    [stats] lack [alerts_triggered] the count raises a [KeyError], the tick
    ends there, and the appended alert stays as the 101st entry. *)
Lemma uncounted_alert_exceeds_cap :
  let m := run (fresh_monitor 300) [LoadState uncounted_state_file] in
  length (alert_history m) = 100%nat
  /\ fst (check_resources (cpu_readings 85 1700000060) m) = Raise KeyError
  /\ length (alert_history (run m [Tick (cpu_readings 85 1700000060)])) = 101%nat.
Proof. vm_compute. repeat split; reflexivity. Qed.

(** ** The persisted state *)

Lemma dict_not_serializable (k : string) (v : pyval) (d : list (string * pyval)) :
  dict_get k d = Some v -> json_serializable v = false ->
  json_serializable (PDict d) = false.
Proof.
  intros Hget Hv. cbn. induction d as [| [k0 v0] d IH]; cbn in *; [discriminate |].
  destruct (String.eqb k k0).
  - injection Hget as ->. by rewrite Hv.
  - rewrite (IH Hget). apply andb_false_r.
Qed.

(** A monitor whose [stats] hold a [datetime] cannot save its state:
    the file is left cut short. *)
Lemma save_state_start_time (m : Monitor) :
  start_time_is_datetime m -> save_state m = FileCorrupt.
Proof.
  intros [t Ht]. unfold save_state, dumpable, stat in *.
  destruct (stats m) as [| | | | | | d |] eqn:Hs; try discriminate.
  rewrite (dict_not_serializable "start_time" (PDatetime t) d Ht); [| done].
  by rewrite andb_false_l, andb_false_r.
Qed.

(** A file that does not parse leaves the monitor as it was. *)
Lemma load_state_corrupt (m : Monitor) : load_state FileCorrupt m = (Ok tt, m).
Proof. reflexivity. Qed.

Lemma start_time_incr (k : string) (m : Monitor) (s' : pyval) :
  In k counter_keys -> start_time_is_datetime m ->
  py_incr_item k (stats m) = Ok s' -> start_time_is_datetime (set_stats s' m).
Proof.
  intros Hk [t Ht] Hs. exists t. unfold stat in *. cbn.
  apply py_incr_item_inv in Hs as (d & v & v' & Hd & _ & _ & ->).
  rewrite Hd in Ht. rewrite dict_get_set.
  destruct (String.eqb "start_time" k) eqn:E; [| exact Ht].
  apply String.eqb_eq in E. subst k. cbn in Hk.
  destruct Hk as [H | [H | [H | []]]]; discriminate.
Qed.

Lemma preserves_monitoring_tick_start_time r :
  preserves start_time_is_datetime (monitoring_tick r).
Proof.
  apply (preserves_monitoring_tick start_time_is_datetime (fun _ => True));
    try done.
  - intros now res lvl _. by apply preserves_gate_of_table.
  - intros k m s'. apply start_time_incr.
Qed.

(** However many ticks and commands follow a start without a state file,
    the monitor cannot save its state. *)
Lemma fresh_start_cannot_save cfg net_io time_now now (es : list event) :
  forallb keeps_stats es = true ->
  save_state (run (init cfg net_io time_now now FileMissing) es) = FileCorrupt.
Proof.
  intros Hes. apply save_state_start_time.
  assert (H0 : start_time_is_datetime (init cfg net_io time_now now FileMissing))
    by (by exists now).
  revert H0. generalize (init cfg net_io time_now now FileMissing).
  induction es as [| e es IH]; intros m Hm; cbn; [done |].
  cbn in Hes. apply andb_true_iff in Hes as [He Hes].
  apply (IH Hes). destruct e as [r | [| | state] | |]; cbn; try done.
  by apply preserves_monitoring_tick_start_time.
Qed.

Lemma alert_of_data_to_dict (a : Alert) : alert_of_data (to_dict a) = Ok a.
Proof. destruct a as [[] res msg v thr t]; reflexivity. Qed.

Lemma load_loop_to_dict (h : list Alert) : forall i m,
  for_each i (map to_dict h) (fun _ => load_alert) m
  = (Ok tt, set_alert_history (alert_history m ++ h) m).
Proof.
  induction h as [| a h IH]; intros i m.
  - cbn. rewrite app_nil_r. by destruct m.
  - cbn [map]. rewrite for_each_cons, load_alert_eq, alert_of_data_to_dict, IH.
    cbn. by rewrite <- app_assoc.
Qed.

(** [load_state] on a parsable file, evaluated: the history is rebuilt
    entry by entry; stats and cooldown table are replaced only when the
    whole history was read. *)
Lemma load_state_json (state : StateDoc) (m : Monitor) :
  load_state (FileJson state) m
  = match for_each 0 (default [] (doc_alert_history state))
            (fun _ => load_alert) (set_alert_history [] m) with
    | (Ok _, m1) =>
        (Ok tt,
         set_last_alert_times (default (PDict []) (doc_last_alert_times state))
           (set_stats (default (stats m1) (doc_stats state)) m1))
    | (Raise _, m1) => (Ok tt, m1)
    end.
Proof.
  unfold load_state, try_except. unfold bind at 1. unfold modify at 1.
  unfold bind at 1.
  destruct (for_each 0 _ _ (set_alert_history [] m)) as [[[] | e] m1];
    reflexivity.
Qed.

(** With a state that [json.dump] can write, the state does come back:
    history, stats and cooldown table are read back as they were saved. *)
Lemma load_save_serializable (m m0 : Monitor) :
  dumpable m = true ->
  let m' := snd (load_state (save_state m) m0) in
  alert_history m' = alert_history m
  /\ stats m' = stats m
  /\ last_alert_times m' = last_alert_times m.
Proof.
  intros Hs m'. subst m'. unfold save_state. rewrite Hs.
  rewrite load_state_json. cbn [doc_alert_history default from_option id].
  rewrite load_loop_to_dict. cbn. done.
Qed.

(** C3 fails on the code.  A monitor started without a state file has run
    one tick with the CPU at 85%: one alert in the history, one check and
    one alert counted, one cooldown entry.  [save_state] cannot serialise
    the [datetime] under [stats["start_time"]] and leaves the file cut
    short; the monitor restarted on that file has an empty history, zeroed
    counters and an empty cooldown table. *)
Theorem save_state_fails_round_trip :
  let m := run (fresh_monitor 300) [Tick (cpu_readings 85 1700000060)] in
  let restarted :=
    init (config m) (prev_net_io m) 1700000120 new_year (save_state m) in
  (length (alert_history m) = 1%nat
   /\ stat "checks" m = Some (PInt 1)
   /\ stat "alerts_triggered" m = Some (PInt 1)
   /\ table_entry (cooldown_key "CPU" WARNING) m = Some (PFloat 1700000060))
  /\ stat "start_time" m = Some (PDatetime new_year)
  /\ save_state m = FileCorrupt
  /\ (alert_history restarted = []
      /\ stat "checks" restarted = Some (PInt 0)
      /\ stat "alerts_triggered" restarted = Some (PInt 0)
      /\ table_entry (cooldown_key "CPU" WARNING) restarted = None).
Proof. vm_compute. repeat split; reflexivity. Qed.

(** ** The cooldown across a run *)

(** Recording an alert and sending a message leave the configuration and
    the cooldown table alone. *)
Lemma record_alert_frame (a : Alert) (m : Monitor) :
  config (snd (record_alert a m)) = config m
  /\ last_alert_times (snd (record_alert a m)) = last_alert_times m.
Proof.
  by apply (preserves_record_alert
              (fun m' => config m' = config m
                         /\ last_alert_times m' = last_alert_times m)).
Qed.

Lemma send_telegram_message_frame response (m : Monitor) :
  config (snd (send_telegram_message response m)) = config m
  /\ last_alert_times (snd (send_telegram_message response m))
     = last_alert_times m.
Proof.
  by apply (preserves_send_telegram_message
              (fun m' => config m' = config m
                         /\ last_alert_times m' = last_alert_times m)).
Qed.

(** A turn of the loop whose gate refuses the alert is the recording of the
    alert and nothing else. *)
Lemma record_and_gate_refused r i (a : Alert) (m : Monitor) (v : Q) :
  last_time_of (resource a) (level a) m = Ok v ->
  (gate_time r i - v < cooldown_of m)%Q ->
  record_and_gate r i a m = record_alert a m
  /\ (fst (record_alert a m) = Ok tt ->
      fst (can_send_alert (gate_time r i) (resource a) (level a)
             (snd (record_alert a m))) = Ok false).
Proof.
  intros Hv Hclose. destruct (record_alert_frame a m) as [Hcfg Htable].
  assert (Hgate : can_send_alert (gate_time r i) (resource a) (level a)
                    (snd (record_alert a m))
                  = (Ok false, snd (record_alert a m))).
  { rewrite can_send_alert_eq. unfold last_time_of, cooldown_of.
    rewrite (stored_time_congr _ _ _ Htable), Hcfg.
    unfold last_time_of in Hv. rewrite Hv.
    replace (py_lt _ _) with true; [reflexivity |].
    symmetry. by apply py_lt_true. }
  split; [| intros _; by rewrite Hgate].
  unfold record_and_gate, bind.
  destruct (record_alert a m) as [[[] | e] mr]; [| reflexivity].
  unfold notify_alert, bind. cbn [snd] in Hgate. by rewrite Hgate.
Qed.

(** The gate keeps a notification at or after [t1] on record, when the
    cooldown is not negative or the clock it reads is not before [t1]. *)
Lemma can_send_alert_notified_since t1 key cfg now res lvl :
  (0 <= default 300 (notification_cooldown_seconds cfg) \/ t1 <= now)%Q ->
  preserves (notified_since t1 key cfg) (can_send_alert now res lvl).
Proof.
  intros Hnow m [Hcfg (v & Hv & Hle)]. rewrite can_send_alert_eq.
  unfold last_time_of.
  destruct (stored_time (cooldown_key res lvl) m) as [last | e] eqn:Hlast;
    [| by split; [| exists v]].
  destruct (py_lt _ _) eqn:E; cbn [snd]; [by split; [| exists v] |].
  split; [done |]. rewrite (stored_time_set _ _ _ _ _ Hlast).
  destruct (String.eqb key _) eqn:Hk; [| by exists v].
  apply String.eqb_eq in Hk. subst key. exists now. split; [done |].
  rewrite Hv in Hlast. injection Hlast as <-.
  apply py_lt_false in E. unfold cooldown_of in E. rewrite Hcfg in E.
  destruct Hnow as [Hc | Hc]; lra.
Qed.

Lemma notified_since_frame t1 key cfg (m m' : Monitor) :
  config m' = config m -> last_alert_times m' = last_alert_times m ->
  notified_since t1 key cfg m -> notified_since t1 key cfg m'.
Proof.
  intros Hcfg Ht [Hc (v & Hv & Hle)]. split; [congruence |].
  exists v. by rewrite (stored_time_congr _ _ _ Ht).
Qed.

Lemma load_state_notified_since t1 key cfg (file : StateFile) (m : Monitor) :
  keeps_notification t1 key (Happen (LoadState file)) ->
  notified_since t1 key cfg m ->
  notified_since t1 key cfg (snd (load_state file m)).
Proof.
  intros Hfile Hm. destruct file as [| | state]; [done | done |].
  rewrite load_state_json.
  assert (Hloop : config (snd (for_each 0 (default [] (doc_alert_history state))
                                 (fun _ => load_alert) (set_alert_history [] m)))
                  = config m
                  /\ last_alert_times
                       (snd (for_each 0 (default [] (doc_alert_history state))
                               (fun _ => load_alert) (set_alert_history [] m)))
                     = last_alert_times m).
  { apply (preserves_for_each
             (fun m' => config m' = config m
                        /\ last_alert_times m' = last_alert_times m)); [| done].
    intros i d m' Hm'. rewrite load_alert_eq. by destruct (alert_of_data d). }
  destruct Hloop as [Hcfg Htable].
  destruct (for_each 0 _ _ _) as [[[] | e] m1]; cbn [snd] in *.
  - destruct Hm as [Hc _]. split; [cbn; congruence |].
    cbn in Hfile. destruct Hfile as (v & Hv & Hle). by exists v.
  - by apply (notified_since_frame _ _ _ m).
Qed.

Lemma perform_one_notified_since t1 key cfg (x : action) (m : Monitor) :
  (0 <= default 300 (notification_cooldown_seconds cfg))%Q \/ clock_since t1 x ->
  keeps_notification t1 key x ->
  notified_since t1 key cfg m -> notified_since t1 key cfg (perform_one m x).
Proof.
  intros Hclock Hkeep Hm.
  assert (Hframe : forall k (m0 : Monitor) (s' : pyval),
             In k counter_keys -> notified_since t1 key cfg m0 ->
             py_incr_item k (stats m0) = Ok s' ->
             notified_since t1 key cfg (set_stats s' m0))
    by (intros k m0 s' _ H0 _; by apply (notified_since_frame _ _ _ m0)).
  destruct x as [r i a | r | e]; cbn [perform_one].
  - unfold record_and_gate.
    apply (preserves_bind (notified_since t1 key cfg)); [| | exact Hm].
    + by apply preserves_record_alert.
    + intros _.
      apply (preserves_notify_alert _
               (fun now => (0 <= default 300 (notification_cooldown_seconds cfg)
                            \/ t1 <= now)%Q)); try done.
      intros now res lvl. apply can_send_alert_notified_since.
  - unfold evaluate_checks.
    apply (preserves_bind (notified_since t1 key cfg)); [| | exact Hm].
    { apply preserves_incr_stat. intros m0 s' H0 _.
      by apply (notified_since_frame _ _ _ m0). }
    intros _. apply preserves_bind; [by apply preserves_check_cpu |].
    intros a1. apply preserves_bind; [by apply preserves_check_memory |].
    intros a2. apply preserves_bind; [by apply preserves_check_disk |].
    intros a3. apply preserves_bind; [by apply preserves_check_network |].
    intros a4. apply preserves_ret.
  - destruct e as [r | file | |]; cbn [step]; try done.
    + apply (preserves_monitoring_tick _
               (fun now => (0 <= default 300 (notification_cooldown_seconds cfg)
                            \/ t1 <= now)%Q)); try done;
        try (intros now res lvl; apply can_send_alert_notified_since).
      intros i. cbn in Hclock. destruct Hclock as [Hc | Hc]; [by left |].
      right. apply Hc.
    + by apply load_state_notified_since.
Qed.

Lemma perform_notified_since t1 key cfg (xs : list action) : forall m,
  (0 <= default 300 (notification_cooldown_seconds cfg))%Q
  \/ Forall (clock_since t1) xs ->
  Forall (keeps_notification t1 key) xs ->
  notified_since t1 key cfg m -> notified_since t1 key cfg (perform xs m).
Proof.
  induction xs as [| x xs IH]; intros m Hclock Hkeep Hm; [done |].
  inversion Hkeep as [| x' xs' Hx Hxs]; subst.
  apply IH; [| done |].
  - destruct Hclock as [Hc | Hc]; [by left |].
    right. by inversion Hc.
  - apply perform_one_notified_since; [| done | done].
    destruct Hclock as [Hc | Hc]; [by left |]. right. by inversion Hc.
Qed.

(** A turn of the loop whose gate lets the alert through leaves the time of
    the gate call on record. *)
Lemma record_and_gate_notified r i (a : Alert) (m : Monitor) :
  fst (record_alert a m) = Ok tt ->
  fst (can_send_alert (gate_time r i) (resource a) (level a)
         (snd (record_alert a m))) = Ok true ->
  notified_since (gate_time r i) (cooldown_key (resource a) (level a))
    (config m) (snd (record_and_gate r i a m)).
Proof.
  intros Hrec Hgate. destruct (record_alert_frame a m) as [Hcfg Htable].
  unfold record_and_gate, bind.
  destruct (record_alert a m) as [[[] | e] mr]; [| discriminate].
  cbn [snd] in *. unfold notify_alert, bind.
  rewrite can_send_alert_eq in Hgate |- *.
  destruct (last_time_of (resource a) (level a) mr) as [last | e] eqn:Hlast;
    [| discriminate].
  destruct (py_lt _ _); [discriminate |].
  match goal with
  | |- context [send_telegram_message ?resp ?m0] =>
      destruct (send_telegram_message_frame resp m0) as [Hc Ht];
      destruct (send_telegram_message resp m0) as [[b | e] m2]
  end; cbn [snd] in *.
  - apply (notified_since_frame _ _ _ _ _ Hc Ht). split; [done |].
    exists (gate_time r i). rewrite (stored_time_set _ _ _ _ _ Hlast).
    rewrite String.eqb_refl. split; [done | apply Qle_refl].
  - apply (notified_since_frame _ _ _ _ _ Hc Ht). split; [done |].
    exists (gate_time r i). rewrite (stored_time_set _ _ _ _ _ Hlast).
    rewrite String.eqb_refl. split; [done | apply Qle_refl].
Qed.

Lemma py_incr_item_other (k k0 : string) (m : Monitor) (s' : pyval) :
  py_incr_item k (stats m) = Ok s' -> k0 <> k ->
  stat k0 (set_stats s' m) = stat k0 m.
Proof.
  intros H Hne. apply py_incr_item_inv in H as (d & v & v' & Hd & _ & _ & ->).
  unfold stat. cbn [stats set_stats]. rewrite Hd, dict_get_set.
  destruct (String.eqb k0 k) eqn:E; [| reflexivity].
  by apply String.eqb_eq in E.
Qed.

(** Recording an alert moves no counter but [alerts_triggered]. *)
Lemma record_alert_stat (k : string) (a : Alert) (m : Monitor) :
  k <> "alerts_triggered" ->
  stat k (snd (record_alert a m)) = stat k m.
Proof.
  intros Hk. unfold record_alert, bind, modify, gets, incr_stat.
  cbn -[Nat.ltb].
  destruct (py_incr_item "alerts_triggered" (stats m)) as [s' | e] eqn:Hs;
    [| reflexivity].
  cbn -[Nat.ltb].
  assert (Hstat : stat k (set_stats s' (set_alert_history (alert_history m ++ [a]) m))
                  = stat k m)
    by (by apply (py_incr_item_other "alerts_triggered" k m)).
  destruct (Nat.ltb 100 _); cbn; exact Hstat.
Qed.

(** The answer of the Telegram API for the [i]-th alert is read by the
    [i]-th turn of the loop only. *)
Lemma record_and_gate_response r (i j : nat) (response : result Z) (a : Alert)
    (m : Monitor) :
  j <> i ->
  record_and_gate (with_http_status i response r) j a m
  = record_and_gate r j a m.
Proof.
  intros Hne. unfold record_and_gate, notify_alert.
  cbn [http_status gate_time with_http_status].
  by replace (Nat.eqb j i) with false by (symmetry; by apply Nat.eqb_neq).
Qed.

Lemma record_loop_response_after r (i : nat) (response : result Z)
    (alerts : list Alert) : forall j m,
  (i < j)%nat ->
  for_each j alerts (record_and_gate (with_http_status i response r)) m
  = for_each j alerts (record_and_gate r) m.
Proof.
  induction alerts as [| a alerts IH]; intros j m Hj; [reflexivity |].
  rewrite !for_each_cons, record_and_gate_response by lia.
  destruct (record_and_gate r j a m) as [[[] | e] m1]; [| reflexivity].
  apply IH. lia.
Qed.

(** Up to the [i]-th alert the two loops go the same way, and the [i]-th
    alert, refused by the gate, does not have its answer read. *)
Lemma record_loop_response r (i : nat) (response : result Z) (v : Q)
    (a : Alert) (cfg : Config) (alerts : list Alert) : forall j m,
  (j <= i)%nat ->
  alerts !! (i - j)%nat = Some a ->
  notified_since v (cooldown_key (resource a) (level a)) cfg m ->
  ((0 <= default 300 (notification_cooldown_seconds cfg))%Q
   \/ forall k, (v <= gate_time r k)%Q) ->
  (gate_time r i - v < default 300 (notification_cooldown_seconds cfg))%Q ->
  for_each j alerts (record_and_gate (with_http_status i response r)) m
  = for_each j alerts (record_and_gate r) m.
Proof.
  induction alerts as [| a0 alerts IH]; intros j m Hj Hi Hm Hclock Hclose;
    [reflexivity |].
  rewrite !for_each_cons.
  destruct (decide (j = i)) as [-> | Hne].
  - rewrite Nat.sub_diag in Hi. injection Hi as ->.
    destruct Hm as [Hcfg (v' & Hv' & Hle)].
    assert (Hc : (gate_time r i - v' < cooldown_of m)%Q)
      by (unfold cooldown_of; rewrite Hcfg; lra).
    destruct (record_and_gate_refused r i a m v' Hv' Hc) as [-> _].
    destruct (record_and_gate_refused (with_http_status i response r) i a m v'
                Hv' Hc) as [-> _].
    destruct (record_alert a m) as [[[] | e] m1]; [| reflexivity].
    apply record_loop_response_after. lia.
  - rewrite record_and_gate_response by done.
    pose proof (perform_one_notified_since v
                  (cooldown_key (resource a) (level a)) cfg (Process r j a0) m)
      as Hstep.
    cbn [perform_one clock_since keeps_notification] in Hstep.
    destruct (record_and_gate r j a0 m) as [[[] | e] m1]; [| reflexivity].
    apply IH; try done.
    + lia.
    + replace (i - j)%nat with (S (i - S j)) in Hi by lia. exact Hi.
    + apply Hstep; [| done | done].
      destruct Hclock as [Hc | Hc]; [by left | right; apply Hc].
Qed.

(** The loop over alerts that the gate refuses one and all. *)
Lemma record_loop_refused r (alerts : list Alert) : forall j m,
  (forall k a,
      alerts !! k = Some a ->
      exists v, last_time_of (resource a) (level a) m = Ok v
                /\ (gate_time r (j + k) - v < cooldown_of m)%Q) ->
  last_alert_times (snd (for_each j alerts (record_and_gate r) m))
  = last_alert_times m
  /\ stat "notifications_sent" (snd (for_each j alerts (record_and_gate r) m))
     = stat "notifications_sent" m.
Proof.
  induction alerts as [| a alerts IH]; intros j m Hall; [done |].
  rewrite for_each_cons.
  destruct (Hall 0%nat a eq_refl) as (v & Hv & Hclose).
  rewrite Nat.add_0_r in Hclose.
  destruct (record_and_gate_refused r j a m v Hv Hclose) as [-> _].
  destruct (record_alert_frame a m) as [Hcfg Htable].
  pose proof (record_alert_stat "notifications_sent" a m) as Hstat.
  destruct (record_alert a m) as [[[] | e] m1]; cbn [snd] in *;
    [| by split; [| apply Hstat]].
  destruct (IH (S j) m1) as [Ht Hn].
  - intros k a' Hk. destruct (Hall (S k) a' Hk) as (v' & Hv' & Hc').
    exists v'. unfold last_time_of, cooldown_of in *.
    rewrite (stored_time_congr _ _ _ Htable), Hcfg.
    split; [done |]. by replace (S j + k)%nat with (j + S k)%nat by lia.
  - split; [by rewrite Ht | rewrite Hn; by apply Hstat].
Qed.

(** C1, as amended.  The cooldown of a (resource, severity) pair runs from
    the last alert of the pair that the gate let through, not from the last
    alert.  Once a turn of the loop of [check_resources] has recorded an
    alert and its gate has let it through at time [t1], a later turn for an
    alert of the same pair whose gate reads a time [t2] less than the
    cooldown after [t1] does nothing but record the alert: the gate returns
    [false], no message is sent, and [notifications_sent] is where the
    recording left it, whatever the Telegram API would have answered.  This
    holds whatever happens in between (turns of the loop for other alerts,
    starts of ticks, whole ticks, enable and disable commands, loads of
    state files), provided the cooldown is not negative or no gate call in
    between reads the clock before [t1], and provided a state file loaded in
    between holds for the pair a time at or after [t1].  Within a tick of
    [check_resources], an alert whose pair has a notification on record
    less than the cooldown before the alert's gate time does not have the
    answer of the Telegram API read at all, and a tick all of whose alerts
    are so leaves the cooldown table and [notifications_sent] as they
    were. *)
Theorem cooldown_suppresses_after_notification :
  (forall (m : Monitor) (r1 : Readings) (i1 : nat) (a1 : Alert)
          (between : list action) (r2 : Readings) (i2 : nat) (a2 : Alert),
      let t1 := gate_time r1 i1 in
      let t2 := gate_time r2 i2 in
      resource a2 = resource a1 -> level a2 = level a1 ->
      fst (record_alert a1 m) = Ok tt ->
      fst (can_send_alert t1 (resource a1) (level a1) (snd (record_alert a1 m)))
      = Ok true ->
      ((0 <= cooldown_of m)%Q \/ Forall (clock_since t1) between) ->
      Forall (keeps_notification t1 (cooldown_key (resource a1) (level a1)))
        between ->
      (t2 - t1 < cooldown_of m)%Q ->
      let m2 := perform between (snd (record_and_gate r1 i1 a1 m)) in
      record_and_gate r2 i2 a2 m2 = record_alert a2 m2
      /\ (fst (record_alert a2 m2) = Ok tt ->
          fst (can_send_alert t2 (resource a2) (level a2)
                 (snd (record_alert a2 m2))) = Ok false)
      /\ stat "notifications_sent" (snd (record_and_gate r2 i2 a2 m2))
         = stat "notifications_sent" m2
      /\ last_alert_times (snd (record_and_gate r2 i2 a2 m2))
         = last_alert_times m2)
  /\ (forall (m : Monitor) (r : Readings) (i : nat) (a : Alert) (v : Q)
             (response : result Z),
        evaluate r m !! i = Some a ->
        last_time_of (resource a) (level a) m = Ok v ->
        ((0 <= cooldown_of m)%Q \/ forall k, (v <= gate_time r k)%Q) ->
        (gate_time r i - v < cooldown_of m)%Q ->
        check_resources (with_http_status i response r) m
        = check_resources r m)
  /\ (forall (m : Monitor) (r : Readings),
        (forall i a,
            evaluate r m !! i = Some a ->
            exists v, last_time_of (resource a) (level a) m = Ok v
                      /\ (gate_time r i - v < cooldown_of m)%Q) ->
        last_alert_times (snd (check_resources r m)) = last_alert_times m
        /\ stat "notifications_sent" (snd (check_resources r m))
           = stat "notifications_sent" m).
Proof.
  split; [| split].
  - intros m r1 i1 a1 between r2 i2 a2 t1 t2 Hres Hlvl Hrec Hgate Hclock Hkeep
      Hclose m2.
    assert (Hm2 : notified_since t1 (cooldown_key (resource a1) (level a1))
                    (config m) m2).
    { apply perform_notified_since; [exact Hclock | exact Hkeep |].
      by apply record_and_gate_notified. }
    destruct Hm2 as [Hcfg (v & Hv & Hle)].
    assert (Hv2 : last_time_of (resource a2) (level a2) m2 = Ok v)
      by (unfold last_time_of; by rewrite Hres, Hlvl).
    assert (Hc2 : (gate_time r2 i2 - v < cooldown_of m2)%Q).
    { unfold cooldown_of in *. rewrite Hcfg. fold t2. lra. }
    destruct (record_and_gate_refused r2 i2 a2 m2 v Hv2 Hc2) as [Heq Hfalse].
    split; [exact Heq | split; [exact Hfalse |]]. rewrite Heq.
    split; [by apply record_alert_stat | apply record_alert_frame].
  - intros m r i a v response Hi Hv Hclock Hclose.
    destruct (monitoring_enabled m) eqn:Hon.
    2: { unfold check_resources, bind, gets. cbn. by rewrite Hon. }
    destruct (py_incr_item "checks" (stats m)) as [s0 | e] eqn:Hs0.
    2: { assert (Hfail : forall r0, check_resources r0 m = (Raise e, m)).
         { intros r0. unfold check_resources, bind at 1, gets. rewrite Hon.
           cbn [negb]. unfold bind at 1, incr_stat. by rewrite Hs0. }
         by rewrite !Hfail. }
    rewrite !(check_resources_eq _ m s0 Hon Hs0).
    change (evaluate (with_http_status i response r) m) with (evaluate r m).
    change (after_checks (with_http_status i response r) (set_stats s0 m))
      with (after_checks r (set_stats s0 m)).
    destruct (after_checks_same_records r (set_stats s0 m))
      as (Hcfg & _ & _ & Ht & _).
    cbn [config last_alert_times set_stats] in Hcfg, Ht.
    rewrite (record_loop_response r i response v a (config m) (evaluate r m)
               0%nat (after_checks r (set_stats s0 m))); try done.
    + lia.
    + by rewrite Nat.sub_0_r.
    + split; [exact Hcfg |]. exists v.
      unfold last_time_of in Hv. rewrite (stored_time_congr _ _ _ Ht).
      split; [exact Hv | apply Qle_refl].
  - intros m r Hall.
    destruct (monitoring_enabled m) eqn:Hon.
    2: { assert (Hoff : check_resources r m = (Ok [], m))
           by (unfold check_resources, bind, gets; cbn; by rewrite Hon).
         by rewrite Hoff. }
    destruct (py_incr_item "checks" (stats m)) as [s0 | e] eqn:Hs0.
    2: { assert (Hfail : check_resources r m = (Raise e, m)).
         { unfold check_resources, bind at 1, gets. rewrite Hon. cbn [negb].
           unfold bind at 1, incr_stat. by rewrite Hs0. }
         by rewrite Hfail. }
    rewrite (check_resources_eq r m s0 Hon Hs0).
    destruct (after_checks_same_records r (set_stats s0 m))
      as (Hcfg & _ & _ & Ht & Hs).
    cbn [config last_alert_times stats set_stats] in Hcfg, Ht, Hs.
    destruct (record_loop_refused r (evaluate r m) 0%nat
                (after_checks r (set_stats s0 m))) as [Htable Hsent].
    { intros k a Hk. destruct (Hall k a Hk) as (v & Hv & Hc).
      exists v. unfold last_time_of, cooldown_of in *.
      by rewrite (stored_time_congr _ _ _ Ht), Hcfg. }
    assert (Hstat : stat "notifications_sent" (after_checks r (set_stats s0 m))
                    = stat "notifications_sent" m).
    { unfold stat at 1. rewrite Hs.
      by apply (py_incr_item_other "checks" "notifications_sent" m). }
    destruct (for_each 0 _ _ _) as [[[] | e] m']; cbn [snd] in *;
      by rewrite Htable, Hsent, Ht, Hstat.
Qed.

(** An enabled tick is its start followed by the loop over the alerts: the
    turns of that loop, and the start, are the steps of the path above. *)
Lemma check_resources_path (r : Readings) (m : Monitor) :
  monitoring_enabled m = true ->
  check_resources r m
  = (alerts <- evaluate_checks r ;;
     for_each 0 alerts (record_and_gate r) ;;; ret alerts) m.
Proof.
  intros Hon. unfold check_resources, evaluate_checks, bind at 1, gets.
  rewrite Hon. cbn [negb]. unfold bind.
  destruct (incr_stat "checks" m) as [[[] | e] m0]; [| reflexivity].
  destruct (check_cpu r m0) as [[a1 | e] m1]; [| reflexivity].
  destruct (check_memory r m1) as [[a2 | e] m2]; [| reflexivity].
  destruct (check_disk r m2) as [[a3 | e] m3]; [| reflexivity].
  destruct (check_network r m3) as [[a4 | e] m4]; reflexivity.
Qed.

Lemma cooldown_suppresses_after_notification_witness :
  let a := mk_Alert CRITICAL "CPU" "Использование CPU превысило порог"
             95 80 new_year in
  let m2 := perform [Happen (Tick (cpu_readings 50 1700000100));
                     Happen Disable; Happen Enable;
                     Evaluate (cpu_readings 95 1700000200)]
              (snd (record_and_gate (cpu_readings 95 1700000000) 0 a
                      (fresh_monitor 300))) in
  record_and_gate (cpu_readings 95 1700000200) 0 a m2 = record_alert a m2
  /\ fst (can_send_alert 1700000200 "CPU" CRITICAL (snd (record_alert a m2)))
     = Ok false.
Proof.
  intros a m2.
  destruct cooldown_suppresses_after_notification as [Hpath _].
  destruct (Hpath (fresh_monitor 300) (cpu_readings 95 1700000000) 0%nat a
              [Happen (Tick (cpu_readings 50 1700000100));
               Happen Disable; Happen Enable;
               Evaluate (cpu_readings 95 1700000200)]
              (cpu_readings 95 1700000200) 0%nat a)
    as (Heq & Hfalse & _).
  - reflexivity.
  - reflexivity.
  - vm_compute. reflexivity.
  - vm_compute. reflexivity.
  - left. vm_compute. discriminate.
  - do 4 (constructor; [exact Logic.I |]). constructor.
  - vm_compute. reflexivity.
  - split; [exact Heq |]. apply Hfalse. vm_compute. reflexivity.
Defined.

(** The claim as stated fails when the first of the two alerts was itself
    suppressed: the cooldown runs from the last notified alert.  With a
    cooldown of 300 s, CPU breaches at 0 s, 200 s and 400 s: the second
    and the third are 200 s apart, and the third passes the gate and is
    sent. *)
Lemma second_alert_within_cooldown_sent :
  let t0 := 1700000000%Q in
  let m1 := run (fresh_monitor 300) [Tick (cpu_readings 85 t0)] in
  let m2 := run m1 [Tick (cpu_readings 85 (t0 + 200))] in
  let m3 := run m2 [Tick (cpu_readings 85 (t0 + 400))] in
  ((t0 + 400) - (t0 + 200) < cooldown_of m2)%Q
  /\ fst (can_send_alert (t0 + 200) "CPU" WARNING m1) = Ok false
  /\ fst (can_send_alert (t0 + 400) "CPU" WARNING m2) = Ok true
  /\ stat "notifications_sent" m1 = Some (PInt 1)
  /\ stat "notifications_sent" m2 = Some (PInt 1)
  /\ stat "notifications_sent" m3 = Some (PInt 2).
Proof. vm_compute. repeat split; reflexivity. Qed.

(** Why the amended claim asks for a cooldown that is not negative (or a
    clock that does not go back before [t1]): with a cooldown of -10 s, an
    alert let through at 100 s and another at 95 s, an alert at 89 s is
    less than the cooldown after the first (89 - 100 < -10), yet it passes
    the gate and is sent. *)
Lemma negative_cooldown_alert_sent :
  let a := mk_Alert CRITICAL "CPU" "Использование CPU превысило порог"
             95 80 new_year in
  let m := fresh_monitor (-10) in
  let m1 := snd (record_and_gate (cpu_readings 95 100) 0 a m) in
  let m2 := perform [Process (cpu_readings 95 95) 0 a] m1 in
  fst (can_send_alert 100 "CPU" CRITICAL (snd (record_alert a m))) = Ok true
  /\ (89 - 100 < cooldown_of m)%Q
  /\ fst (can_send_alert 89 "CPU" CRITICAL (snd (record_alert a m2))) = Ok true
  /\ stat "notifications_sent" m2 = Some (PInt 2)
  /\ stat "notifications_sent" (snd (record_and_gate (cpu_readings 95 89) 0 a m2))
     = Some (PInt 3).
Proof. vm_compute. repeat split; reflexivity. Qed.

(** Why the amended claim asks that a state file loaded in between holds a
    time for the pair: [load_state] replaces the cooldown table by the one
    of the file, and an alert 10 s after a notified one is then sent. *)
Lemma state_load_alert_sent :
  let a := mk_Alert CRITICAL "CPU" "Использование CPU превысило порог"
             95 80 new_year in
  let m := fresh_monitor 300 in
  let m1 := snd (record_and_gate (cpu_readings 95 1700000000) 0 a m) in
  let m2 := perform [Happen (LoadState (state_file 0))] m1 in
  fst (can_send_alert 1700000000 "CPU" CRITICAL (snd (record_alert a m))) = Ok true
  /\ (1700000010 - 1700000000 < cooldown_of m)%Q
  /\ fst (can_send_alert 1700000010 "CPU" CRITICAL (snd (record_alert a m2)))
     = Ok true.
Proof. vm_compute. repeat split; reflexivity. Qed.

(** * Further properties of the code *)

(** ** The sender *)

Lemma incr_has_counter (k : string) (s s' : pyval) :
  py_incr_item k s = Ok s' -> has_counter k s = true.
Proof.
  intros H. apply py_incr_item_inv in H as (d & v & v' & -> & G & A & _).
  cbn. rewrite G. destruct v; cbn in A |- *; done.
Qed.

(** X1.  [send_telegram_message] never raises.  It returns [True] exactly
    when notifications are enabled with both credentials non-empty, the
    Telegram API answers with status 200 and [stats] holds a numeric
    [notifications_sent]; in that case the counter, and nothing else, is
    incremented.  In every other case (disabled, a credential missing, any
    other status, an exception of the HTTP call, a counter that cannot be
    incremented) it returns [False] and leaves the monitor as it was. *)
Theorem send_telegram_message_spec (response : result Z) (m : Monitor) :
  exists b : bool,
    fst (send_telegram_message response m) = Ok b
    /\ (b = true <->
        telegram_ready (config m) = true /\ response = Ok 200%Z
        /\ has_counter "notifications_sent" (stats m) = true)
    /\ (b = true ->
        exists s', py_incr_item "notifications_sent" (stats m) = Ok s'
                   /\ snd (send_telegram_message response m) = set_stats s' m)
    /\ (b = false -> snd (send_telegram_message response m) = m).
Proof.
  unfold send_telegram_message, telegram_ready, bind, gets, try_except, lift.
  cbn.
  destruct (default false (telegram_enabled (config m))); cbn.
  2: { exists false. repeat split; try done. by intros (? & _). }
  destruct (truthy (bot_token (config m))); cbn.
  2: { exists false. repeat split; try done. by intros (? & _). }
  destruct (truthy (chat_id (config m))); cbn.
  2: { exists false. repeat split; try done. by intros (? & _). }
  destruct response as [status | e]; cbn.
  2: { exists false. repeat split; try done. by intros (_ & ? & _). }
  destruct (status =? 200)%Z eqn:E.
  2: { exists false. repeat split; try done. intros (_ & [= ->] & _). done. }
  apply Z.eqb_eq in E. subst status. unfold incr_stat.
  destruct (py_incr_item "notifications_sent" (stats m)) as [s' | e] eqn:Hs; cbn.
  - exists true. repeat split; try done.
    + by apply (incr_has_counter _ _ s').
    + intros _. by exists s'.
  - exists false. repeat split; try done.
    intros (_ & _ & Hc). destruct (has_counter_incr _ _ Hc) as [s' Hs'].
    congruence.
Qed.

Lemma send_telegram_message_spec_witness :
  fst (send_telegram_message (Ok 200%Z) (fresh_monitor 300)) = Ok true
  /\ stat "notifications_sent"
       (snd (send_telegram_message (Ok 200%Z) (fresh_monitor 300)))
     = Some (PInt 1)
  /\ snd (send_telegram_message (Ok 404%Z) (fresh_monitor 300))
     = fresh_monitor 300.
Proof.
  destruct (send_telegram_message_spec (Ok 200%Z) (fresh_monitor 300))
    as (b & Hb & Hiff & Hset & _).
  assert (Ht : b = true) by (apply Hiff; repeat split; reflexivity).
  destruct (Hset Ht) as (s' & Hs' & Hm). subst b.
  split; [exact Hb | split].
  - rewrite Hm. vm_compute in Hs'. injection Hs' as <-. reflexivity.
  - destruct (send_telegram_message_spec (Ok 404%Z) (fresh_monitor 300))
      as (b & Hb' & Hiff' & _ & Hsame).
    apply Hsame. destruct b; [| reflexivity].
    destruct (proj1 Hiff' eq_refl) as (_ & Habs & _). discriminate.
Defined.

(** ** What the checks touch *)


(** X2.  Threshold evaluation records nothing: each of the four checks
    leaves the configuration, the alert history, the enabled flag, the
    cooldown table and the stats as they were (it only refreshes the
    current metrics and, for the network, the previous sample).  A check
    whose category is disabled in the configuration returns no alert and
    changes nothing at all, so its metric is not refreshed either. *)
Theorem checks_leave_records (r : Readings) (m : Monitor) :
  (same_records m (snd (check_cpu r m))
   /\ same_records m (snd (check_memory r m))
   /\ same_records m (snd (check_disk r m))
   /\ same_records m (snd (check_network r m)))
  /\ (rc_enabled (cfg_cpu (config m)) = Some false ->
      check_cpu r m = (Ok [], m))
  /\ (rc_enabled (cfg_memory (config m)) = Some false ->
      check_memory r m = (Ok [], m))
  /\ (rc_enabled (cfg_disk (config m)) = Some false ->
      check_disk r m = (Ok [], m))
  /\ (cfg_network_enabled (config m) = Some false ->
      check_network r m = (Ok [], m)).
Proof.
  split; [| split; [| split; [| split]]].
  - split; [| split; [| split]].
    + by apply (preserves_check_cpu (same_records m)), same_records_refl.
    + by apply (preserves_check_memory (same_records m)), same_records_refl.
    + by apply (preserves_check_disk (same_records m)), same_records_refl.
    + by apply (preserves_check_network (same_records m)), same_records_refl.
  - intros H. unfold check_cpu, bind, gets. cbn. by rewrite H.
  - intros H. unfold check_memory, bind, gets. cbn. by rewrite H.
  - intros H. unfold check_disk, bind, gets. cbn. by rewrite H.
  - intros H. unfold check_network, bind, gets. cbn. by rewrite H.
Qed.

Lemma checks_leave_records_witness :
  let off := mk_ResourceConfig (Some false) (Some 80%Q) in
  let m := init (mk_Config (Some 300%Q) off off off (Some ["/"])
                   (Some false) (Some 10%Q) (Some 10%Q)
                   (Some true) (Some "123:token") (Some "42"))
             (mk_NetIO 0 0) 1700000000%Q new_year FileMissing in
  let r := cpu_readings 99 1700000060 in
  check_cpu r m = (Ok [], m) /\ check_memory r m = (Ok [], m)
  /\ check_disk r m = (Ok [], m) /\ check_network r m = (Ok [], m).
Proof.
  intros off m r.
  destruct (checks_leave_records r m) as (_ & Hcpu & Hmem & Hdisk & Hnet).
  split; [apply Hcpu | split; [apply Hmem | split; [apply Hdisk | apply Hnet]]];
    reflexivity.
Defined.

(** ** The disk check *)

(** X3.  With the disk check enabled, [check_disk] returns exactly the
    alerts of the partitions it looks at (those whose mount point is in the
    configured paths, or all of them when the list of paths is empty) whose
    usage could be read and is strictly above the threshold: one alert per
    such partition, named after its mount point, carrying the usage read
    and the threshold.  A partition outside the configured paths, or whose
    usage read fails, never has an alert. *)
Theorem check_disk_alerts (r : Readings) (m : Monitor) (a : Alert) :
  default true (rc_enabled (cfg_disk (config m))) = true ->
  exists alerts,
    fst (check_disk r m) = Ok alerts
    /\ (In a alerts <->
        exists p v,
          In p (psutil_disk_partitions r)
          /\ selected (default ["/"] (cfg_disk_paths (config m))) p
          /\ disk_usage p = Ok v
          /\ (disk_threshold_of m < v)%Q
          /\ a = mk_Alert (if py_gt v 90 then CRITICAL else WARNING)
                   ("Диск " +:+ mountpoint p)
                   "Использование диска превысило порог"
                   v (disk_threshold_of m) (disk_now p)).
Proof.
  intros Hon. eexists. split; [apply check_disk_fst |]. rewrite Hon.
  rewrite in_flat_map. unfold partition_alerts. split.
  - intros (p & Hp & Ha). exists p.
    destruct (_ || _) eqn:Hsel; [| destruct Ha].
    apply selected_true in Hsel.
    destruct (disk_usage p) as [v |] eqn:Hv; [| destruct Ha].
    destruct (py_gt v _) eqn:Hgt; [| destruct Ha].
    destruct Ha as [<- | []]. exists v. apply py_gt_true in Hgt. done.
  - intros (p & v & Hp & Hsel & Hv & Hgt & ->). exists p. split; [done |].
    apply selected_true in Hsel. rewrite Hsel, Hv.
    apply py_gt_true in Hgt. rewrite Hgt. by left.
Qed.

Lemma check_disk_alerts_witness :
  let r := with_partitions
             [mk_Partition "/" (Ok 95%Q) new_year;
              mk_Partition "/home" (Ok 99%Q) new_year;
              mk_Partition "/" (Raise PermissionError) new_year]
             (cpu_readings 10 1700000060) in
  exists alerts,
    fst (check_disk r (fresh_monitor 300)) = Ok alerts
    /\ In (mk_Alert CRITICAL "Диск /" "Использование диска превысило порог"
             95 80 new_year) alerts.
Proof.
  intros r.
  destruct (check_disk_alerts r (fresh_monitor 300)
              (mk_Alert CRITICAL "Диск /" "Использование диска превысило порог"
                 95 80 new_year))
    as (alerts & Hfst & Hiff); [reflexivity |].
  exists alerts. split; [exact Hfst |]. apply Hiff.
  exists (mk_Partition "/" (Ok 95%Q) new_year), 95%Q.
  repeat split; try reflexivity.
  - cbn. tauto.
  - right. cbn. tauto.
Defined.

(** ** The anatomy of a tick *)

(** ** The metrics a tick leaves *)

Lemma check_cpu_metrics r (m : Monitor) :
  current_metrics (snd (check_cpu r m))
  = if default true (rc_enabled (cfg_cpu (config m)))
    then set_cpu_percent (psutil_cpu_percent r) (current_metrics m)
    else current_metrics m.
Proof.
  unfold check_cpu, bind, gets, update_metrics, modify. cbn.
  destruct (default true _); cbn; [| reflexivity].
  by destruct (py_gt _ _).
Qed.

Lemma check_memory_metrics r (m : Monitor) :
  current_metrics (snd (check_memory r m))
  = if default true (rc_enabled (cfg_memory (config m)))
    then set_memory_percent (psutil_memory_percent r) (current_metrics m)
    else current_metrics m.
Proof.
  unfold check_memory, bind, gets, update_metrics, modify. cbn.
  destruct (default true _); cbn; [| reflexivity].
  by destruct (py_gt _ _).
Qed.

Lemma check_disk_partition_metrics thr paths p alerts (m : Monitor) :
  same_but_disk (current_metrics m)
    (current_metrics (snd (check_disk_partition thr paths p alerts m))).
Proof.
  unfold check_disk_partition, try_except, bind, lift, update_metrics, modify.
  destruct (_ || _); cbn; [| by repeat split].
  destruct (disk_usage p) as [disk | e]; cbn.
  - destruct (String.eqb _ _); cbn; destruct (py_gt disk thr); by repeat split.
  - destruct e; by repeat split.
Qed.

Lemma check_disk_loop_metrics thr paths ps : forall alerts (m : Monitor),
  same_but_disk (current_metrics m)
    (current_metrics (snd (check_disk_loop thr paths ps alerts m))).
Proof.
  induction ps as [| p ps IH]; intros alerts m; cbn; [by repeat split |].
  unfold bind.
  pose proof (check_disk_partition_metrics thr paths p alerts m) as Hp.
  pose proof (check_disk_partition_fst thr paths p alerts m) as Hf.
  destruct (check_disk_partition thr paths p alerts m) as [[a' | e] m'];
    cbn in Hp, Hf; [| discriminate].
  destruct (IH a' m') as (H1 & H2 & H3 & H4).
  destruct Hp as (P1 & P2 & P3 & P4).
  repeat split; congruence.
Qed.

Lemma check_disk_metrics r (m : Monitor) :
  same_but_disk (current_metrics m) (current_metrics (snd (check_disk r m))).
Proof.
  unfold check_disk, bind, gets. cbn.
  destruct (negb _); [by repeat split | apply check_disk_loop_metrics].
Qed.

Lemma check_network_snd r (m : Monitor) :
  default true (cfg_network_enabled (config m)) = true ->
  current_metrics (snd (check_network r m))
  = set_network_speed (sent_rate r m) (recv_rate r m) (current_metrics m)
  /\ prev_net_io (snd (check_network r m)) = psutil_net_io_counters r
  /\ prev_check_time (snd (check_network r m)) = network_time r.
Proof.
  intros Hon. unfold check_network, sent_rate, recv_rate, bind, gets,
    update_metrics, modify. cbn. rewrite Hon. cbn. done.
Qed.

(** The loop over the alerts of a tick keeps configuration, metrics,
    previous network sample and enabled flag, also when it raises. *)
Lemma record_loop_same_samples r (alerts : list Alert) (i : nat) (m : Monitor) :
  same_samples m (snd (for_each i alerts (record_and_gate r) m)).
Proof.
  apply (preserves_for_each (same_samples m)); [| by repeat split].
  intros j a. unfold record_and_gate. apply preserves_bind.
  - by apply preserves_record_alert.
  - intros _. apply (preserves_notify_alert (same_samples m) (fun _ => True));
      try done.
    intros now res lvl _. by apply preserves_gate_of_table.
Qed.

Lemma check_network_keeps r (m : Monitor) :
  cpu_percent (current_metrics (snd (check_network r m)))
  = cpu_percent (current_metrics m)
  /\ memory_percent (current_metrics (snd (check_network r m)))
     = memory_percent (current_metrics m).
Proof.
  unfold check_network, bind, gets, update_metrics, modify. cbn.
  by destruct (negb _).
Qed.

Lemma after_checks_metrics (r : Readings) (m : Monitor) :
  (default true (rc_enabled (cfg_cpu (config m))) = true ->
   cpu_percent (current_metrics (after_checks r m)) = psutil_cpu_percent r)
  /\ (default true (rc_enabled (cfg_memory (config m))) = true ->
      memory_percent (current_metrics (after_checks r m))
      = psutil_memory_percent r)
  /\ (default true (cfg_network_enabled (config m)) = true ->
      network_sent_speed (current_metrics (after_checks r m)) = sent_rate r m
      /\ network_recv_speed (current_metrics (after_checks r m)) = recv_rate r m
      /\ prev_net_io (after_checks r m) = psutil_net_io_counters r
      /\ prev_check_time (after_checks r m) = network_time r).
Proof.
  unfold after_checks.
  destruct (preserves_inputs_cpu r m) as (C1 & N1 & T1).
  pose proof (check_cpu_metrics r m) as M1.
  set (m1 := snd (check_cpu r m)) in *.
  destruct (preserves_inputs_memory r m1) as (C2 & N2 & T2).
  pose proof (check_memory_metrics r m1) as M2.
  set (m2 := snd (check_memory r m1)) in *.
  destruct (preserves_inputs_disk r m2) as (C3 & N3 & T3).
  destruct (check_disk_metrics r m2) as (D1 & D2 & D3 & D4).
  set (m3 := snd (check_disk r m2)) in *.
  destruct (check_network_keeps r m3) as (K1 & K2).
  split; [| split].
  - intros Hcpu. rewrite K1, D1, M2, M1, Hcpu.
    by destruct (default true (rc_enabled (cfg_memory (config m1)))).
  - intros Hmem. rewrite K2, D2, M2, C1, Hmem. reflexivity.
  - intros Hnet.
    destruct (check_network_snd r m3) as (S1 & S2 & S3);
      [by rewrite C3, C2, C1 |].
    rewrite S1, S2, S3. cbn. unfold sent_rate, recv_rate.
    by rewrite N3, N2, N1, T3, T2, T1.
Qed.

(** X4.  A tick of an enabled monitor that could count itself leaves in
    the current metrics the readings of this tick: the CPU and memory
    percentages read (for the categories that are enabled) and the two
    network rates computed against the previous sample, and it makes the
    counters just read the previous sample of the next tick.  This holds
    also when the tick later fails while recording an alert. *)
Theorem tick_refreshes_metrics (r : Readings) (m : Monitor) :
  monitoring_enabled m = true ->
  has_counter "checks" (stats m) = true ->
  (default true (rc_enabled (cfg_cpu (config m))) = true ->
   cpu_percent (current_metrics (snd (check_resources r m)))
   = psutil_cpu_percent r)
  /\ (default true (rc_enabled (cfg_memory (config m))) = true ->
      memory_percent (current_metrics (snd (check_resources r m)))
      = psutil_memory_percent r)
  /\ (default true (cfg_network_enabled (config m)) = true ->
      network_sent_speed (current_metrics (snd (check_resources r m)))
      = sent_rate r m
      /\ network_recv_speed (current_metrics (snd (check_resources r m)))
         = recv_rate r m
      /\ prev_net_io (snd (check_resources r m)) = psutil_net_io_counters r
      /\ prev_check_time (snd (check_resources r m)) = network_time r).
Proof.
  intros Hon Hc.
  destruct (has_counter_incr _ _ Hc) as [s0 Hs0].
  assert (Hsnd : same_samples (after_checks r (set_stats s0 m))
                   (snd (check_resources r m))).
  { rewrite (check_resources_eq r m s0 Hon Hs0).
    pose proof (record_loop_same_samples r (evaluate r m) 0
                  (after_checks r (set_stats s0 m))) as H.
    by destruct (for_each 0 _ _ _) as [[[] | e] m5]. }
  destruct Hsnd as (_ & Hm & Hio & Ht & _). rewrite Hm, Hio, Ht.
  apply (after_checks_metrics r (set_stats s0 m)).
Qed.

Lemma tick_refreshes_metrics_witness :
  let m' := snd (check_resources (network_readings 20971520 1700000001)
                   (fresh_monitor 300)) in
  cpu_percent (current_metrics m') = 10%Q
  /\ memory_percent (current_metrics m') = 50%Q
  /\ prev_net_io m' = mk_NetIO 20971520 0.
Proof.
  destruct (tick_refreshes_metrics (network_readings 20971520 1700000001)
              (fresh_monitor 300)) as (Hcpu & Hmem & Hnet);
    [reflexivity | reflexivity |].
  split; [apply Hcpu; reflexivity | split; [apply Hmem; reflexivity |]].
  apply Hnet. reflexivity.
Defined.

(** ** The counters of a tick *)









(** ** When a tick fails *)









(** ** The keys of the cooldown table *)

(** Compare a string that ends in a known suffix with a known string,
    character by character. *)
Ltac peel H :=
  repeat (rewrite ?append_cons, ?append_empty in H);
  first
    [ discriminate H
    | match type of H with
      | String _ _ = String _ _ => injection H as ? H; peel H
      | (?x +:+ _) = _ => is_var x; destruct x; peel H
      | _ = (?x +:+ _) => is_var x; destruct x; peel H
      end ].

Lemma level_suffix_inj (lvl lvl' : AlertLevel) : forall res res' : string,
  res +:+ "_" +:+ level_value lvl = res' +:+ "_" +:+ level_value lvl' ->
  res = res' /\ lvl = lvl'.
Proof.
  induction res as [| c res IH]; intros res' H.
  - destruct res' as [| c' res'].
    + destruct lvl, lvl'; cbn in H; try discriminate H; done.
    + exfalso. destruct lvl, lvl'; peel H.
  - destruct res' as [| c' res'].
    + exfalso. destruct lvl, lvl'; peel H.
    + rewrite !append_cons in H. injection H as -> H.
      destruct (IH res' H) as [-> ->]. done.
Qed.

(** X7.  Distinct (resource, severity) pairs never share an entry of the
    cooldown table: the key determines both the resource and the severity,
    whatever characters the resource name contains.  Hence a gate call for
    one pair changes neither the stored time nor the outcome of the gate
    for any other pair; in particular a [CRITICAL] alert of a resource is
    not held back by a recent [WARNING] notification of the same
    resource. *)
Theorem cooldown_pairs_independent :
  (forall res lvl res' lvl',
      cooldown_key res lvl = cooldown_key res' lvl' -> res = res' /\ lvl = lvl')
  /\ (forall (t t' : Q) res lvl res' lvl' (m : Monitor),
        (res, lvl) <> (res', lvl') ->
        table_entry (cooldown_key res' lvl') (snd (can_send_alert t res lvl m))
        = table_entry (cooldown_key res' lvl') m
        /\ fst (can_send_alert t' res' lvl' (snd (can_send_alert t res lvl m)))
           = fst (can_send_alert t' res' lvl' m)).
Proof.
  assert (Hinj : forall res lvl res' lvl',
            cooldown_key res lvl = cooldown_key res' lvl' ->
            res = res' /\ lvl = lvl')
    by (intros res lvl res' lvl'; apply level_suffix_inj).
  split; [exact Hinj |].
  intros t t' res lvl res' lvl' m Hne.
  assert (Hkey : String.eqb (cooldown_key res' lvl') (cooldown_key res lvl)
                 = false).
  { apply String.eqb_neq. intros E. destruct (Hinj _ _ _ _ E) as [-> ->].
    by apply Hne. }
  assert (Hlook : table_entry (cooldown_key res' lvl')
                    (snd (can_send_alert t res lvl m))
                  = table_entry (cooldown_key res' lvl') m
                  /\ last_time_of res' lvl' (snd (can_send_alert t res lvl m))
                     = last_time_of res' lvl' m).
  { rewrite can_send_alert_eq. unfold last_time_of.
    destruct (stored_time (cooldown_key res lvl) m) as [v | e] eqn:Hv; [| done].
    destruct (py_lt _ _); cbn [snd]; [done |].
    by rewrite (table_entry_set _ _ _ _ _ Hv), (stored_time_set _ _ _ _ _ Hv),
      Hkey. }
  destruct Hlook as [Hentry Hlast]. split; [exact Hentry |].
  rewrite !(can_send_alert_eq t'). unfold cooldown_of.
  rewrite Hlast, can_send_alert_config.
  destruct (last_time_of res' lvl' m); [| done]. by destruct (py_lt _ _).
Qed.

Lemma cooldown_pairs_independent_witness :
  let m1 := snd (can_send_alert 1700000000 "CPU" WARNING (fresh_monitor 300)) in
  fst (can_send_alert 1700000000 "CPU" WARNING (fresh_monitor 300)) = Ok true
  /\ fst (can_send_alert 1700000010 "CPU" WARNING m1) = Ok false
  /\ fst (can_send_alert 1700000010 "CPU" CRITICAL m1) = Ok true.
Proof.
  intros m1. split; [reflexivity | split; [reflexivity |]]. subst m1.
  destruct cooldown_pairs_independent as [_ Hind].
  destruct (Hind 1700000000%Q 1700000010%Q "CPU" WARNING "CPU" CRITICAL
              (fresh_monitor 300)) as [_ ->]; [discriminate | reflexivity].
Defined.

(** The keys of the table across the gate: the key of the pair may come
    in, none goes out. *)
Lemma can_send_alert_keys now res lvl (m : Monitor) (k : string) :
  (is_Some (table_entry k (snd (can_send_alert now res lvl m))) ->
   is_Some (table_entry k m) \/ k = cooldown_key res lvl)
  /\ (is_Some (table_entry k m) ->
      is_Some (table_entry k (snd (can_send_alert now res lvl m)))).
Proof.
  rewrite can_send_alert_eq. unfold last_time_of.
  destruct (stored_time (cooldown_key res lvl) m) as [v | e] eqn:Hv;
    [| by split; [left |]].
  destruct (py_lt _ _); cbn [snd]; [by split; [left |] |].
  rewrite (table_entry_set _ _ _ _ _ Hv).
  destruct (String.eqb k _) eqn:E.
  - apply String.eqb_eq in E. by split; [right |].
  - by split; [left |].
Qed.

Lemma record_and_gate_keys r i (a : Alert) (m : Monitor) (k : string) :
  (is_Some (table_entry k (snd (record_and_gate r i a m))) ->
   is_Some (table_entry k m) \/ k = cooldown_key (resource a) (level a))
  /\ (is_Some (table_entry k m) ->
      is_Some (table_entry k (snd (record_and_gate r i a m)))).
Proof.
  set (I := fun m' : Monitor =>
              (is_Some (table_entry k m') ->
               is_Some (table_entry k m)
               \/ k = cooldown_key (resource a) (level a))
              /\ (is_Some (table_entry k m) -> is_Some (table_entry k m'))).
  assert (HI : preserves I (record_and_gate r i a)).
  { unfold record_and_gate. apply preserves_bind.
    - by apply preserves_record_alert.
    - intros _. unfold notify_alert.
      apply preserves_bind.
      + intros m' [Hin Hout].
        destruct (can_send_alert_keys (gate_time r i) (resource a) (level a)
                    m' k) as [Hin' Hout'].
        split.
        * intros H. destruct (Hin' H) as [H' | ->]; [by apply Hin | by right].
        * intros H. by apply Hout', Hout.
      + intros ok. destruct ok; [| apply preserves_ret].
        apply preserves_bind; [| intros _; apply preserves_ret].
        by apply preserves_send_telegram_message. }
  apply HI. unfold I. by split; [left |].
Qed.

Lemma record_loop_keys r (alerts : list Alert) (k : string) : forall i m,
  (is_Some (table_entry k (snd (for_each i alerts (record_and_gate r) m))) ->
   is_Some (table_entry k m)
   \/ exists a, In a alerts /\ k = cooldown_key (resource a) (level a))
  /\ (is_Some (table_entry k m) ->
      is_Some (table_entry k (snd (for_each i alerts (record_and_gate r) m)))).
Proof.
  induction alerts as [| a alerts IH]; intros i m; [by split; [left |] |].
  rewrite for_each_cons.
  pose proof (record_and_gate_keys r i a m k) as [Ha Hout].
  destruct (record_and_gate r i a m) as [[[] | e] m1]; cbn [snd] in *.
  - destruct (IH (S i) m1) as [Hin1 Hout1]. split.
    + intros H. destruct (Hin1 H) as [H1 | (a' & Hin & ->)].
      * destruct (Ha H1) as [? | ->]; [by left |].
        right. exists a. by split; [left |].
      * right. exists a'. by split; [right |].
    + intros H. by apply Hout1, Hout.
  - split; [| exact Hout].
    intros H. destruct (Ha H) as [? | ->]; [by left |].
    right. exists a. by split; [left |].
Qed.

(** X8.  A tick adds to the cooldown table only keys of alerts that the
    checks raised in this tick, and removes none: every key present after
    the tick was present before it or is the key of the (resource,
    severity) pair of one of the alerts evaluated, and every key present
    before is present after.  A tick without alerts leaves the table as it
    was. *)
Theorem tick_cooldown_keys (r : Readings) (m : Monitor) :
  (forall k,
      is_Some (table_entry k (snd (check_resources r m))) ->
      is_Some (table_entry k m)
      \/ exists a, In a (evaluate r m)
                   /\ k = cooldown_key (resource a) (level a))
  /\ (forall k,
        is_Some (table_entry k m) ->
        is_Some (table_entry k (snd (check_resources r m))))
  /\ (evaluate r m = [] ->
      last_alert_times (snd (check_resources r m)) = last_alert_times m).
Proof.
  destruct (monitoring_enabled m) eqn:Hon.
  2: { assert (Hoff : check_resources r m = (Ok [], m))
         by (unfold check_resources, bind, gets; cbn; by rewrite Hon).
       rewrite Hoff. by split; [left | split]. }
  destruct (py_incr_item "checks" (stats m)) as [s0 | e] eqn:Hs0.
  2: { assert (Hfail : check_resources r m = (Raise e, m)).
       { unfold check_resources, bind at 1, gets. rewrite Hon. cbn [negb].
         unfold bind at 1, incr_stat. by rewrite Hs0. }
       rewrite Hfail. by split; [left | split]. }
  rewrite (check_resources_eq r m s0 Hon Hs0).
  destruct (after_checks_same_records r (set_stats s0 m)) as (_ & _ & _ & Ht & _).
  cbn [last_alert_times set_stats] in Ht.
  assert (Hentry : forall k, table_entry k (after_checks r (set_stats s0 m))
                             = table_entry k m)
    by (intros k; unfold table_entry; by rewrite Ht).
  split; [| split].
  - intros k.
    pose proof (proj1 (record_loop_keys r (evaluate r m) k 0
                         (after_checks r (set_stats s0 m)))) as H.
    rewrite Hentry in H.
    by destruct (for_each 0 _ _ _) as [[[] | e] m'].
  - intros k.
    pose proof (proj2 (record_loop_keys r (evaluate r m) k 0
                         (after_checks r (set_stats s0 m)))) as H.
    rewrite Hentry in H.
    by destruct (for_each 0 _ _ _) as [[[] | e] m'].
  - intros ->. cbn. exact Ht.
Qed.

Lemma tick_cooldown_keys_witness :
  is_Some (table_entry "CPU_CRITICAL"
             (snd (check_resources (cpu_readings 95 1700000060)
                     (fresh_monitor 300))))
  /\ exists a, In a (evaluate (cpu_readings 95 1700000060) (fresh_monitor 300))
               /\ "CPU_CRITICAL" = cooldown_key (resource a) (level a).
Proof.
  assert (H : is_Some (table_entry "CPU_CRITICAL"
             (snd (check_resources (cpu_readings 95 1700000060)
                     (fresh_monitor 300)))))
    by (vm_compute; eauto).
  split; [exact H |].
  destruct (proj1 (tick_cooldown_keys (cpu_readings 95 1700000060)
                     (fresh_monitor 300)) "CPU_CRITICAL" H)
    as [[v Hv] | Ha]; [| exact Ha].
  vm_compute in Hv. discriminate.
Defined.

(** ** Loading the state *)

Lemma load_loop_complete (entries : list AlertData) (alerts : list Alert) :
  decodes entries alerts ->
  forall i m,
    for_each i entries (fun _ => load_alert) m
    = (Ok tt, set_alert_history (alert_history m ++ alerts) m).
Proof.
  induction 1 as [| d a entries alerts Hd _ IH]; intros i m.
  - cbn. rewrite app_nil_r. by destruct m.
  - rewrite for_each_cons, load_alert_eq, Hd, IH. cbn. by rewrite <- app_assoc.
Qed.

Lemma load_loop_partial (good rest : list AlertData) (bad : AlertData)
    (alerts : list Alert) (e : exn) :
  decodes good alerts -> alert_of_data bad = Raise e ->
  forall i m,
    for_each i (good ++ bad :: rest) (fun _ => load_alert) m
    = (Raise e, set_alert_history (alert_history m ++ alerts) m).
Proof.
  intros Hgood Hbad. induction Hgood as [| d a good alerts Hd _ IH]; intros i m.
  - cbn [app]. rewrite for_each_cons, load_alert_eq, Hbad.
    rewrite app_nil_r. by destruct m.
  - cbn [app]. rewrite for_each_cons, load_alert_eq, Hd, IH. cbn.
    by rewrite <- app_assoc.
Qed.

(** X9.  When every entry of the file's [alert_history] decodes,
    [load_state] replaces the history by the decoded alerts (the previous
    history is dropped, not merged), takes the file's [stats] or keeps the
    current ones when the file has none, and takes the file's cooldown
    table or an empty one when the file has none; configuration, metrics,
    network sample and enabled flag are not touched. *)
Theorem load_state_complete (state : StateDoc) (m : Monitor)
    (alerts : list Alert) :
  decodes (default [] (doc_alert_history state)) alerts ->
  load_state (FileJson state) m
  = (Ok tt,
     mk_Monitor (config m) (prev_net_io m) (prev_check_time m) alerts
       (monitoring_enabled m)
       (default (PDict []) (doc_last_alert_times state)) (current_metrics m)
       (default (stats m) (doc_stats state))).
Proof.
  intros Hd. rewrite load_state_json, (load_loop_complete _ _ Hd). reflexivity.
Qed.

Lemma load_state_complete_witness :
  load_state (state_file 2) (fresh_monitor 300)
  = (Ok tt,
     mk_Monitor (config (fresh_monitor 300)) (prev_net_io (fresh_monitor 300))
       (prev_check_time (fresh_monitor 300)) [cpu_alert; cpu_alert]
       (monitoring_enabled (fresh_monitor 300))
       (PDict []) (current_metrics (fresh_monitor 300)) (saved_stats 2)).
Proof.
  apply (load_state_complete
           (mk_StateDoc (Some (repeat (to_dict cpu_alert) 2))
              (Some (saved_stats 2)) (Some (PDict [])))
           (fresh_monitor 300) [cpu_alert; cpu_alert]).
  repeat constructor.
Defined.

(** X10.  [load_state] never lets an exception out.  An absent file and a
    file that does not parse leave the monitor as it was.  When an entry
    of [alert_history] cannot be decoded, the load stops there: the
    history is left holding just the alerts decoded before that entry (the
    previous history is gone), and the file's counters and cooldown table
    are not loaded, the monitor keeping the ones it had. *)
Theorem load_state_partial (state : StateDoc) (m : Monitor)
    (good rest : list AlertData) (bad : AlertData) (alerts : list Alert)
    (e : exn) :
  doc_alert_history state = Some (good ++ bad :: rest) ->
  decodes good alerts ->
  alert_of_data bad = Raise e ->
  load_state (FileJson state) m = (Ok tt, set_alert_history alerts m)
  /\ load_state FileMissing m = (Ok tt, m)
  /\ load_state FileCorrupt m = (Ok tt, m).
Proof.
  intros Hh Hgood Hbad. split; [| by split].
  rewrite load_state_json, Hh. cbn [default from_option id].
  rewrite (load_loop_partial _ _ _ _ _ Hgood Hbad). reflexivity.
Qed.

Lemma load_state_partial_witness :
  let m := run (fresh_monitor 300) [Tick (cpu_readings 95 1700000060)] in
  load_state damaged_state_file m = (Ok tt, set_alert_history [cpu_alert] m).
Proof.
  intros m.
  apply (load_state_partial
           (mk_StateDoc
              (Some [to_dict cpu_alert;
                     mk_AlertData None (Some "CPU") (Some "") (Some 85%Q)
                       (Some 80%Q) (Some (IsoFormat new_year));
                     to_dict cpu_alert])
              (Some (saved_stats 3))
              (Some (PDict [("CPU_WARNING", PFloat 1700000000)])))
           m [to_dict cpu_alert] [to_dict cpu_alert]
           (mk_AlertData None (Some "CPU") (Some "") (Some 85%Q)
              (Some 80%Q) (Some (IsoFormat new_year)))
           [cpu_alert] KeyError).
  - reflexivity.
  - repeat constructor.
  - reflexivity.
Defined.

(** ** The saved form of an alert *)

Lemma AlertLevel_getitem_iff (name : string) (l : AlertLevel) :
  AlertLevel_getitem name = Ok l <-> name = level_value l.
Proof.
  unfold AlertLevel_getitem. split.
  - destruct (String.eqb name "INFO") eqn:E1;
      [apply String.eqb_eq in E1; by intros [= <-] |].
    destruct (String.eqb name "WARNING") eqn:E2;
      [apply String.eqb_eq in E2; by intros [= <-] |].
    destruct (String.eqb name "CRITICAL") eqn:E3;
      [apply String.eqb_eq in E3; by intros [= <-] |].
    destruct (String.eqb name "ERROR") eqn:E4;
      [apply String.eqb_eq in E4; by intros [= <-] | discriminate].
  - intros ->. by destruct l.
Qed.

(** X11.  The dict that [to_dict] makes of an alert is read back by
    [load_state] as that very alert.  This rests on every severity being
    saved under a text, its [value], that is also its member name, by
    which it is looked up: [AlertLevel[name]] succeeds exactly on the four
    values.  An entry that lacks one of its six keys, or whose level is no
    member name, raises a [KeyError]; one whose timestamp is not in ISO
    form raises a [ValueError]. *)
Theorem alert_dict_round_trip :
  (forall a : Alert, alert_of_data (to_dict a) = Ok a)
  /\ (forall name l, AlertLevel_getitem name = Ok l <-> name = level_value l)
  /\ (forall d : AlertData,
        (ad_level d = None \/ ad_resource d = None \/ ad_message d = None
         \/ ad_value d = None \/ ad_threshold d = None \/ ad_timestamp d = None
         \/ (forall l, ad_level d <> Some (level_value l))) ->
        alert_of_data d = Raise KeyError)
  /\ (forall (a : Alert) (text : string),
        alert_of_data
          (mk_AlertData (Some (level_value (level a))) (Some (resource a))
             (Some (message a)) (Some (value a)) (Some (threshold a))
             (Some (NotIso text)))
        = Raise ValueError).
Proof.
  split; [apply alert_of_data_to_dict | split; [apply AlertLevel_getitem_iff |]].
  split.
  - intros [name res msg v thr ts] H. unfold alert_of_data. cbn in *.
    destruct name as [name |]; cbn; [| reflexivity].
    destruct (AlertLevel_getitem name) as [l |] eqn:El.
    2: { unfold AlertLevel_getitem in El.
         repeat (destruct (String.eqb _ _) in El; try discriminate).
         by injection El as <-. }
    apply AlertLevel_getitem_iff in El. subst name.
    destruct res; cbn; [| reflexivity]. destruct msg; cbn; [| reflexivity].
    destruct v; cbn; [| reflexivity]. destruct thr; cbn; [| reflexivity].
    destruct ts; cbn; [| reflexivity].
    exfalso. destruct H as [H | [H | [H | [H | [H | [H | H]]]]]];
      try discriminate. by apply (H l).
  - intros a text. unfold alert_of_data. cbn. by destruct (level a).
Qed.

Lemma alert_dict_round_trip_witness :
  alert_of_data (to_dict cpu_alert) = Ok cpu_alert
  /\ alert_of_data
       (mk_AlertData (Some "Warning") (Some "CPU") (Some "") (Some 85%Q)
          (Some 80%Q) (Some (IsoFormat new_year)))
     = Raise KeyError.
Proof.
  destruct alert_dict_round_trip as (Hrt & _ & Hkey & _).
  split; [apply Hrt |]. apply Hkey. do 6 right. intros l. by destruct l.
Defined.

(** ** Saving what was loaded *)





(** ** A state that can be saved *)
















(** ** The full restart *)

Lemma run_config (es : list event) : forall m, config (run m es) = config m.
Proof.
  induction es as [| e es IH]; intros m; [done |].
  change (config (run (step m e) es) = config m).
  rewrite IH. destruct e as [r | file | |]; cbn; try done.
  - apply (preserves_monitoring_tick
             (fun m' => config m' = config m) (fun _ => True)); try done.
    intros now res lvl _. by apply preserves_gate_of_table.
  - destruct file as [| | state]; [done | done |].
    rewrite load_state_json.
    assert (H : config (snd (for_each 0 (default [] (doc_alert_history state))
                               (fun _ => load_alert) (set_alert_history [] m)))
                = config m).
    { apply (preserves_for_each (fun m' => config m' = config m)); [| done].
      intros i d m' Hm'. rewrite load_alert_eq.
      by destruct (alert_of_data d). }
    by destruct (for_each 0 _ _ _) as [[[] | e] m1].
Qed.

(** X14.  A full restart carries nothing over when the monitor was started
    without a state file: whatever ticks and commands it has been through,
    [restart_application] saves a file that cannot be read back, and the
    relaunched monitor is the monitor of a first start, with an empty
    history, zeroed counters and an empty cooldown table. *)
Theorem full_restart_forgets (cfg : Config) (net_io net_io' : NetIO)
    (time_now time_now' : Q) (now now' : datetime) (es : list event) :
  forallb keeps_stats es = true ->
  restart_application (run (init cfg net_io time_now now FileMissing) es)
    net_io' time_now' now'
  = init cfg net_io' time_now' now' FileMissing.
Proof.
  intros Hes. unfold restart_application.
  rewrite (fresh_start_cannot_save cfg net_io time_now now es Hes), run_config.
  reflexivity.
Qed.

Lemma full_restart_forgets_witness :
  restart_application
    (run (init (example_config 300) (mk_NetIO 0 0) 1700000000 new_year FileMissing)
       [Tick (cpu_readings 95 1700000060); Tick (cpu_readings 95 1700000120)])
    (mk_NetIO 5 5) 1700000200 new_year
  = init (example_config 300) (mk_NetIO 5 5) 1700000200 new_year FileMissing.
Proof.
  apply (full_restart_forgets (example_config 300) (mk_NetIO 0 0) (mk_NetIO 5 5)
           1700000000 1700000200 new_year new_year
           [Tick (cpu_readings 95 1700000060); Tick (cpu_readings 95 1700000120)]).
  reflexivity.
Defined.

(** ** A disabled interval *)

Lemma monitoring_tick_disabled (r : Readings) (m : Monitor) :
  monitoring_enabled m = false -> monitoring_tick r m = (Ok tt, m).
Proof.
  intros Hoff. unfold monitoring_tick, try_except, check_resources, bind, gets.
  cbn. by rewrite Hoff.
Qed.

Lemma run_app (es es' : list event) (m : Monitor) :
  run m (es ++ es') = run (run m es) es'.
Proof. unfold run. apply fold_left_app. Qed.

Lemma run_ticks_disabled (rs : list Readings) (m : Monitor) :
  monitoring_enabled m = false -> run m (map Tick rs) = m.
Proof.
  intros Hoff. induction rs as [| r rs IH]; [reflexivity |].
  cbn [map]. change (run (step m (Tick r)) (map Tick rs) = m).
  cbn [step]. by rewrite (monitoring_tick_disabled r m Hoff).
Qed.

(** X15.  A disabled interval leaves no trace: after [disable], any number
    of turns of the loop, then [enable], an enabled monitor is exactly
    what it was before.  No check is counted, no metric is refreshed, no
    alert is recorded or notified, and the previous network sample is not
    advanced, so that the first rates after the interval are computed over
    the whole of it. *)
Theorem disabled_interval_no_trace (m : Monitor) (rs : list Readings) :
  monitoring_enabled m = true ->
  run m (Disable :: map Tick rs ++ [Enable]) = m.
Proof.
  intros Hon. change (run (set_monitoring_enabled false m)
                        (map Tick rs ++ [Enable]) = m).
  rewrite run_app, run_ticks_disabled by reflexivity.
  cbn. destruct m. cbn in *. by subst.
Qed.

Lemma disabled_interval_no_trace_witness :
  run (fresh_monitor 300)
    (Disable :: map Tick [cpu_readings 95 1700000060;
                          network_readings 20971520 1700000120] ++ [Enable])
  = fresh_monitor 300.
Proof.
  apply (disabled_interval_no_trace (fresh_monitor 300)
           [cpu_readings 95 1700000060; network_readings 20971520 1700000120]).
  reflexivity.
Defined.

(** ** The uptime text *)

Lemma floor_spec (x : Q) :
  (inject_Z (Qfloor x) <= x /\ x < inject_Z (Qfloor x) + 1)%Q.
Proof.
  split; [apply Qfloor_le |].
  pose proof (Qlt_floor x) as H. rewrite inject_Z_plus in H.
  change (inject_Z 1) with 1%Q in H. exact H.
Qed.

Lemma floor_unique (z : Z) (x : Q) :
  (inject_Z z <= x)%Q -> (x < inject_Z z + 1)%Q -> Qfloor x = z.
Proof.
  intros Hle Hlt. destruct (floor_spec x) as [Fle Flt].
  assert (H1 : (inject_Z z < inject_Z (Qfloor x + 1))%Q)
    by (rewrite inject_Z_plus; change (inject_Z 1) with 1%Q; lra).
  assert (H2 : (inject_Z (Qfloor x) < inject_Z (z + 1))%Q)
    by (rewrite inject_Z_plus; change (inject_Z 1) with 1%Q; lra).
  rewrite <- Zlt_Qlt in H1, H2. lia.
Qed.

(** [x // y] and [x % y] split [x], and the remainder lies in [[0, y)]. *)
Lemma py_divmod (x y : Q) :
  (0 < y)%Q ->
  (x == inject_Z (py_floordiv x y) * y + py_mod x y
   /\ 0 <= py_mod x y /\ py_mod x y < y)%Q.
Proof.
  intros Hy. unfold py_floordiv, py_mod.
  destruct (floor_spec (x / y)) as [Fle Flt].
  assert (Hx : (x / y * y == x)%Q) by (field; lra).
  split; [ring |].
  split.
  - assert (inject_Z (Qfloor (x / y)) * y <= x / y * y)%Q
      by (apply Qmult_le_compat_r; lra).
    lra.
  - assert (x / y * y < (inject_Z (Qfloor (x / y)) + 1) * y)%Q
      by (apply Qmult_lt_compat_r; lra).
    lra.
Qed.

Lemma py_floordiv_range (x y : Q) (n : Z) :
  (0 < y)%Q -> (0 <= x)%Q -> (x < inject_Z n * y)%Q ->
  (0 <= py_floordiv x y < n)%Z.
Proof.
  intros Hy H0 Hn. destruct (py_divmod x y Hy) as (Hx & Hr0 & Hr).
  set (f := py_floordiv x y) in *. split.
  - destruct (Z_lt_le_dec f 0) as [Hneg | Hok]; [exfalso | exact Hok].
    assert (Hz : (f <= -1)%Z) by lia. rewrite Zle_Qle in Hz.
    assert (inject_Z f * y <= inject_Z (-1) * y)%Q
      by (apply Qmult_le_compat_r; lra).
    change (inject_Z (-1)) with (-1)%Q in *. lra.
  - destruct (Z_lt_le_dec f n) as [Hok | Hbig]; [exact Hok | exfalso].
    rewrite Zle_Qle in Hbig.
    assert (inject_Z n * y <= inject_Z f * y)%Q
      by (apply Qmult_le_compat_r; lra).
    lra.
Qed.

Lemma uptime_split (u : Q) :
  (u == inject_Z (86400 * uptime_days u + 3600 * uptime_hours u
                  + 60 * uptime_minutes u)
        + py_mod (py_mod u 3600) 60)%Q
  /\ (0 <= uptime_hours u < 24)%Z
  /\ (0 <= uptime_minutes u < 60)%Z.
Proof.
  unfold uptime_days, uptime_hours, uptime_minutes.
  destruct (py_divmod u 86400) as (Hd & Hd0 & Hd1); [lra |].
  destruct (py_divmod (py_mod u 86400) 3600) as (Hh & Hh0 & Hh1); [lra |].
  destruct (py_divmod u 3600) as (Hm & Hm0 & Hm1); [lra |].
  destruct (py_divmod (py_mod u 3600) 60) as (Hs & Hs0 & Hs1); [lra |].
  assert (Hhours : (0 <= py_floordiv (py_mod u 86400) 3600 < 24)%Z).
  { apply py_floordiv_range; [lra | lra |]. change (inject_Z 24 * 3600)%Q with 86400%Q.
    lra. }
  assert (Hmins : (0 <= py_floordiv (py_mod u 3600) 60 < 60)%Z).
  { apply py_floordiv_range; [lra | lra |]. change (inject_Z 60 * 60)%Q with 3600%Q.
    lra. }
  split; [| by split].
  (* the hours of [u // 3600] are 24 days + hours *)
  assert (Hq : py_floordiv u 3600
               = (24 * py_floordiv u 86400 + py_floordiv (py_mod u 86400) 3600)%Z).
  { unfold py_floordiv at 1. apply floor_unique.
    - rewrite inject_Z_plus, inject_Z_mult. change (inject_Z 24) with 24%Q.
      apply (Qmult_le_r _ _ 3600); [lra |].
      assert (E : (u / 3600 * 3600 == u)%Q) by (field; lra). rewrite E. lra.
    - rewrite inject_Z_plus, inject_Z_mult. change (inject_Z 24) with 24%Q.
      apply (Qmult_lt_r _ _ 3600); [lra |].
      assert (E : (u / 3600 * 3600 == u)%Q) by (field; lra). rewrite E. lra. }
  rewrite Hq, inject_Z_plus, inject_Z_mult in Hm.
  change (inject_Z 24) with 24%Q in Hm.
  rewrite !inject_Z_plus, !inject_Z_mult.
  change (inject_Z 86400) with 86400%Q. change (inject_Z 3600) with 3600%Q.
  change (inject_Z 60) with 60%Q. lra.
Qed.

Lemma py_floordiv_pos (x y : Q) :
  (0 < y)%Q -> ((0 <? py_floordiv x y)%Z = true <-> (y <= x)%Q).
Proof.
  intros Hy. destruct (py_divmod x y Hy) as (Hx & Hr0 & Hr).
  set (f := py_floordiv x y) in *. rewrite Z.ltb_lt. split.
  - intros Hf. assert (Hz : (1 <= f)%Z) by lia. rewrite Zle_Qle in Hz.
    assert (inject_Z 1 * y <= inject_Z f * y)%Q
      by (apply Qmult_le_compat_r; lra).
    change (inject_Z 1) with 1%Q in *. lra.
  - intros Hle. destruct (Z_lt_le_dec 0 f) as [Hok | Hbad]; [exact Hok | exfalso].
    rewrite Zle_Qle in Hbad.
    assert (inject_Z f * y <= inject_Z 0 * y)%Q
      by (apply Qmult_le_compat_r; lra).
    change (inject_Z 0) with 0%Q in *. lra.
Qed.

(** X16.  The uptime text is the uptime rounded down to the minute: with
    [d], [h] and [m] the days, hours and minutes computed, the hours are
    below 24, the minutes below 60, and the uptime lies in
    [[86400 d + 3600 h + 60 m, ... + 60)] seconds.  From one day on the
    text shows days, hours and minutes; from one hour on, hours and
    minutes; below one hour, the minutes alone; a negative uptime (the
    clock was set back) never shows days. *)
Theorem format_uptime_spec (time_now start_time : Q) :
  let u := (time_now - start_time)%Q in
  let d := uptime_days u in
  let h := uptime_hours u in
  let m := uptime_minutes u in
  (0 <= h < 24)%Z /\ (0 <= m < 60)%Z
  /\ (inject_Z (86400 * d + 3600 * h + 60 * m) <= u
      /\ u < inject_Z (86400 * d + 3600 * h + 60 * m) + 60)%Q
  /\ ((86400 <= u)%Q ->
      format_uptime time_now start_time
      = pretty d +:+ "д " +:+ pretty h +:+ "ч " +:+ pretty m +:+ "м")
  /\ ((3600 <= u)%Q -> (u < 86400)%Q ->
      format_uptime time_now start_time = pretty h +:+ "ч " +:+ pretty m +:+ "м")
  /\ ((0 <= u)%Q -> (u < 3600)%Q ->
      format_uptime time_now start_time = pretty m +:+ "м")
  /\ ((u < 0)%Q -> (d < 0)%Z).
Proof.
  intros u d h m.
  destruct (uptime_split u) as (Hsplit & Hh & Hm).
  destruct (py_divmod (py_mod u 3600) 60) as (_ & Hs0 & Hs1); [lra |].
  destruct (py_divmod u 86400) as (Hd & Hd0 & Hd1); [lra |].
  fold (uptime_days u) in Hd. fold d h m in Hsplit, Hh, Hm, Hd.
  pose proof (py_floordiv_pos u 86400) as Hdpos. fold (uptime_days u) in Hdpos.
  fold d in Hdpos.
  pose proof (py_floordiv_pos (py_mod u 86400) 3600) as Hhpos.
  fold (uptime_hours u) in Hhpos. fold h in Hhpos.
  assert (Hday0 : (0 <= u)%Q -> (u < 86400)%Q -> d = 0%Z /\ (py_mod u 86400 == u)%Q).
  { intros H0 H1. assert (Hrange : (0 <= d < 1)%Z).
    { apply py_floordiv_range; [lra | exact H0 |].
      change (inject_Z 1 * 86400)%Q with 86400%Q. exact H1. }
    assert (Hz : d = 0%Z) by lia. split; [exact Hz |].
    rewrite Hz in Hd. change (inject_Z 0) with 0%Q in Hd. lra. }
  split; [exact Hh | split; [exact Hm | split; [split; lra |]]].
  unfold format_uptime. fold u d h m.
  split; [| split; [| split]].
  - intros Hu. by rewrite (proj2 (Hdpos ltac:(lra)) Hu).
  - intros Hlo Hhi. destruct (Hday0 ltac:(lra) Hhi) as [Hz Hr].
    rewrite Hz. cbn [Z.ltb Z.compare].
    by rewrite (proj2 (Hhpos ltac:(lra)) ltac:(lra)).
  - intros Hlo Hhi. destruct (Hday0 Hlo ltac:(lra)) as [Hz Hr].
    rewrite Hz. cbn [Z.ltb Z.compare].
    destruct (0 <? h)%Z eqn:E; [| reflexivity].
    exfalso. pose proof (proj1 (Hhpos ltac:(lra)) eq_refl). lra.
  - intros Hneg. destruct (Z_lt_le_dec d 0) as [Hok | Hbad]; [exact Hok | exfalso].
    rewrite Zle_Qle in Hbad.
    assert (inject_Z 0 * 86400 <= inject_Z d * 86400)%Q
      by (apply Qmult_le_compat_r; lra).
    change (inject_Z 0) with 0%Q in *. lra.
Qed.

Lemma format_uptime_spec_witness :
  format_uptime 1700093784 1700000000 = "1д 2ч 3м"
  /\ format_uptime 1700007384 1700000000 = "2ч 3м"
  /\ format_uptime 1700000184 1700000000 = "3м".
Proof.
  destruct (format_uptime_spec 1700093784 1700000000)
    as (_ & _ & _ & Hdays & _).
  destruct (format_uptime_spec 1700007384 1700000000)
    as (_ & _ & _ & _ & Hhours & _).
  destruct (format_uptime_spec 1700000184 1700000000)
    as (_ & _ & _ & _ & _ & Hmins & _).
  split; [| split].
  - rewrite Hdays; [reflexivity | vm_compute; discriminate].
  - rewrite Hhours; [reflexivity | vm_compute; discriminate | reflexivity].
  - rewrite Hmins; [reflexivity | vm_compute; discriminate | reflexivity].
Defined.

(** ** The messages of the bot *)

Lemma stats_item_done (k : string) (m : Monitor) (v : pyval) :
  stats_item k m = Ok v
  <-> exists d, stats m = PDict d /\ dict_get k d = Some v.
Proof.
  unfold stats_item. split.
  - destruct (stats m) as [| | | | | | d |]; try discriminate.
    destruct (dict_get k d) eqn:E; [| discriminate].
    intros [= <-]. by exists d.
  - intros (d & -> & ->). reflexivity.
Qed.

Lemma json_item (k : string) (d : list (string * pyval)) (v : pyval) :
  json_serializable (PDict d) = true -> dict_get k d = Some v ->
  json_serializable v = true.
Proof.
  cbn [json_serializable]. induction d as [| [k' v'] d IH]; [discriminate |].
  cbn [forallb dict_get snd]. intros [Hv Hd]%andb_prop.
  destruct (String.eqb k k'); [by intros [= <-] | by apply IH].
Qed.

Lemma keep_last_nil {A} (n : nat) (l : list A) :
  n <> 0%nat -> keep_last n l = [] -> l = [].
Proof.
  unfold keep_last. intros Hn Hl.
  destruct l as [| a l]; [reflexivity | exfalso].
  assert (Hlen : length (drop (length (a :: l) - n) (a :: l)) = 0%nat)
    by (by rewrite Hl).
  rewrite length_drop in Hlen. cbn [length] in Hlen. lia.
Qed.

Section BotProperties.
Variable str_number : Q -> string.
Variable str_fixed2 : Q -> string.
Variable py_str : pyval -> string.
Variable strftime : datetime -> string.

Lemma get_stats_message_inv (time_now start_time : Q) (m : Monitor)
    (text : string) :
  get_stats_message py_str strftime time_now start_time m = Ok text ->
  exists d c a n t,
    stats m = PDict d
    /\ dict_get "checks" d = Some c
    /\ dict_get "alerts_triggered" d = Some a
    /\ dict_get "notifications_sent" d = Some n
    /\ dict_get "start_time" d = Some (PDatetime t).
Proof.
  unfold get_stats_message. intros H.
  destruct (stats_item "checks" m) as [c |] eqn:Hc; [| discriminate].
  destruct (stats_item "alerts_triggered" m) as [a |] eqn:Ha; [| discriminate].
  destruct (stats_item "notifications_sent" m) as [n |] eqn:Hn;
    [| discriminate].
  destruct (stats_item "start_time" m) as [s |] eqn:Hs; [| discriminate].
  destruct s as [| | | | | | | t]; try discriminate.
  apply stats_item_done in Hc as (d & Hd & Hc).
  apply stats_item_done in Ha as (d1 & Hd1 & Ha).
  apply stats_item_done in Hn as (d2 & Hd2 & Hn).
  apply stats_item_done in Hs as (d3 & Hd3 & Hs).
  rewrite Hd in Hd1, Hd2, Hd3.
  injection Hd1 as <-. injection Hd2 as <-. injection Hd3 as <-.
  by exists d, c, a, n, t.
Qed.

Lemma get_system_status_after (cpu mem : Q) (disk : result Q)
    (time_now start_time : Q) (m : Monitor) :
  snd (get_system_status str_number str_fixed2 cpu mem disk time_now
         start_time m)
  = match disk with
    | Ok d =>
        set_current_metrics
          (mk_Metrics cpu mem d (network_sent_speed (current_metrics m))
             (network_recv_speed (current_metrics m))) m
    | Raise _ => m
    end.
Proof. by destruct disk. Qed.

(** X17.  [get_stats_message] returns a text exactly when [stats] is a dict
    that has the three counters and a [datetime] under [start_time]; in
    every other case it raises. *)
Theorem get_stats_message_done (time_now start_time : Q) (m : Monitor) :
  (exists text,
      get_stats_message py_str strftime time_now start_time m = Ok text)
  <-> (exists d c a n t,
          stats m = PDict d
          /\ dict_get "checks" d = Some c
          /\ dict_get "alerts_triggered" d = Some a
          /\ dict_get "notifications_sent" d = Some n
          /\ dict_get "start_time" d = Some (PDatetime t)).
Proof.
  unfold get_stats_message. split.
  - intros [text H]. by apply (get_stats_message_inv _ _ _ _ H).
  - intros (d & c & a & n & t & Hd & Hc & Ha & Hn & Ht).
    rewrite (proj2 (stats_item_done "checks" m c)) by (by exists d).
    rewrite (proj2 (stats_item_done "alerts_triggered" m a)) by (by exists d).
    rewrite (proj2 (stats_item_done "notifications_sent" m n)) by (by exists d).
    rewrite (proj2 (stats_item_done "start_time" m (PDatetime t)))
      by (by exists d).
    cbn [call_strftime]. by eexists.
Qed.

(** X18.  When [stats] holds JSON values only, which is what [load_state]
    leaves once it took the [stats] object of a state file, the statistics
    message cannot be built: the command sends no reply, the inline button
    only acknowledges the press, and the monitor is as before. *)
Theorem stats_message_fails_on_json_stats (env : BotReadings) (m : Monitor) :
  json_serializable (stats m) = true ->
  exists f,
    get_stats_message py_str strftime (bot_time env) (bot_start_time env) m
    = Raise f
    /\ bot_stats py_str strftime env m = mk_handled [] (Some f) m
    /\ text_handler str_number str_fixed2 py_str strftime env "📈 Статистика" m
       = mk_handled [] (Some f) m
    /\ button_handler str_number str_fixed2 py_str strftime env "stats" m
       = mk_handled [answer] (Some f) m.
Proof.
  intros Hjson.
  destruct (get_stats_message py_str strftime (bot_time env)
              (bot_start_time env) m) as [text | f] eqn:E.
  - exfalso.
    destruct (get_stats_message_inv _ _ _ _ E)
      as (d & _ & _ & _ & t & Hd & _ & _ & _ & Ht).
    rewrite Hd in Hjson. by pose proof (json_item _ _ _ Hjson Ht).
  - exists f. split; [reflexivity |].
    assert (Hbot : bot_stats py_str strftime env m = mk_handled [] (Some f) m)
      by (unfold bot_stats, with_stats_message; by rewrite E).
    split; [exact Hbot | split].
    + exact Hbot.
    + change (with_stats_message py_str strftime env [answer]
                edit_message_text m = mk_handled [answer] (Some f) m).
      unfold with_stats_message. by rewrite E.
Qed.

(** X19.  [get_system_status] with a readable root file system stores the
    three readings in the metrics, keeps the two network speeds of the last
    tick and every other field of the monitor; when the disk read raises,
    the exception goes to the caller and no metric is stored. *)
Theorem get_system_status_metrics (cpu mem : Q) (disk : result Q)
    (time_now start_time : Q) (m : Monitor) :
  match disk with
  | Ok d =>
      exists text,
        get_system_status str_number str_fixed2 cpu mem disk time_now
          start_time m
        = (Ok text,
           set_current_metrics
             (mk_Metrics cpu mem d (network_sent_speed (current_metrics m))
                (network_recv_speed (current_metrics m))) m)
  | Raise e =>
      get_system_status str_number str_fixed2 cpu mem disk time_now
        start_time m
      = (Raise e, m)
  end.
Proof.
  destruct disk as [d | e]; [| reflexivity].
  eexists. reflexivity.
Qed.

(** X20.  The alerts message is built from the last ten entries of the
    history only: two monitors whose histories end in the same ten alerts
    (or are the same shorter history) give the same message. *)
Theorem alerts_message_last_ten (m m' : Monitor) :
  keep_last 10 (alert_history m) = keep_last 10 (alert_history m') ->
  get_alerts_message str_number strftime m
  = get_alerts_message str_number strftime m'.
Proof.
  intros H. unfold get_alerts_message. rewrite <- H.
  destruct (alert_history m) as [| a l] eqn:E, (alert_history m') as [| a' l']
    eqn:E'; try reflexivity.
  - symmetry in H. by apply keep_last_nil in H.
  - by apply keep_last_nil in H.
Qed.

(** X21.  Each of the eight actions does the same through its keyboard text
    and through its inline button: the same monitor afterwards, the same
    failure if any, the same texts sent and the same start of a full
    restart; the button handler acknowledges the press first. *)
Theorem keyboard_and_button_agree (env : BotReadings) (text data : string)
    (m : Monitor) :
  In (text, data) keyboard_and_button ->
  let by_text := text_handler str_number str_fixed2 py_str strftime env text m in
  let by_button :=
    button_handler str_number str_fixed2 py_str strftime env data m in
  after by_button = after by_text
  /\ failed by_button = failed by_text
  /\ texts_of (sent by_button) = texts_of (sent by_text)
  /\ (In start_restart_application (sent by_button)
      <-> In start_restart_application (sent by_text))
  /\ exists rest, sent by_button = answer :: rest.
Proof.
  intros Hin. unfold keyboard_and_button in Hin. cbn [In] in Hin.
  destruct Hin as [[= <- <-] | [[= <- <-] | [[= <- <-] | [[= <- <-]
    | [[= <- <-] | [[= <- <-] | [[= <- <-] | [[= <- <-] | []]]]]]]]];
    cbv zeta.
  - change (text_handler _ _ _ _ _ _ m)
      with (with_system_status str_number str_fixed2 env [] reply_text m).
    change (button_handler _ _ _ _ _ _ m)
      with (with_system_status str_number str_fixed2 env [answer]
              edit_message_text m).
    unfold with_system_status.
    destruct (get_system_status _ _ _ _ _ _ _ m) as [[s | e] m'];
      cbn; intuition (eauto; try discriminate).
  - change (text_handler _ _ _ _ _ _ m)
      with (with_stats_message py_str strftime env [] reply_text m).
    change (button_handler _ _ _ _ _ _ m)
      with (with_stats_message py_str strftime env [answer]
              edit_message_text m).
    unfold with_stats_message.
    destruct (get_stats_message _ _ _ _ m) as [s | f];
      cbn; intuition (eauto; try discriminate).
  - cbn. intuition (eauto; try discriminate).
  - cbn. intuition (eauto; try discriminate).
  - cbn. intuition (eauto; try discriminate).
  - cbn. intuition (eauto; try discriminate).
  - cbn. intuition (eauto; try discriminate).
  - cbn. intuition (eauto; try discriminate).
Qed.

(** X22.  Whatever text or button data the bot receives, the handler leaves
    the configuration, the network sample, the alert history, the cooldown
    table and the counters as they were; and the enabled flag changes only
    on the enable and disable actions. *)
Theorem bot_keeps_state (env : BotReadings) (input : string) (m : Monitor) :
  let by_text := text_handler str_number str_fixed2 py_str strftime env input m in
  let by_button :=
    button_handler str_number str_fixed2 py_str strftime env input m in
  same_state m (after by_text)
  /\ same_state m (after by_button)
  /\ (monitoring_enabled (after by_text) <> monitoring_enabled m ->
      input = "✅ Включить" \/ input = "❌ Выключить")
  /\ (monitoring_enabled (after by_button) <> monitoring_enabled m ->
      input = "enable" \/ input = "disable").
Proof.
  cbv zeta.
  assert (Hstatus : forall before send,
             same_state m (after (with_system_status str_number str_fixed2 env
                                    before send m))
             /\ monitoring_enabled (after (with_system_status str_number
                                             str_fixed2 env before send m))
                = monitoring_enabled m).
  { intros before send.
    assert (Hafter : after (with_system_status str_number str_fixed2 env
                              before send m)
                     = snd (get_system_status str_number str_fixed2
                              (bot_cpu_percent env) (bot_memory_percent env)
                              (bot_disk_usage env) (bot_time env)
                              (bot_start_time env) m)).
    { unfold with_system_status.
      by destruct (get_system_status _ _ _ _ _ _ _ m) as [[text | e] m']. }
    rewrite Hafter, get_system_status_after.
    by destruct (bot_disk_usage env). }
  assert (Hstats : forall before send,
             after (with_stats_message py_str strftime env before send m) = m).
  { intros before send. unfold with_stats_message.
    by destruct (get_stats_message _ _ _ _ m). }
  assert (Hrefl : same_state m m) by (by repeat split).
  assert (Hon : forall b, same_state m (set_monitoring_enabled b m))
    by (intros b; by repeat split).
  split; [| split; [| split]].
  - unfold text_handler, bot_status, bot_stats.
    repeat (destruct (String.eqb input _); [first
      [ apply Hstatus | rewrite Hstats; exact Hrefl | apply Hon | exact Hrefl ] |]).
    exact Hrefl.
  - unfold button_handler.
    repeat (destruct (String.eqb input _); [first
      [ apply Hstatus | rewrite Hstats; exact Hrefl | apply Hon | exact Hrefl ] |]).
    exact Hrefl.
  - unfold text_handler, bot_status, bot_stats.
    destruct (String.eqb input "📊 Статус");
      [intros H; exfalso; apply H, Hstatus |].
    destruct (String.eqb input "📈 Статистика");
      [rewrite Hstats; congruence |].
    destruct (String.eqb input "⚠️ Оповещения"); [cbn; congruence |].
    destruct (String.eqb input "⚙️ Конфигурация"); [cbn; congruence |].
    destruct (String.eqb input "✅ Включить") eqn:Een;
      [apply String.eqb_eq in Een; by left |].
    destruct (String.eqb input "❌ Выключить") eqn:Edis;
      [apply String.eqb_eq in Edis; by right |].
    repeat (destruct (String.eqb input _); [cbn; congruence |]).
    cbn; congruence.
  - unfold button_handler.
    destruct (String.eqb input "status");
      [intros H; exfalso; apply H, Hstatus |].
    destruct (String.eqb input "stats");
      [rewrite Hstats; congruence |].
    destruct (String.eqb input "alerts"); [cbn; congruence |].
    destruct (String.eqb input "config"); [cbn; congruence |].
    destruct (String.eqb input "enable") eqn:Een;
      [apply String.eqb_eq in Een; by left |].
    destruct (String.eqb input "disable") eqn:Edis;
      [apply String.eqb_eq in Edis; by right |].
    repeat (destruct (String.eqb input _); [cbn; congruence |]).
    cbn; congruence.
Qed.

End BotProperties.

Lemma get_stats_message_done_witness :
  exists text,
    get_stats_message print_nothing print_nothing 1700000184 1700000000
      (fresh_monitor 300)
    = Ok text.
Proof.
  apply (proj2 (get_stats_message_done print_nothing print_nothing
                  1700000184 1700000000 (fresh_monitor 300))).
  by exists [("checks", PInt 0); ("alerts_triggered", PInt 0);
             ("notifications_sent", PInt 0); ("start_time", PDatetime new_year)],
    (PInt 0), (PInt 0), (PInt 0), new_year.
Defined.

Lemma stats_message_fails_on_json_stats_witness :
  json_serializable (stats reloaded_monitor) = true
  /\ bot_stats print_nothing print_nothing bot_readings reloaded_monitor
     = mk_handled [] (Some AttributeError) reloaded_monitor.
Proof.
  split; [reflexivity |].
  destruct (stats_message_fails_on_json_stats print_nothing print_nothing
              print_nothing print_nothing bot_readings reloaded_monitor
              eq_refl) as (f & Hf & Hbot & _).
  vm_compute in Hf. injection Hf as <-. exact Hbot.
Defined.

Lemma alerts_message_last_ten_witness :
  get_alerts_message print_nothing print_nothing
    (set_alert_history
       (mk_Alert CRITICAL "Memory" "" 99 80 new_year :: repeat cpu_alert 10)
       (fresh_monitor 300))
  = get_alerts_message print_nothing print_nothing
      (set_alert_history (repeat cpu_alert 10) (fresh_monitor 300)).
Proof.
  apply (alerts_message_last_ten print_nothing print_nothing). reflexivity.
Defined.

Lemma keyboard_and_button_agree_witness :
  In ("✅ Включить", "enable") keyboard_and_button
  /\ after (button_handler print_nothing print_nothing print_nothing
              print_nothing bot_readings "enable"
              (set_monitoring_enabled false (fresh_monitor 300)))
     = after (text_handler print_nothing print_nothing print_nothing
                print_nothing bot_readings "✅ Включить"
                (set_monitoring_enabled false (fresh_monitor 300))).
Proof.
  assert (Hin : In ("✅ Включить", "enable") keyboard_and_button)
    by (do 4 right; left; reflexivity).
  split; [exact Hin |].
  destruct (keyboard_and_button_agree print_nothing print_nothing
              print_nothing print_nothing bot_readings _ _
              (set_monitoring_enabled false (fresh_monitor 300)) Hin)
    as [H _].
  exact H.
Defined.

(** ** The configuration file *)



(** The configuration with its Telegram switch turned off. *)
Lemma disable_telegram_eq (c n t : list (string * pyval)) :
  dict_get "notifications" c = Some (PDict n) ->
  dict_get "telegram" n = Some (PDict t) ->
  disable_telegram (PDict c)
  = Ok (PDict (dict_set "notifications"
                   (PDict (dict_set "telegram"
                             (PDict (dict_set "enabled" (PBool false) t)) n))
                   c)).
Proof.
  intros Hn Ht. unfold disable_telegram, py_getitem, result_bind.
  rewrite Hn, Ht. reflexivity.
Qed.

Lemma disable_telegram_twice (c n t : list (string * pyval)) :
  dict_get "notifications" c = Some (PDict n) ->
  dict_get "telegram" n = Some (PDict t) ->
  result_bind (disable_telegram (PDict c)) disable_telegram
  = disable_telegram (PDict c).
Proof.
  intros Hn Ht. rewrite (disable_telegram_eq _ _ _ Hn Ht). cbn [result_bind].
  rewrite (disable_telegram_eq _ _ _ (dict_get_set_same _ _ _)
             (dict_get_set_same _ _ _)).
  by rewrite !dict_set_twice.
Qed.

(** What the check of the credentials makes of a mapping. *)
Lemma check_credentials_eq (c : list (string * pyval)) :
  check_credentials (PDict c)
  = match dict_get "notifications" c with
    | None => Ok (PDict c)
    | Some (PDict n) =>
        match dict_get "telegram" n with
        | None => Ok (PDict c)
        | Some (PDict t) =>
            if py_bool (default (PBool false) (dict_get "enabled" t))
               && (placeholder_credential "bot_token" "your_bot_token_here" t
                   || placeholder_credential "chat_id" "your_chat_id_here" t)
            then disable_telegram (PDict c)
            else Ok (PDict c)
        | Some _ => Raise AttributeError
        end
    | Some _ => Raise AttributeError
    end.
Proof.
  unfold check_credentials. cbn [py_get result_bind].
  destruct (dict_get "notifications" c) as [v |] eqn:Hn; cbn [default from_option id py_get result_bind dict_get py_bool];
    [| reflexivity].
  destruct v as [| | | | | | n |]; try reflexivity. cbn [py_get result_bind].
  destruct (dict_get "telegram" n) as [v |] eqn:Ht; cbn [default from_option id py_get result_bind dict_get py_bool];
    [| reflexivity].
  destruct v as [| | | | | | t |]; try reflexivity. cbn [py_get result_bind].
  destruct (py_bool (default (PBool false) (dict_get "enabled" t)));
    [| reflexivity].
  cbn [andb]. unfold placeholder_credential.
  destruct (dict_get "bot_token" t) as [token |], (dict_get "chat_id" t)
    as [chat |]; cbn [default from_option id py_get result_bind dict_get py_bool].
  - destruct (negb (py_bool token) || py_eq_str token "your_bot_token_here"),
      (negb (py_bool chat) || py_eq_str chat "your_chat_id_here");
      cbn [orb result_bind]; try reflexivity.
    + apply (disable_telegram_twice _ _ _ Hn Ht).
    + by destruct (disable_telegram (PDict c)).
  - destruct (negb (py_bool token) || py_eq_str token "your_bot_token_here");
      cbn; [apply (disable_telegram_twice _ _ _ Hn Ht) | reflexivity].
  - cbn. destruct (negb (py_bool chat) || py_eq_str chat "your_chat_id_here");
      [apply (disable_telegram_twice _ _ _ Hn Ht) |].
    by destruct (disable_telegram (PDict c)).
  - cbn. apply (disable_telegram_twice _ _ _ Hn Ht).
Qed.

Lemma add_section_eq (k : string) (v : pyval) (c : list (string * pyval)) :
  add_section k v (PDict c) = Ok (PDict (with_section k v c)).
Proof.
  unfold add_section, with_section, py_setitem.
  by destruct (dict_get k c).
Qed.

Lemma dict_get_with_section (k k' : string) (v : pyval)
    (c : list (string * pyval)) :
  dict_get k' (with_section k v c)
  = if String.eqb k' k then Some (default v (dict_get k c)) else dict_get k' c.
Proof.
  unfold with_section.
  destruct (String.eqb k' k) eqn:E.
  - apply String.eqb_eq in E. subst k'.
    destruct (dict_get k c) eqn:Hk; cbn; [exact Hk | apply dict_get_set_same].
  - destruct (dict_get k c); [reflexivity |].
    by rewrite dict_get_set, E.
Qed.

Lemma check_credentials_dict (c : list (string * pyval)) (r : pyval) :
  check_credentials (PDict c) = Ok r -> exists c1, r = PDict c1.
Proof.
  rewrite check_credentials_eq.
  destruct (dict_get "notifications" c) as [v |] eqn:Hn;
    [| intros [= <-]; by eexists].
  destruct v as [| | | | | | n |]; try discriminate.
  destruct (dict_get "telegram" n) as [v |] eqn:Ht;
    [| intros [= <-]; by eexists].
  destruct v as [| | | | | | t |]; try discriminate.
  destruct (_ && _); [| intros [= <-]; by eexists].
  rewrite (disable_telegram_eq _ _ _ Hn Ht). intros [= <-]. by eexists.
Qed.

(** [load_config] on a mapping, in one equation. *)
Lemma load_config_mapping (c : list (string * pyval)) :
  load_config (ConfigYaml (PDict c))
  = match check_credentials (PDict c) with
    | Ok (PDict c1) => PDict (with_defaults c1)
    | _ => create_default_config
    end.
Proof.
  unfold load_config.
  assert (Hc : (if py_bool (PDict c) then PDict c else PDict []) = PDict c)
    by (by destruct c).
  rewrite Hc.
  destruct (check_credentials (PDict c)) as [r | f] eqn:E; [| reflexivity].
  destruct (check_credentials_dict _ _ E) as [c1 ->].
  cbn [result_bind].
  do 2 (rewrite add_section_eq; cbn [result_bind]).
  by rewrite add_section_eq.
Qed.

(** When [load_config] does not fall back to the defaults on a mapping. *)
Lemma check_credentials_readable (c : list (string * pyval)) :
  readable_shape c ->
  exists c1,
    check_credentials (PDict c) = Ok (PDict c1)
    /\ (forall k, k <> "notifications" -> dict_get k c1 = dict_get k c)
    /\ (dict_get "notifications" c = None -> c1 = c).
Proof.
  unfold readable_shape. intros Hshape. rewrite check_credentials_eq.
  destruct (dict_get "notifications" c) as [v |] eqn:Hn;
    [| by exists c].
  destruct v as [| | | | | | n |]; try done.
  destruct (dict_get "telegram" n) as [v |] eqn:Ht; [| by exists c].
  destruct v as [| | | | | | t |]; try done.
  destruct (_ && _); [| by exists c].
  rewrite (disable_telegram_eq _ _ _ Hn Ht). eexists. split; [reflexivity |].
  split; [| done]. intros k Hk. by apply dict_get_set_other.
Qed.

Lemma check_credentials_unreadable (c : list (string * pyval)) :
  ~ readable_shape c -> check_credentials (PDict c) = Raise AttributeError.
Proof.
  unfold readable_shape. intros Hshape. rewrite check_credentials_eq.
  destruct (dict_get "notifications" c) as [v |]; [| done].
  destruct v as [| | | | | | n |]; try reflexivity.
  destruct (dict_get "telegram" n) as [v |]; [| done].
  destruct v as [| | | | | | t |]; try reflexivity. done.
Qed.

(** X23.  Whatever the configuration file is (absent, unreadable, or any
    YAML document), the configuration [load_config] returns is a mapping
    that has a [logging], a [monitoring] and a [notifications] section. *)
Theorem load_config_sections (file : ConfigFile) :
  exists r logging monitoring notifications,
    load_config file = PDict r
    /\ dict_get "logging" r = Some logging
    /\ dict_get "monitoring" r = Some monitoring
    /\ dict_get "notifications" r = Some notifications.
Proof.
  assert (Hdefault : exists r logging monitoring notifications,
             create_default_config = PDict r
             /\ dict_get "logging" r = Some logging
             /\ dict_get "monitoring" r = Some monitoring
             /\ dict_get "notifications" r = Some notifications)
    by (by repeat eexists).
  assert (Hmapping : forall c, exists r logging monitoring notifications,
             load_config (ConfigYaml (PDict c)) = PDict r
             /\ dict_get "logging" r = Some logging
             /\ dict_get "monitoring" r = Some monitoring
             /\ dict_get "notifications" r = Some notifications).
  { intros c. rewrite load_config_mapping.
    destruct (check_credentials (PDict c)) as [r | f]; [| exact Hdefault].
    destruct r as [| | | | | | c1 |]; try exact Hdefault.
    exists (with_defaults c1). unfold with_defaults.
    do 3 eexists. split; [reflexivity |].
    rewrite !dict_get_with_section. cbn [String.eqb Ascii.eqb Bool.eqb].
    repeat split; reflexivity. }
  destruct file as [| | doc]; [exact Hdefault | exact Hdefault |].
  destruct doc as [| b | z | q | s | l | c | t]; try exact Hdefault;
    try apply Hmapping.
  - by destruct b.
  - unfold load_config. by destruct (py_bool (PInt z)).
  - unfold load_config. by destruct (py_bool (PFloat q)).
  - unfold load_config. by destruct (py_bool (PStr s)).
  - unfold load_config. by destruct (py_bool (PList l)).
Qed.

Lemma load_config_readable (c : list (string * pyval)) :
  readable_shape c ->
  exists c1,
    load_config (ConfigYaml (PDict c)) = PDict (with_defaults c1)
    /\ (forall k, k <> "notifications" -> dict_get k c1 = dict_get k c)
    /\ (dict_get "notifications" c = None -> c1 = c).
Proof.
  intros Hshape.
  destruct (check_credentials_readable c Hshape) as (c1 & Hcheck & Hsame).
  exists c1. by rewrite load_config_mapping, Hcheck.
Qed.

Lemma dict_get_with_defaults_notifications (c : list (string * pyval)) :
  dict_get "notifications" (with_defaults c)
  = Some (default default_notifications (dict_get "notifications" c)).
Proof. unfold with_defaults. by rewrite !dict_get_with_section. Qed.

(** The switch of Telegram after a load of a mapping that has it on with a
    credential that does not pass. *)
Lemma load_config_switch_off (c n t : list (string * pyval)) :
  dict_get "notifications" c = Some (PDict n) ->
  dict_get "telegram" n = Some (PDict t) ->
  py_bool (default (PBool false) (dict_get "enabled" t))
  && (placeholder_credential "bot_token" "your_bot_token_here" t
      || placeholder_credential "chat_id" "your_chat_id_here" t) = true ->
  load_config (ConfigYaml (PDict c))
  = PDict (with_defaults
             (dict_set "notifications"
                (PDict (dict_set "telegram"
                          (PDict (dict_set "enabled" (PBool false) t)) n)) c)).
Proof.
  intros Hn Ht Hbad.
  by rewrite load_config_mapping, check_credentials_eq, Hn, Ht, Hbad,
    (disable_telegram_eq _ _ _ Hn Ht).
Qed.

(** X24.  A document that is a mapping of a readable shape is kept: every
    entry of it other than [notifications] is in the returned configuration
    as it was, a missing [logging], [monitoring] or [notifications] section
    is filled with the default one, and no other key is added. *)
Theorem load_config_keeps_document (c : list (string * pyval)) :
  readable_shape c ->
  exists r,
    load_config (ConfigYaml (PDict c)) = PDict r
    /\ (forall k v, k <> "notifications" -> dict_get k c = Some v ->
                    dict_get k r = Some v)
    /\ (dict_get "logging" c = None ->
        dict_get "logging" r = Some default_logging)
    /\ (dict_get "monitoring" c = None ->
        dict_get "monitoring" r = Some default_monitoring)
    /\ (dict_get "notifications" c = None ->
        dict_get "notifications" r = Some default_notifications)
    /\ (forall k, dict_get k c = None -> k <> "logging" -> k <> "monitoring" ->
                  k <> "notifications" -> dict_get k r = None).
Proof.
  intros Hshape.
  destruct (load_config_readable c Hshape) as (c1 & Hload & Hsame & Hnone).
  exists (with_defaults c1). split; [exact Hload |].
  assert (Hget : forall k,
             dict_get k (with_defaults c1)
             = if String.eqb k "notifications"
               then Some (default default_notifications
                            (dict_get "notifications" c1))
               else if String.eqb k "monitoring"
               then Some (default default_monitoring (dict_get "monitoring" c))
               else if String.eqb k "logging"
               then Some (default default_logging (dict_get "logging" c))
               else dict_get k c).
  { intros k. unfold with_defaults. rewrite !dict_get_with_section.
    cbn [String.eqb Ascii.eqb Bool.eqb].
    destruct (String.eqb k "notifications") eqn:E1; [reflexivity |].
    destruct (String.eqb k "monitoring") eqn:E2;
      [by rewrite Hsame |].
    destruct (String.eqb k "logging") eqn:E3; [by rewrite Hsame |].
    apply Hsame. intros ->. by rewrite String.eqb_refl in E1. }
  split; [| split; [| split; [| split]]].
  - intros k v Hk Hv. rewrite Hget.
    destruct (String.eqb k "notifications") eqn:E1;
      [by apply String.eqb_eq in E1 |].
    destruct (String.eqb k "monitoring") eqn:E2;
      [apply String.eqb_eq in E2; subst k; by rewrite Hv |].
    destruct (String.eqb k "logging") eqn:E3;
      [apply String.eqb_eq in E3; subst k; by rewrite Hv |].
    exact Hv.
  - intros H. rewrite Hget. cbn. by rewrite H.
  - intros H. rewrite Hget. cbn. by rewrite H.
  - intros H. rewrite Hget. cbn. by rewrite (Hnone H), H.
  - intros k Hk H1 H2 H3. rewrite Hget.
    destruct (String.eqb k "notifications") eqn:E1;
      [by apply String.eqb_eq in E1 |].
    destruct (String.eqb k "monitoring") eqn:E2;
      [by apply String.eqb_eq in E2 |].
    destruct (String.eqb k "logging") eqn:E3;
      [by apply String.eqb_eq in E3 |].
    exact Hk.
Qed.

Lemma load_config_keeps_document_witness :
  exists r,
    load_config (ConfigYaml half_configured) = PDict r
    /\ dict_get "monitoring" r = Some default_monitoring.
Proof.
  destruct (load_config_keeps_document
              [("notifications",
                PDict [("telegram",
                        PDict [("enabled", PBool true);
                               ("bot_token", PStr "123:token");
                               ("chat_id", PStr "your_chat_id_here")])])] I)
    as (r & Hr & _ & _ & Hm & _).
  exists r. split; [exact Hr | by apply Hm].
Defined.

(** X25.  A document that is not a mapping of a readable shape is thrown
    away whole: when it is empty, or not a mapping, or when its
    [notifications] (or the [telegram] under it) is there but is not a
    mapping, [load_config] returns the default configuration, whatever
    else the document sets. *)
Theorem load_config_falls_back (doc : pyval) :
  (forall c, doc = PDict c -> c = [] \/ ~ readable_shape c) ->
  load_config (ConfigYaml doc) = create_default_config.
Proof.
  intros H.
  destruct doc as [| b | z | q | s | l | c | t]; try reflexivity.
  - by destruct b.
  - unfold load_config. by destruct (py_bool (PInt z)).
  - unfold load_config. by destruct (py_bool (PFloat q)).
  - unfold load_config. by destruct (py_bool (PStr s)).
  - unfold load_config. by destruct (py_bool (PList l)).
  - destruct (H c eq_refl) as [-> | Hshape]; [reflexivity |].
    by rewrite load_config_mapping, (check_credentials_unreadable _ Hshape).
Qed.

Lemma load_config_falls_back_witness :
  config_item ["monitoring"; "resources"; "cpu"; "threshold"] thresholds_only
  = Some (PInt 95)
  /\ load_config (ConfigYaml thresholds_only) = create_default_config.
Proof.
  split; [reflexivity |].
  apply load_config_falls_back. intros c [= <-]. right. intros [].
Defined.

(** X26.  The check of the credentials: when the document switches Telegram
    on but the token or the chat id is missing, empty or the placeholder,
    the returned configuration has the switch off and the rest of the
    [telegram] mapping as it was; when both credentials pass, or the switch
    is not on, the [notifications] section comes back unchanged. *)
Theorem load_config_credentials (c n t : list (string * pyval)) :
  dict_get "notifications" c = Some (PDict n) ->
  dict_get "telegram" n = Some (PDict t) ->
  let r := load_config (ConfigYaml (PDict c)) in
  if py_bool (default (PBool false) (dict_get "enabled" t))
     && (placeholder_credential "bot_token" "your_bot_token_here" t
         || placeholder_credential "chat_id" "your_chat_id_here" t)
  then
    config_item ["notifications"; "telegram"; "enabled"] r = Some (PBool false)
    /\ (forall k, k <> "enabled" ->
                  config_item ["notifications"; "telegram"; k] r = dict_get k t)
    /\ (forall k, k <> "telegram" ->
                  config_item ["notifications"; k] r = dict_get k n)
  else config_item ["notifications"] r = Some (PDict n).
Proof.
  intros Hn Ht. cbv zeta.
  pose proof dict_get_with_defaults_notifications as Hget.
  destruct (_ && _) eqn:Hbad.
  - rewrite (load_config_switch_off _ _ _ Hn Ht Hbad).
    cbn [config_item]. rewrite Hget, dict_get_set_same. cbn [default from_option id].
    split; [by rewrite !dict_get_set_same |].
    split.
    + intros k Hk. rewrite dict_get_set_same.
      rewrite (dict_get_set_other _ _ _ _ Hk).
      by destruct (dict_get k t).
    + intros k Hk. rewrite (dict_get_set_other _ _ _ _ Hk).
      by destruct (dict_get k n).
  - rewrite load_config_mapping, check_credentials_eq, Hn, Ht, Hbad.
    cbn [config_item]. by rewrite Hget, Hn.
Qed.

Lemma load_config_credentials_witness :
  config_item ["notifications"; "telegram"; "enabled"]
    (load_config (ConfigYaml half_configured))
  = Some (PBool false).
Proof.
  pose proof (load_config_credentials
                [("notifications",
                  PDict [("telegram",
                          PDict [("enabled", PBool true);
                                 ("bot_token", PStr "123:token");
                                 ("chat_id", PStr "your_chat_id_here")])])]
                [("telegram",
                  PDict [("enabled", PBool true);
                         ("bot_token", PStr "123:token");
                         ("chat_id", PStr "your_chat_id_here")])]
                [("enabled", PBool true); ("bot_token", PStr "123:token");
                 ("chat_id", PStr "your_chat_id_here")]
                eq_refl eq_refl) as H.
  exact (proj1 H).
Defined.

(** X27.  The check of the credentials does not see what [load_config]
    itself puts in: for an absent or unreadable file, and for a readable
    mapping with no [notifications] section, the returned configuration has
    Telegram switched on with the placeholder token and chat id; loading the
    returned configuration once more switches it off. *)
Theorem load_config_default_credentials (file : ConfigFile) :
  (forall doc, file = ConfigYaml doc ->
     exists c, doc = PDict c /\ readable_shape c
               /\ dict_get "notifications" c = None) ->
  let r := load_config file in
  config_item ["notifications"; "telegram"; "enabled"] r = Some (PBool true)
  /\ config_item ["notifications"; "telegram"; "bot_token"] r
     = Some (PStr "your_bot_token_here")
  /\ config_item ["notifications"; "telegram"; "chat_id"] r
     = Some (PStr "your_chat_id_here")
  /\ config_item ["notifications"; "telegram"; "enabled"]
       (load_config (ConfigYaml r))
     = Some (PBool false).
Proof.
  intros Hfile. cbv zeta.
  assert (Hn : exists r, load_config file = PDict r
                         /\ dict_get "notifications" r
                            = Some default_notifications).
  { destruct file as [| | doc]; [by eexists | by eexists |].
    destruct (Hfile doc eq_refl) as (c & -> & Hshape & Hnone).
    destruct (load_config_readable c Hshape) as (c1 & Hr & _ & Hc1).
    exists (with_defaults c1). split; [exact Hr |].
    by rewrite dict_get_with_defaults_notifications, (Hc1 Hnone), Hnone. }
  destruct Hn as (r & -> & Hn).
  split; [| split; [| split]]; try (cbn [config_item]; by rewrite Hn).
  rewrite (load_config_switch_off r _ _ Hn eq_refl eq_refl).
  cbn [config_item]. rewrite dict_get_with_defaults_notifications.
  by rewrite !dict_get_set_same.
Qed.

Lemma load_config_default_credentials_witness :
  config_item ["notifications"; "telegram"; "enabled"]
    (load_config ConfigMissing)
  = Some (PBool true)
  /\ config_item ["notifications"; "telegram"; "enabled"]
       (load_config (ConfigYaml (load_config ConfigMissing)))
     = Some (PBool false).
Proof.
  destruct (load_config_default_credentials ConfigMissing) as (H1 & _ & _ & H2).
  - intros doc [=].
  - split; [exact H1 | exact H2].
Defined.
